(** * ClippingPlanesCollection (Source/Scene/ClippingPlanesCollection.js)

    A shallow embedding of the collection of clipping planes: the
    constructor, the [combineClippingRegions] accessor pair,
    [getTestIntersectionFunction], [transformAndPackPlanes], [clone] and
    [computeIntersectionWithBoundingVolume].

    JavaScript objects live in a heap of typed cells addressed by
    locations, so that two references to one object are one location.
    Every operation is a function in a state-and-exception monad over the
    heap and the two module-level scratch objects. *)

From Stdlib Require Import ZArith Bool Lia.
From stdpp Require Import base option list.

(** ** Core collaborators *)

(** [Core/Intersect]: the three verdicts of a plane test. *)
Inductive Intersect := OUTSIDE | INTERSECTING | INSIDE.

(** Strict equality [===] on [Intersect] values. *)
Definition Intersect_eqb (a b : Intersect) : bool :=
  match a, b with
  | OUTSIDE, OUTSIDE | INTERSECTING, INTERSECTING | INSIDE, INSIDE => true
  | _, _ => false
  end.

Record Cartesian3 (num : Type) := { x3 : num; y3 : num; z3 : num }.
Record Cartesian4 (num : Type) := { x : num; y : num; z : num; w : num }.

(** [Core/Plane]: a normal and a distance.  The normal is kept inline. *)
Record Plane (num : Type) := { normal : Cartesian3 num; distance : num }.

Arguments x3 {num} _.
Arguments y3 {num} _.
Arguments z3 {num} _.
Arguments x {num} _.
Arguments y {num} _.
Arguments z {num} _.
Arguments w {num} _.
Arguments normal {num} _.
Arguments distance {num} _.

(** The modules of [Core] the collection calls but does not define: numbers,
    [Matrix4], [Color], the product of two matrices and the transform of a
    plane.  They are parameters of the development. *)
Class Core := {
  num : Type;
  Matrix4 : Type;
  Color : Type;
  Matrix4_IDENTITY : Matrix4;
  Color_WHITE : Color;
  num_zero : num;
  (** [Matrix4.multiply(left, right, result)]: the value written to [result]. *)
  Matrix4_multiply : Matrix4 -> Matrix4 -> Matrix4;
  (** [Plane.transform(plane, transform, result)]: the value written to
      [result]. *)
  Plane_transform : Plane num -> Matrix4 -> Plane num;
}.

(** A location is an index in the heap. *)
Abbreviation loc := nat (only parsing).

(** ** Outcomes *)

(** [TypeError]: the runtime's error on a property access or call through
    [undefined].  [IllTyped]: a reference to a cell of another type than the
    JSDoc type of the place it is read from; outside the model. *)
Inductive error := TypeError | IllTyped.

Inductive result (A : Type) :=
| Ok (a : A)
| Throw (e : error).
Arguments Ok {A} a.
Arguments Throw {A} e.

Section Collection.
Context {core : Core}.

(** ** Heap *)

(** The fields of a [ClippingPlanesCollection] instance.  Object-valued
    fields hold references.  The two private fields are [undefined] ([None])
    until the setter first runs. *)
Record Collection := {
  planes : loc;
  enabled : bool;
  modelMatrix : loc;
  edgeColor : loc;
  edgeWidth : num;
  _combineClippingRegions : option bool;
  _testIntersection : option (Intersect -> bool);
}.

(** Heap cells.  An array slot is [None] for a hole or [undefined]. *)
Inductive obj :=
| OArray (elems : list (option loc))
| OPlane (p : Plane num)
| OMatrix4 (m : Matrix4)
| OCartesian4 (c : Cartesian4 num)
| OColor (c : Color)
| OCollection (c : Collection).

(** The heap and the module-level [scratchPlane] and [scratchMatrix], which
    no reference outside the module reaches. *)
Record state := {
  heap : list obj;
  scratchPlane : Plane num;
  scratchMatrix : Matrix4;
}.

(** ** The monad *)

(** A computation returns a value or throws, and in both cases leaves a
    state: writes made before a throw persist. *)
Definition M (A : Type) : Type := state -> result A * state.

#[export] Instance M_ret : MRet M := fun A a st => (Ok a, st).
#[export] Instance M_bind : MBind M := fun A B f m st =>
  match m st with
  | (Ok a, st') => f a st'
  | (Throw e, st') => (Throw e, st')
  end.

Definition throw {A} (e : error) : M A := fun st => (Throw e, st).

Definition with_heap (h : list obj) (st : state) : state :=
  {| heap := h; scratchPlane := scratchPlane st; scratchMatrix := scratchMatrix st |}.

(** [new]: a fresh cell at the end of the heap. *)
Definition alloc (o : obj) : M loc := fun st =>
  (Ok (length (heap st)), with_heap (heap st ++ [o]) st).

Definition load (l : loc) : M obj := fun st =>
  match heap st !! l with
  | Some o => (Ok o, st)
  | None => (Throw IllTyped, st)
  end.

Definition store (l : loc) (o : obj) : M unit := fun st =>
  (Ok tt, with_heap (<[l := o]> (heap st)) st).

Definition load_array (l : loc) : M (list (option loc)) :=
  o ← load l; match o with OArray a => mret a | _ => throw IllTyped end.
Definition load_plane (l : loc) : M (Plane num) :=
  o ← load l; match o with OPlane p => mret p | _ => throw IllTyped end.
Definition load_matrix (l : loc) : M Matrix4 :=
  o ← load l; match o with OMatrix4 m => mret m | _ => throw IllTyped end.
Definition load_cartesian4 (l : loc) : M (Cartesian4 num) :=
  o ← load l; match o with OCartesian4 c => mret c | _ => throw IllTyped end.
Definition load_color (l : loc) : M Color :=
  o ← load l; match o with OColor c => mret c | _ => throw IllTyped end.
Definition load_collection (l : loc) : M Collection :=
  o ← load l; match o with OCollection c => mret c | _ => throw IllTyped end.

(** A write to one field of the collection at [l]. *)
Definition modify_collection (l : loc) (f : Collection -> Collection) : M unit :=
  c ← load_collection l; store l (OCollection (f c)).

Definition set_scratchPlane (p : Plane num) : M unit := fun st =>
  (Ok tt, {| heap := heap st; scratchPlane := p; scratchMatrix := scratchMatrix st |}).
Definition set_scratchMatrix (m : Matrix4) : M unit := fun st =>
  (Ok tt, {| heap := heap st; scratchPlane := scratchPlane st; scratchMatrix := m |}).
Definition get_scratchPlane : M (Plane num) := fun st => (Ok (scratchPlane st), st).
Definition get_scratchMatrix : M Matrix4 := fun st => (Ok (scratchMatrix st), st).

(** A local variable that holds a [Matrix4]: a heap object or the module's
    [scratchMatrix]. *)
Inductive matref := MRef (l : loc) | MScratch.

Definition read_matrix (r : matref) : M Matrix4 :=
  match r with MRef l => load_matrix l | MScratch => get_scratchMatrix end.

(** [a[i]]: a read out of range is [undefined]. *)
Definition array_get (a : loc) (i : nat) : M (option loc) :=
  elems ← load_array a; mret (mjoin (elems !! i)).

(** ** Core helpers *)

(** [defined(value)]: neither [undefined] nor [null]. *)
Definition defined {A} (value : option A) : bool :=
  match value with Some _ => true | None => false end.

(** [defaultValue(a, b)]. *)
Definition defaultValue {A} (a : option A) (b : A) : A :=
  match a with Some v => v | None => b end.

(** Truthiness of a flag that may be [undefined]. *)
Definition truthy (b : option bool) : bool :=
  match b with Some true => true | _ => false end.

(** [a !== b] on flags. *)
Definition strict_neq (a b : option bool) : bool :=
  match a, b with
  | None, None => false
  | Some u, Some v => negb (eqb u v)
  | _, _ => true
  end.

(** Field writes. *)
Definition with_planes (v : loc) (c : Collection) : Collection :=
  {| planes := v; enabled := enabled c; modelMatrix := modelMatrix c;
     edgeColor := edgeColor c; edgeWidth := edgeWidth c;
     _combineClippingRegions := _combineClippingRegions c;
     _testIntersection := _testIntersection c |}.
Definition with_enabled (v : bool) (c : Collection) : Collection :=
  {| planes := planes c; enabled := v; modelMatrix := modelMatrix c;
     edgeColor := edgeColor c; edgeWidth := edgeWidth c;
     _combineClippingRegions := _combineClippingRegions c;
     _testIntersection := _testIntersection c |}.
Definition with_edgeWidth (v : num) (c : Collection) : Collection :=
  {| planes := planes c; enabled := enabled c; modelMatrix := modelMatrix c;
     edgeColor := edgeColor c; edgeWidth := v;
     _combineClippingRegions := _combineClippingRegions c;
     _testIntersection := _testIntersection c |}.
Definition with_combineClippingRegions (v : option bool) (c : Collection) : Collection :=
  {| planes := planes c; enabled := enabled c; modelMatrix := modelMatrix c;
     edgeColor := edgeColor c; edgeWidth := edgeWidth c;
     _combineClippingRegions := v;
     _testIntersection := _testIntersection c |}.
Definition with_testIntersection (v : option (Intersect -> bool)) (c : Collection) : Collection :=
  {| planes := planes c; enabled := enabled c; modelMatrix := modelMatrix c;
     edgeColor := edgeColor c; edgeWidth := edgeWidth c;
     _combineClippingRegions := _combineClippingRegions c;
     _testIntersection := v |}.

(** ** The source *)

(** [getTestIntersectionFunction(combineClippingRegions)] (lines 110-120). *)
Definition getTestIntersectionFunction (combineClippingRegions : option bool)
  : Intersect -> bool :=
  if truthy combineClippingRegions
  then fun value => Intersect_eqb value INSIDE
  else fun value => Intersect_eqb value OUTSIDE.

(** The getter of [combineClippingRegions] (lines 98-100). *)
Definition get_combineClippingRegions (this : loc) : M (option bool) :=
  c ← load_collection this; mret (_combineClippingRegions c).

(** The setter of [combineClippingRegions] (lines 101-106). *)
Definition set_combineClippingRegions (this : loc) (value : option bool) : M unit :=
  c ← load_collection this;
  if strict_neq (_combineClippingRegions c) value then
    modify_collection this (with_combineClippingRegions value);;
    modify_collection this (with_testIntersection (Some (getTestIntersectionFunction value)))
  else mret tt.

(** The [options] argument of the constructor; an absent property is [None]. *)
Record Options := {
  o_planes : option loc;
  o_enabled : option bool;
  o_modelMatrix : option loc;
  o_combineClippingRegions : option bool;
  o_edgeColor : option loc;
  o_edgeWidth : option num;
}.

(** [defaultValue.EMPTY_OBJECT]. *)
Definition EMPTY_OBJECT : Options :=
  {| o_planes := None; o_enabled := None; o_modelMatrix := None;
     o_combineClippingRegions := None; o_edgeColor := None; o_edgeWidth := None |}.

(** The constructor (lines 41-86).  Both arguments of each [defaultValue]
    are evaluated, so the default array, matrix and color are allocated even
    when the option is present.  The instance itself is entered in the heap
    once its typed fields are known, with both private fields [undefined];
    the last statement then goes through the setter. *)
Definition ClippingPlanesCollection (options : option Options) : M loc :=
  let options := defaultValue options EMPTY_OBJECT in
  empty ← alloc (OArray []);
  let planes_ := defaultValue (o_planes options) empty in
  let enabled_ := defaultValue (o_enabled options) true in
  identity ← alloc (OMatrix4 Matrix4_IDENTITY);
  let modelMatrix_ := defaultValue (o_modelMatrix options) identity in
  white ← alloc (OColor Color_WHITE);
  let edgeColor_ := defaultValue (o_edgeColor options) white in
  let edgeWidth_ := defaultValue (o_edgeWidth options) num_zero in
  this ← alloc (OCollection
    {| planes := planes_; enabled := enabled_; modelMatrix := modelMatrix_;
       edgeColor := edgeColor_; edgeWidth := edgeWidth_;
       _combineClippingRegions := None; _testIntersection := None |});
  set_combineClippingRegions this
    (Some (defaultValue (o_combineClippingRegions options) true));;
  mret this.

(** [Plane.transform(plane, transform, scratchPlane)]: reads the plane and
    the matrix, writes the scratch plane.  It fails on a missing plane. *)
Definition Plane_transform_scratch (plane : option loc) (transform : matref) : M unit :=
  match plane with
  | None => throw TypeError
  | Some l =>
      p ← load_plane l;
      m ← read_matrix transform;
      set_scratchPlane (Plane_transform p m)
  end.

(** [Cartesian3.clone(cartesian, result)]: writes the three components into
    [result]; without a [result] it returns a new object, which the one caller
    here drops. *)
Definition Cartesian3_clone (cartesian : Cartesian3 num) (result : option loc) : M unit :=
  match result with
  | None => mret tt
  | Some l =>
      c ← load_cartesian4 l;
      store l (OCartesian4 {| x := x3 cartesian; y := y3 cartesian;
                              z := z3 cartesian; w := w c |})
  end.

(** [packedPlane.w = value]: a [TypeError] on [undefined]. *)
Definition set_w (packedPlane : option loc) (value : num) : M unit :=
  match packedPlane with
  | None => throw TypeError
  | Some l =>
      c ← load_cartesian4 l;
      store l (OCartesian4 {| x := x c; y := y c; z := z c; w := value |})
  end.

(** The body of the loop of [transformAndPackPlanes] (lines 142-148) at
    index [i]. *)
Definition pack_body (planes array : loc) (transform : matref) (i : nat) : M unit :=
  plane ← array_get planes i;
  packedPlane ← array_get array i;
  Plane_transform_scratch plane transform;;
  sp ← get_scratchPlane;
  Cartesian3_clone (normal sp) packedPlane;;
  sp ← get_scratchPlane;
  set_w packedPlane (distance sp).

(** The loop (lines 141-149), from index [i] with [k] iterations left. *)
Fixpoint pack_loop (planes array : loc) (transform : matref) (i k : nat) : M unit :=
  match k with
  | O => mret tt
  | S k' =>
      pack_body planes array transform i;;
      pack_loop planes array transform (S i) k'
  end.

(** [transformAndPackPlanes(viewMatrix, array)] (lines 131-152).
    [new Array(length)] is an array of [length] holes. *)
Definition transformAndPackPlanes (this : loc) (viewMatrix : Matrix4)
    (array : option loc) : M loc :=
  c ← load_collection this;
  let planes := planes c in
  elems ← load_array planes;
  let length := length elems in
  array ← match array with
          | Some a => mret a
          | None => alloc (OArray (replicate length None))
          end;
  c ← load_collection this;
  m ← load_matrix (modelMatrix c);
  set_scratchMatrix (Matrix4_multiply viewMatrix m);;
  let transform := MScratch in
  pack_loop planes array transform 0 length;;
  mret array.

(** [Array.from(array)]: a new array with the same slots. *)
Definition Array_from (a : loc) : M loc :=
  elems ← load_array a; alloc (OArray elems).

(** [Matrix4.clone(matrix, result)] with a [result]: copies the entries. *)
Definition Matrix4_clone (matrix result : loc) : M unit :=
  m ← load_matrix matrix; _ ← load_matrix result; store result (OMatrix4 m).

(** [Color.clone(color, result)] with a [result]: copies the components. *)
Definition Color_clone (color result : loc) : M unit :=
  c ← load_color color; _ ← load_color result; store result (OColor c).

(** [this.f]. *)
Definition get_field {A} (this : loc) (f : Collection -> A) : M A :=
  c ← load_collection this; mret (f c).

(** [clone(result)] (lines 160-173). *)
Definition clone (this : loc) (result : option loc) : M loc :=
  result ← match result with
           | Some r => mret r
           | None => ClippingPlanesCollection None
           end;
  ps ← get_field this planes;
  a ← Array_from ps;
  modify_collection result (with_planes a);;
  e ← get_field this enabled;
  modify_collection result (with_enabled e);;
  m ← get_field this modelMatrix;
  rm ← get_field result modelMatrix;
  Matrix4_clone m rm;;
  f ← get_combineClippingRegions this;
  set_combineClippingRegions result f;;
  ec ← get_field this edgeColor;
  rc ← get_field result edgeColor;
  Color_clone ec rc;;
  ew ← get_field this edgeWidth;
  modify_collection result (with_edgeWidth ew);;
  mret result.

(** [boundingVolume.intersectPlane(scratchPlane)]: a [TypeError] on a missing
    volume.  A volume is its plane test. *)
Definition intersectPlane (boundingVolume : option (Plane num -> Intersect)) : M Intersect :=
  match boundingVolume with
  | None => throw TypeError
  | Some bv => sp ← get_scratchPlane; mret (bv sp)
  end.

(** [this._testIntersection(value)]: a [TypeError] when the field is
    [undefined]. *)
Definition call_testIntersection (this : loc) (value : Intersect) : M bool :=
  t ← get_field this _testIntersection;
  match t with
  | None => throw TypeError
  | Some f => mret (f value)
  end.

(** The loop of [computeIntersectionWithBoundingVolume] (lines 202-213) and
    the final [return intersection]. *)
Fixpoint classify_loop (this planes : loc) (boundingVolume : option (Plane num -> Intersect))
    (transform : matref) (i k : nat) (intersection : Intersect) : M Intersect :=
  match k with
  | O => mret intersection
  | S k' =>
      plane ← array_get planes i;
      Plane_transform_scratch plane transform;;
      value ← intersectPlane boundingVolume;
      if Intersect_eqb value INTERSECTING then
        classify_loop this planes boundingVolume transform (S i) k' value
      else
        t ← call_testIntersection this value;
        if t : bool then mret value : M Intersect
        else classify_loop this planes boundingVolume transform (S i) k' intersection
  end.

(** [computeIntersectionWithBoundingVolume(boundingVolume, parentTransform)]
    (lines 185-216). *)
Definition computeIntersectionWithBoundingVolume (this : loc)
    (boundingVolume : option (Plane num -> Intersect))
    (parentTransform : option Matrix4) : M Intersect :=
  planes ← get_field this planes;
  elems ← load_array planes;
  let length := length elems in
  mm ← get_field this modelMatrix;
  transform ← match parentTransform with
              | Some pt =>
                  m ← load_matrix mm;
                  set_scratchMatrix (Matrix4_multiply m pt);;
                  mret MScratch
              | None => mret (MRef mm)
              end;
  flag ← get_combineClippingRegions this;
  let intersection :=
    if truthy flag && (0 <? length) then OUTSIDE else INSIDE in
  classify_loop this planes boundingVolume transform 0 length intersection.

(** The instance the constructor builds from [options] when the heap has [n]
    cells: the defaults it allocates sit at [n], [n + 1] and [n + 2]. *)
Definition constructed (options : option Options) (n : nat) : Collection :=
  let options := defaultValue options EMPTY_OBJECT in
  let combine := Some (defaultValue (o_combineClippingRegions options) true) in
  {| planes := defaultValue (o_planes options) n;
     enabled := defaultValue (o_enabled options) true;
     modelMatrix := defaultValue (o_modelMatrix options) (n + 1);
     edgeColor := defaultValue (o_edgeColor options) (n + 2);
     edgeWidth := defaultValue (o_edgeWidth options) num_zero;
     _combineClippingRegions := combine;
     _testIntersection := Some (getTestIntersectionFunction combine) |}.

(** The instance [clone] builds without a [result] from the fields [c] of
    the original when the heap has [n] cells: the constructor's defaults sit
    at [n], [n + 1] and [n + 2], the instance at [n + 3] and the copy of the
    planes array at [n + 4]. *)
Definition cloned (c : Collection) (n : nat) : Collection :=
  {| planes := n + 4;
     enabled := enabled c;
     modelMatrix := n + 1;
     edgeColor := n + 2;
     edgeWidth := edgeWidth c;
     _combineClippingRegions := _combineClippingRegions c;
     _testIntersection :=
       Some (getTestIntersectionFunction (_combineClippingRegions c)) |}.

(** The fields of the instance at [result] once [clone] has written it,
    from the fields [c] of the original and [cr] of [result] before the call,
    when the heap had [n] cells: the copy of the planes array sits at [n], the
    matrix and color objects of [result] are kept, and the predicate is
    derived again when the flag changes. *)
Definition cloned_into (c cr : Collection) (n : nat) : Collection :=
  {| planes := n;
     enabled := enabled c;
     modelMatrix := modelMatrix cr;
     edgeColor := edgeColor cr;
     edgeWidth := edgeWidth c;
     _combineClippingRegions := _combineClippingRegions c;
     _testIntersection :=
       if strict_neq (_combineClippingRegions cr) (_combineClippingRegions c)
       then Some (getTestIntersectionFunction (_combineClippingRegions c))
       else _testIntersection cr |}.

(** ** Reads and writes of the owner

    The statements a caller runs on a collection and on the objects it
    passed in, used to observe sharing. *)

(** [a.push(v)]. *)
Definition array_push (a : loc) (v : option loc) : M unit :=
  elems ← load_array a; store a (OArray (elems ++ [v])).

(** [a[i] = v] for an index in range. *)
Definition array_set (a : loc) (i : nat) (v : option loc) : M unit :=
  elems ← load_array a; store a (OArray (<[i := v]> elems)).

(** Overwriting the entries of the matrix at [l] in place. *)
Definition matrix_assign (l : loc) (m : Matrix4) : M unit :=
  _ ← load_matrix l; store l (OMatrix4 m).

(** [plane.distance = d] and [plane.normal = n] on the plane at [l]. *)
Definition plane_set_distance (l : loc) (d : num) : M unit :=
  p ← load_plane l; store l (OPlane {| normal := normal p; distance := d |}).
Definition plane_set_normal (l : loc) (n : Cartesian3 num) : M unit :=
  p ← load_plane l; store l (OPlane {| normal := n; distance := distance p |}).

(** [collection.planes] as the sequence of its slots. *)
Definition read_planes (collection : loc) : M (list (option loc)) :=
  a ← get_field collection planes; load_array a.

(** [collection.planes[i]], dereferenced. *)
Definition read_plane (collection : loc) (i : nat) : M (Plane num) :=
  a ← get_field collection planes;
  p ← array_get a i;
  match p with None => throw TypeError | Some l => load_plane l end.

(** [collection.modelMatrix], dereferenced. *)
Definition read_modelMatrix (collection : loc) : M Matrix4 :=
  l ← get_field collection modelMatrix; load_matrix l.

(** [collection.edgeColor], dereferenced. *)
Definition read_edgeColor (collection : loc) : M Color :=
  l ← get_field collection edgeColor; load_color l.

(** [collection.planes.push(v)] and [collection.planes[i] = v]. *)
Definition planes_push (collection : loc) (v : option loc) : M unit :=
  a ← get_field collection planes; array_push a v.
Definition planes_set (collection : loc) (i : nat) (v : option loc) : M unit :=
  a ← get_field collection planes; array_set a i v.

(** Overwriting [collection.modelMatrix] in place. *)
Definition write_modelMatrix (collection : loc) (m : Matrix4) : M unit :=
  l ← get_field collection modelMatrix; matrix_assign l m.

(** [collection.planes[i].distance = d] and [collection.planes[i].normal = n]. *)
Definition write_plane_distance (collection : loc) (i : nat) (d : num) : M unit :=
  a ← get_field collection planes;
  p ← array_get a i;
  match p with None => throw TypeError | Some l => plane_set_distance l d end.
Definition write_plane_normal (collection : loc) (i : nat) (n : Cartesian3 num) : M unit :=
  a ← get_field collection planes;
  p ← array_get a i;
  match p with None => throw TypeError | Some l => plane_set_normal l n end.

(** Independent storage of [a] from [b]: what [a.planes] and [a.modelMatrix]
    read is the same before and after a write to the planes sequence, or to
    the model matrix, of [b]. *)
Definition planes_independent (st : state) (a b : loc) : Prop :=
  (forall v, fst (read_planes a (snd (planes_push b v st))) = fst (read_planes a st)) /\
  (forall i v, fst (read_planes a (snd (planes_set b i v st))) = fst (read_planes a st)).

Definition matrix_independent (st : state) (a b : loc) : Prop :=
  forall m, fst (read_modelMatrix a (snd (write_modelMatrix b m st))) =
            fst (read_modelMatrix a st).

(** A [result] argument of [clone] for the original at [this] with fields [c]:
    none, or another instance with its own matrix object. *)
Definition separate_target (st : state) (this : loc) (c : Collection)
    (target : option loc) : Prop :=
  match target with
  | None => True
  | Some r =>
      r ≠ this /\
      exists cr rm rk,
        heap st !! r = Some (OCollection cr) /\
        heap st !! modelMatrix cr = Some (OMatrix4 rm) /\
        heap st !! edgeColor cr = Some (OColor rk) /\
        modelMatrix cr ≠ modelMatrix c /\
        _testIntersection cr =
          Some (getTestIntersectionFunction (_combineClippingRegions cr))
  end.

(** ** The classification algorithm as the specification words it *)

(** Step 2 of the algorithm over the per-plane verdicts: [Intersecting] is
    recorded and the scan goes on; intersection mode returns at once on
    [Inside], union mode on [Outside]. *)
Fixpoint scan_spec (combine : bool) (verdicts : list Intersect) (result : Intersect)
  : Intersect :=
  match verdicts with
  | [] => result
  | INTERSECTING :: rest => scan_spec combine rest INTERSECTING
  | INSIDE :: rest => if combine then INSIDE else scan_spec combine rest result
  | OUTSIDE :: rest => if combine then scan_spec combine rest result else OUTSIDE
  end.

(** Steps 1 and 3, and the degenerate case of no plane. *)
Definition classify_spec (combine : bool) (verdicts : list Intersect) : Intersect :=
  match verdicts with
  | [] => INSIDE
  | _ => scan_spec combine verdicts (if combine then OUTSIDE else INSIDE)
  end.

(** [effectiveTransform]: the model matrix, times the parent transform when
    there is one. *)
Definition effectiveTransform (modelMatrix : Matrix4) (parentTransform : option Matrix4)
  : Matrix4 :=
  match parentTransform with
  | Some pt => Matrix4_multiply modelMatrix pt
  | None => modelMatrix
  end.

(** ** Well-formed collections *)

(** The collection at [this] has fields [c], its [planes] array holds
    references [locs] to the planes [ps], and its [modelMatrix] holds [m]. *)
Record wf_collection (st : state) (this : loc) (c : Collection)
    (locs : list loc) (ps : list (Plane num)) (m : Matrix4) : Prop := {
  wf_this : heap st !! this = Some (OCollection c);
  wf_planes : heap st !! planes c = Some (OArray (Some <$> locs));
  wf_each : Forall2 (fun l p => heap st !! l = Some (OPlane p)) locs ps;
  wf_matrix : heap st !! modelMatrix c = Some (OMatrix4 m);
}.

(** The matrix the local variable [transform] denotes in a heap [h] with the
    scratch matrix [sm]. *)
Definition matrix_at (h : list obj) (sm : Matrix4) (transform : matref) (m : Matrix4) : Prop :=
  match transform with
  | MRef l => h !! l = Some (OMatrix4 m)
  | MScratch => sm = m
  end.

(** ** The footprint of the packing loop *)

(** What a cell is apart from the components of a [Cartesian4]: the loop
    writes nothing else in the heap. *)
Definition shape (o : obj) : option obj :=
  match o with OCartesian4 _ => None | _ => Some o end.

Definition shapes (st : state) : list (option obj) := shape <$> heap st.

(** A plane packed as a [Cartesian4]. *)
Definition packed (p : Plane num) : Cartesian4 num :=
  {| x := x3 (normal p); y := y3 (normal p); z := z3 (normal p); w := distance p |}.

(** What one iteration does: it throws before any write, or it writes the
    scratch plane and throws, or it writes the scratch plane and packs it
    into the cell [l]. *)
Inductive plan :=
| PStop (e : error)
| PScratch (sp : Plane num) (e : error)
| PWrite (sp : Plane num) (l : loc).

(** The plan of iteration [i], from the shapes of the cells and the scratch
    matrix alone. *)
Definition body_plan (sh : list (option obj)) (sm : Matrix4) (planes array : loc)
    (i : nat) : plan :=
  match sh !! planes with
  | Some (Some (OArray pe)) =>
      match sh !! array with
      | Some (Some (OArray ae)) =>
          match mjoin (pe !! i) with
          | None => PStop TypeError
          | Some pl =>
              match sh !! pl with
              | Some (Some (OPlane p)) =>
                  let sp := Plane_transform p sm in
                  match mjoin (ae !! i) with
                  | None => PScratch sp TypeError
                  | Some l =>
                      match sh !! l with
                      | Some None => PWrite sp l
                      | _ => PScratch sp IllTyped
                      end
                  end
              | _ => PStop IllTyped
              end
          end
      | _ => PStop IllTyped
      end
  | _ => PStop IllTyped
  end.

Definition apply_plan (pl : plan) (st : state) : result unit * state :=
  match pl with
  | PStop e => (Throw e, st)
  | PScratch sp e =>
      (Throw e, {| heap := heap st; scratchPlane := sp; scratchMatrix := scratchMatrix st |})
  | PWrite sp l =>
      (Ok tt, {| heap := <[l := OCartesian4 (packed sp)]> (heap st);
                 scratchPlane := sp; scratchMatrix := scratchMatrix st |})
  end.

(** Two runs from [s] and [s'] that end in [t] and [t']: every cell, and the
    scratch plane, is either equal at the end or untouched by both, no cell
    changes its shape and the scratch matrix stays. *)
Record coherent (s s' t t' : state) : Prop := {
  coh_shapes : shapes t = shapes s;
  coh_shapes' : shapes t' = shapes s';
  coh_matrix : scratchMatrix t = scratchMatrix s;
  coh_matrix' : scratchMatrix t' = scratchMatrix s';
  coh_cells : forall l,
    heap t !! l = heap t' !! l \/
    (heap t !! l = heap s !! l /\ heap t' !! l = heap s' !! l);
  coh_scratch :
    scratchPlane t = scratchPlane t' \/
    (scratchPlane t = scratchPlane s /\ scratchPlane t' = scratchPlane s');
}.

(** The cached predicate is the one of the current flag. *)
Definition cache_ok (c : Collection) : Prop :=
  _testIntersection c = Some (getTestIntersectionFunction (_combineClippingRegions c)).

End Collection.

(** ** An integer instance of the collaborators

    Used to run the collection on concrete scenes. *)

(** Modelled from the spec: the "Matrix4x4 primitive" (identity,
    multiplication), which the repository keeps in [Core/Matrix4]; here the
    sixteen entries in column-major order, over the integers. *)
Definition ZMatrix4 : Type := list Z.

Definition zentry (m : ZMatrix4) (column row : nat) : Z := nth (column * 4 + row) m 0%Z.

Definition ZMatrix4_IDENTITY : ZMatrix4 :=
  [1; 0; 0; 0;  0; 1; 0; 0;  0; 0; 1; 0;  0; 0; 0; 1]%Z.

Definition ZMatrix4_ZERO : ZMatrix4 :=
  [0; 0; 0; 0;  0; 0; 0; 0;  0; 0; 0; 0;  0; 0; 0; 0]%Z.

Definition ZMatrix4_multiply (left right : ZMatrix4) : ZMatrix4 :=
  flat_map (fun column =>
    map (fun row =>
      (zentry left 0 row * zentry right column 0
       + zentry left 1 row * zentry right column 1
       + zentry left 2 row * zentry right column 2
       + zentry left 3 row * zentry right column 3)%Z)
      [0; 1; 2; 3]) [0; 1; 2; 3].

Definition Zdot (a b : Cartesian3 Z) : Z :=
  (x3 a * x3 b + y3 a * y3 b + z3 a * z3 b)%Z.

(** The linear part of [m] applied to [v], and [m] applied to the point [v]. *)
Definition ZmultiplyByPointAsVector (m : ZMatrix4) (v : Cartesian3 Z) : Cartesian3 Z :=
  {| x3 := zentry m 0 0 * x3 v + zentry m 1 0 * y3 v + zentry m 2 0 * z3 v;
     y3 := zentry m 0 1 * x3 v + zentry m 1 1 * y3 v + zentry m 2 1 * z3 v;
     z3 := zentry m 0 2 * x3 v + zentry m 1 2 * y3 v + zentry m 2 2 * z3 v |}%Z.
Definition ZmultiplyByPoint (m : ZMatrix4) (v : Cartesian3 Z) : Cartesian3 Z :=
  {| x3 := zentry m 0 0 * x3 v + zentry m 1 0 * y3 v + zentry m 2 0 * z3 v + zentry m 3 0;
     y3 := zentry m 0 1 * x3 v + zentry m 1 1 * y3 v + zentry m 2 1 * z3 v + zentry m 3 1;
     z3 := zentry m 0 2 * x3 v + zentry m 1 2 * y3 v + zentry m 2 2 * z3 v + zentry m 3 2 |}%Z.

(** Modelled from the spec: the "transform a plane" primitive of
    [Core/Plane], in the rigid case the specification allows: the normal goes
    through the linear part, and the distance is recomputed from the image of
    the point of the plane nearest to the origin, so that the half-space is
    preserved. *)
Definition ZPlane_transform (plane : Plane Z) (transform : ZMatrix4) : Plane Z :=
  let n := ZmultiplyByPointAsVector transform (normal plane) in
  let position :=
    {| x3 := x3 (normal plane) * - distance plane;
       y3 := y3 (normal plane) * - distance plane;
       z3 := z3 (normal plane) * - distance plane |}%Z in
  let position := ZmultiplyByPoint transform position in
  {| normal := n; distance := (- Zdot n position)%Z |}.

#[export] Instance ZCore : Core := {|
  num := Z;
  Matrix4 := ZMatrix4;
  Color := Z * Z * Z * Z;
  Matrix4_IDENTITY := ZMatrix4_IDENTITY;
  Color_WHITE := (1, 1, 1, 1)%Z;
  num_zero := 0%Z;
  Matrix4_multiply := ZMatrix4_multiply;
  Plane_transform := ZPlane_transform;
|}.

(** Modelled from the spec: the "BoundingVolume capability", which the
    repository keeps in [Core/BoundingSphere]; a sphere tested against the
    half-space [dot(normal, point) + distance >= 0] of a plane with a unit
    normal. *)
Record Sphere := { center : Cartesian3 Z; radius : Z }.

Definition Sphere_intersectPlane (sphere : Sphere) (plane : Plane Z) : Intersect :=
  let distanceToPlane := (Zdot (normal plane) (center sphere) + distance plane)%Z in
  if (distanceToPlane <? - radius sphere)%Z then OUTSIDE
  else if (distanceToPlane <? radius sphere)%Z then INTERSECTING
  else INSIDE.

(** A sphere centred on the x axis. *)
Definition sphere_at (cx r : Z) : Sphere :=
  {| center := {| x3 := cx; y3 := 0; z3 := 0 |}; radius := r |}%Z.

(** The state when the module is loaded (lines 122-123): no object yet,
    [scratchPlane = new Plane(Cartesian3.UNIT_X, 0.0)] and
    [scratchMatrix = new Matrix4()]. *)
Definition module_state : state (core := ZCore) :=
  {| heap := [];
     scratchPlane := {| normal := {| x3 := 1; y3 := 0; z3 := 0 |}; distance := 0 |}%Z;
     scratchMatrix := ZMatrix4_ZERO |}.

(** [new Plane(normal, distance)] with the normal [(nx, ny, nz)]. *)
Definition new_Plane (nx ny nz d : Z) : M (core := ZCore) loc :=
  alloc (OPlane {| normal := {| x3 := nx; y3 := ny; z3 := nz |}; distance := d |}).

(** [new ClippingPlanesCollection({ planes : planes, combineClippingRegions : combine })]
    over an array literal of new planes. *)
Fixpoint new_Planes (planes : list (Z * Z * Z * Z)) : M (core := ZCore) (list (option loc)) :=
  match planes with
  | [] => mret []
  | (nx, ny, nz, d) :: rest =>
      l ← new_Plane nx ny nz d;
      ls ← new_Planes rest;
      mret (Some l :: ls)
  end.

Definition new_collection_of (planes : list (Z * Z * Z * Z)) (combine : option bool)
  : M (core := ZCore) loc :=
  ls ← new_Planes planes;
  a ← alloc (OArray ls);
  ClippingPlanesCollection (Some
    {| o_planes := Some a; o_enabled := None; o_modelMatrix := None;
       o_combineClippingRegions := combine; o_edgeColor := None;
       o_edgeWidth := None |}).

(** The slab scene: normals (1,0,0), distance 0 and (-1,0,0), distance 5. *)
Definition slab_planes : list (Z * Z * Z * Z) := [(1, 0, 0, 0); (-1, 0, 0, 5)]%Z.

(** Classification of a sphere by a collection made of [planes] in mode
    [combine], from the module's initial state. *)
Definition classify_scene (planes : list (Z * Z * Z * Z)) (combine : bool)
    (sphere : Sphere) : result Intersect :=
  fst ((this ← new_collection_of planes (Some combine);
        computeIntersectionWithBoundingVolume this
          (Some (Sphere_intersectPlane sphere)) None) module_state).

(** The extent of a sphere on the x axis, and its position relative to the
    slab [0 <= x <= 5]. *)
Definition sphere_lo (s : Sphere) : Z := (x3 (center s) - radius s)%Z.
Definition sphere_hi (s : Sphere) : Z := (x3 (center s) + radius s)%Z.

Definition inside_slab (s : Sphere) : Prop :=
  (0 <= sphere_lo s /\ sphere_hi s <= 5)%Z.
Definition outside_slab (s : Sphere) : Prop :=
  (sphere_hi s < 0 \/ 5 < sphere_lo s)%Z.
Definition straddles_one_boundary (s : Sphere) : Prop :=
  (sphere_lo s < 0 < sphere_hi s /\ sphere_hi s <= 5)%Z \/
  (0 <= sphere_lo s /\ sphere_lo s < 5 < sphere_hi s)%Z.

(** The slab collection in intersection mode, once constructed. *)
Definition slab_state : state (core := ZCore) :=
  snd (new_collection_of slab_planes (Some true) module_state).


(** [transformAndPackPlanes(Matrix4.IDENTITY)], without a container, on a new
    collection of [planes]. *)
Definition pack_without_container (planes : list (Z * Z * Z * Z)) : result loc :=
  fst ((this ← new_collection_of planes None;
        transformAndPackPlanes this ZMatrix4_IDENTITY None) module_state).

(** The same call on the slab collection with a container of two new
    [Cartesian4] records: the container passed and the container returned. *)
Definition slab_pack_scene : M (core := ZCore) (loc * loc) :=
  this ← new_collection_of slab_planes None;
  c0 ← alloc (OCartesian4 {| x := 0; y := 0; z := 0; w := 0 |}%Z);
  c1 ← alloc (OCartesian4 {| x := 0; y := 0; z := 0; w := 0 |}%Z);
  array ← alloc (OArray [Some c0; Some c1]);
  returned ← transformAndPackPlanes this ZMatrix4_IDENTITY (Some array);
  mret (array, returned).

Definition options_of (planes modelMatrix : option loc) : Options (core := ZCore) :=
  {| o_planes := planes; o_enabled := None; o_modelMatrix := modelMatrix;
     o_combineClippingRegions := None; o_edgeColor := None; o_edgeWidth := None |}.

(** A caller that keeps the array and the matrix it passes to the
    constructor: the instance, the array and the matrix. *)
Definition passed_in_scene : M (core := ZCore) (loc * loc * loc) :=
  p ← new_Plane 1 0 0 0;
  planes ← alloc (OArray [Some p]);
  modelMatrix ← alloc (OMatrix4 ZMatrix4_IDENTITY);
  this ← ClippingPlanesCollection (Some (options_of (Some planes) (Some modelMatrix)));
  mret (this, planes, modelMatrix).

(** Two collections constructed over one matrix object, the first cloned
    into the second: the original and the clone. *)
Definition shared_matrix_scene : M (core := ZCore) (loc * loc) :=
  modelMatrix ← alloc (OMatrix4 ZMatrix4_IDENTITY);
  a ← ClippingPlanesCollection (Some (options_of None (Some modelMatrix)));
  b ← ClippingPlanesCollection (Some (options_of None (Some modelMatrix)));
  r ← clone a (Some b);
  mret (a, r).

(** The fields of the slab collection and the values of its planes. *)
Definition slab_collection : Collection (core := ZCore) :=
  {| planes := 2; enabled := true; modelMatrix := 4; edgeColor := 5;
     edgeWidth := 0%Z; _combineClippingRegions := Some true;
     _testIntersection := Some (getTestIntersectionFunction (Some true)) |}.

Definition plane_value (p : Z * Z * Z * Z) : Plane Z :=
  let '(nx, ny, nz, d) := p in
  {| normal := {| x3 := nx; y3 := ny; z3 := nz |}; distance := d |}.

(** A collection without planes, once constructed, and its fields. *)
Definition empty_state : state (core := ZCore) :=
  snd (new_collection_of [] None module_state).

Definition empty_collection : Collection (core := ZCore) :=
  {| planes := 0; enabled := true; modelMatrix := 2; edgeColor := 3;
     edgeWidth := 0%Z; _combineClippingRegions := Some true;
     _testIntersection := Some (getTestIntersectionFunction (Some true)) |}.



(** A plane, an array that holds it and a matrix, before they are passed to
    the constructor. *)
Definition inputs_state : state (core := ZCore) :=
  snd ((p ← new_Plane 1 0 0 0;
        planes ← alloc (OArray [Some p]);
        alloc (OMatrix4 ZMatrix4_IDENTITY)) module_state).

(** The slab collection and a second, default collection. *)
Definition two_collections_state : state (core := ZCore) :=
  snd ((_ ← new_collection_of slab_planes (Some true);
        ClippingPlanesCollection None) module_state).

Definition second_collection : Collection (core := ZCore) :=
  {| planes := 7; enabled := true; modelMatrix := 8; edgeColor := 9;
     edgeWidth := 0%Z; _combineClippingRegions := Some true;
     _testIntersection := Some (getTestIntersectionFunction (Some true)) |}.

(** Two default collections constructed over one matrix object, before the
    first is cloned into the second, and their fields. *)
Definition shared_matrix_state : state (core := ZCore) :=
  snd ((modelMatrix ← alloc (OMatrix4 ZMatrix4_IDENTITY);
        _ ← ClippingPlanesCollection (Some (options_of None (Some modelMatrix)));
        ClippingPlanesCollection (Some (options_of None (Some modelMatrix))))
         module_state).

Definition shared_original : Collection (core := ZCore) :=
  {| planes := 1; enabled := true; modelMatrix := 0; edgeColor := 3;
     edgeWidth := 0%Z; _combineClippingRegions := Some true;
     _testIntersection := Some (getTestIntersectionFunction (Some true)) |}.

Definition shared_target : Collection (core := ZCore) :=
  {| planes := 5; enabled := true; modelMatrix := 0; edgeColor := 7;
     edgeWidth := 0%Z; _combineClippingRegions := Some true;
     _testIntersection := Some (getTestIntersectionFunction (Some true)) |}.

(** ** The verdict of a scan in closed form *)

(** Some plane reports [v]. *)
Definition some_verdict (v : Intersect) (verdicts : list Intersect) : bool :=
  existsb (fun u => Intersect_eqb u v) verdicts.

(** Without a plane, Inside.  In intersection mode: Inside when some plane
    reports Inside, else Intersecting when some plane reports it, else
    Outside.  In union mode: Outside when some plane reports Outside, else
    Intersecting when some plane reports it, else Inside. *)
Definition combined_verdict (combine : bool) (verdicts : list Intersect) : Intersect :=
  match verdicts with
  | [] => INSIDE
  | _ =>
      if combine then
        if some_verdict INSIDE verdicts then INSIDE
        else if some_verdict INTERSECTING verdicts then INTERSECTING
        else OUTSIDE
      else
        if some_verdict OUTSIDE verdicts then OUTSIDE
        else if some_verdict INTERSECTING verdicts then INTERSECTING
        else INSIDE
  end.

(** The slab collection with its two planes in the other order. *)
Definition slab_reversed_state : state (core := ZCore) :=
  snd (new_collection_of (rev slab_planes) (Some true) module_state).

(** A collection of the single plane x >= 0, once constructed, and its
    fields. *)
Definition single_state : state (core := ZCore) :=
  snd (new_collection_of [(1, 0, 0, 0)%Z] (Some true) module_state).

Definition single_collection : Collection (core := ZCore) :=
  {| planes := 1; enabled := true; modelMatrix := 3; edgeColor := 4;
     edgeWidth := 0%Z; _combineClippingRegions := Some true;
     _testIntersection := Some (getTestIntersectionFunction (Some true)) |}.

(** The slab collection and a container of two new records, at 7 and 8, in
    an array at 9. *)
Definition container_state : state (core := ZCore) :=
  snd ((c0 ← alloc (OCartesian4 {| x := 0; y := 0; z := 0; w := 0 |}%Z);
        c1 ← alloc (OCartesian4 {| x := 0; y := 0; z := 0; w := 0 |}%Z);
        alloc (OArray [Some c0; Some c1])) slab_state).

(** The slab collection and a container of one new record, at 7, in an
    array at 8. *)
Definition short_container_state : state (core := ZCore) :=
  snd ((c0 ← alloc (OCartesian4 {| x := 0; y := 0; z := 0; w := 0 |}%Z);
        alloc (OArray [Some c0])) slab_state).

(** * Properties *)

Section Properties.
Context {core : Core}.

Implicit Types (st : state) (this l : loc) (c : Collection) (o : obj).

(** ** Running the monad *)

Lemma run_bind {A B} (m : M A) (f : A -> M B) st :
  (m ≫= f) st =
  match m st with
  | (Ok a, st') => f a st'
  | (Throw e, st') => (Throw e, st')
  end.
Proof. reflexivity. Qed.

Lemma run_bind_ok {A B} (m : M A) (f : A -> M B) st a st' :
  m st = (Ok a, st') -> (m ≫= f) st = f a st'.
Proof. intros H. rewrite run_bind, H. reflexivity. Qed.

Lemma run_bind_throw {A B} (m : M A) (f : A -> M B) st e st' :
  m st = (Throw e, st') -> (m ≫= f) st = (Throw e, st').
Proof. intros H. rewrite run_bind, H. reflexivity. Qed.

Lemma load_run st l o : heap st !! l = Some o -> load l st = (Ok o, st).
Proof. intros H. unfold load. rewrite H. reflexivity. Qed.

Lemma load_collection_run st l c :
  heap st !! l = Some (OCollection c) -> load_collection l st = (Ok c, st).
Proof. intros H. unfold load_collection. rewrite (run_bind_ok _ _ _ _ _ (load_run _ _ _ H)). reflexivity. Qed.

Lemma load_array_run st l a :
  heap st !! l = Some (OArray a) -> load_array l st = (Ok a, st).
Proof. intros H. unfold load_array. rewrite (run_bind_ok _ _ _ _ _ (load_run _ _ _ H)). reflexivity. Qed.

Lemma load_plane_run st l p :
  heap st !! l = Some (OPlane p) -> load_plane l st = (Ok p, st).
Proof. intros H. unfold load_plane. rewrite (run_bind_ok _ _ _ _ _ (load_run _ _ _ H)). reflexivity. Qed.

Lemma load_matrix_run st l m :
  heap st !! l = Some (OMatrix4 m) -> load_matrix l st = (Ok m, st).
Proof. intros H. unfold load_matrix. rewrite (run_bind_ok _ _ _ _ _ (load_run _ _ _ H)). reflexivity. Qed.

Lemma load_color_run st l k :
  heap st !! l = Some (OColor k) -> load_color l st = (Ok k, st).
Proof. intros H. unfold load_color. rewrite (run_bind_ok _ _ _ _ _ (load_run _ _ _ H)). reflexivity. Qed.

Lemma load_cartesian4_run st l k :
  heap st !! l = Some (OCartesian4 k) -> load_cartesian4 l st = (Ok k, st).
Proof. intros H. unfold load_cartesian4. rewrite (run_bind_ok _ _ _ _ _ (load_run _ _ _ H)). reflexivity. Qed.

Lemma get_field_run {A} st l c (f : Collection -> A) :
  heap st !! l = Some (OCollection c) -> get_field l f st = (Ok (f c), st).
Proof. intros H. unfold get_field. rewrite (run_bind_ok _ _ _ _ _ (load_collection_run _ _ _ H)). reflexivity. Qed.

Lemma modify_collection_run st l c f :
  heap st !! l = Some (OCollection c) ->
  modify_collection l f st = (Ok tt, with_heap (<[l := OCollection (f c)]> (heap st)) st).
Proof. intros H. unfold modify_collection. rewrite (run_bind_ok _ _ _ _ _ (load_collection_run _ _ _ H)). reflexivity. Qed.

Lemma array_get_run st a elems i :
  heap st !! a = Some (OArray elems) -> array_get a i st = (Ok (mjoin (elems !! i)), st).
Proof. intros H. unfold array_get. rewrite (run_bind_ok _ _ _ _ _ (load_array_run _ _ _ H)). reflexivity. Qed.

(** ** Heap lookups after writes *)

Lemma heap_with_heap h st : heap (with_heap h st) = h.
Proof. reflexivity. Qed.

Lemma lookup_store_eq (h : list obj) l o o' :
  h !! l = Some o' -> <[l := o]> h !! l = Some o.
Proof. intros H. apply list_lookup_insert_eq. eapply lookup_lt_Some, H. Qed.

Lemma lookup_store_ne (h : list obj) l l' o :
  l ≠ l' -> <[l := o]> h !! l' = h !! l'.
Proof. intros H. apply list_lookup_insert_ne, H. Qed.

Lemma lookup_alloc_old (h : list obj) l o o' :
  h !! l = Some o' -> (h ++ [o]) !! l = Some o'.
Proof. intros H. rewrite lookup_app_l; [exact H | eapply lookup_lt_Some, H]. Qed.

Lemma lookup_alloc_new (h : list obj) o : (h ++ [o]) !! length h = Some o.
Proof. rewrite lookup_app_r by lia. rewrite Nat.sub_diag. reflexivity. Qed.

(** ** The accessor pair and the constructor *)

Lemma set_combineClippingRegions_run st this c value :
  heap st !! this = Some (OCollection c) ->
  set_combineClippingRegions this value st =
  (Ok tt,
   if strict_neq (_combineClippingRegions c) value
   then with_heap (<[this := OCollection
          (with_testIntersection (Some (getTestIntersectionFunction value))
             (with_combineClippingRegions value c))]> (heap st)) st
   else st).
Proof.
  intros H. unfold set_combineClippingRegions.
  rewrite (run_bind_ok _ _ _ _ _ (load_collection_run _ _ _ H)).
  destruct (strict_neq _ _); [| reflexivity].
  rewrite (run_bind_ok _ _ _ _ _ (modify_collection_run _ _ _ _ H)).
  erewrite modify_collection_run
    by (rewrite heap_with_heap; eapply lookup_store_eq, H).
  rewrite heap_with_heap, list_insert_insert_eq. reflexivity.
Qed.

Lemma get_combineClippingRegions_run st this c :
  heap st !! this = Some (OCollection c) ->
  get_combineClippingRegions this st = (Ok (_combineClippingRegions c), st).
Proof.
  intros H. unfold get_combineClippingRegions.
  rewrite (run_bind_ok _ _ _ _ _ (load_collection_run _ _ _ H)). reflexivity.
Qed.

Lemma ClippingPlanesCollection_run options st :
  ClippingPlanesCollection options st =
  (Ok (length (heap st) + 3),
   with_heap (heap st ++ [OArray []; OMatrix4 Matrix4_IDENTITY; OColor Color_WHITE;
                          OCollection (constructed options (length (heap st)))]) st).
Proof.
  unfold ClippingPlanesCollection.
  set (n := length (heap st)).
  rewrite run_bind. cbn [alloc]. fold n.
  rewrite run_bind. cbn [alloc heap with_heap]. rewrite length_app. cbn [length]. fold n.
  rewrite run_bind. cbn [alloc heap with_heap]. rewrite !length_app. cbn [length]. fold n.
  rewrite run_bind. cbn [alloc heap with_heap]. rewrite !length_app. cbn [length]. fold n.
  rewrite run_bind.
  erewrite set_combineClippingRegions_run; cycle 1.
  { cbn [heap with_heap].
    replace (n + 1 + 1 + 1) with (length (((heap st ++ [OArray []]) ++ [OMatrix4 Matrix4_IDENTITY]) ++ [OColor Color_WHITE])).
    - apply lookup_alloc_new.
    - rewrite !length_app. reflexivity. }
  cbn [_combineClippingRegions strict_neq].
  cbv [mret M_ret].
  f_equal; [f_equal; lia |].
  unfold with_heap; cbn [heap scratchPlane scratchMatrix]. f_equal.
  replace (n + 1 + 1 + 1) with (length (((heap st ++ [OArray []]) ++ [OMatrix4 Matrix4_IDENTITY]) ++ [OColor Color_WHITE]) + 0)
    by (rewrite !length_app; cbn [length]; fold n; lia).
  rewrite insert_app_r. cbn [insert list_insert].
  rewrite <- !app_assoc. cbn [app].
  replace (n + 1 + 1) with (n + 2) by lia.
  reflexivity.
Qed.

(** C4: the constructor leaves the cached predicate equal to the one of the
    flag it stored, and every write through the setter keeps it so: after
    the write the getter returns the written value, the predicate the next
    classification calls is the one of that value, and a write of the value
    already held leaves the whole state as it was. *)
Theorem combineClippingRegions_predicate_never_stale :
  (forall options st, exists this st' c,
      ClippingPlanesCollection options st = (Ok this, st') /\
      heap st' !! this = Some (OCollection c) /\
      cache_ok c /\
      get_combineClippingRegions this st' =
        (Ok (Some (defaultValue (o_combineClippingRegions
                                   (defaultValue options EMPTY_OBJECT)) true)), st'))
  /\
  (forall st this c value,
      heap st !! this = Some (OCollection c) ->
      cache_ok c ->
      exists st' c',
        set_combineClippingRegions this value st = (Ok tt, st') /\
        heap st' !! this = Some (OCollection c') /\
        cache_ok c' /\
        get_combineClippingRegions this st' = (Ok value, st') /\
        (forall v, call_testIntersection this v st' =
                   (Ok (getTestIntersectionFunction value v), st')) /\
        (_combineClippingRegions c = value -> st' = st)).
Proof.
  split.
  - intros options st. eexists _, _, _.
    split; [apply ClippingPlanesCollection_run |].
    assert (Hl : heap (with_heap (heap st ++ [OArray []; OMatrix4 Matrix4_IDENTITY;
                   OColor Color_WHITE;
                   OCollection (constructed options (length (heap st)))]) st)
                 !! (length (heap st) + 3)
                 = Some (OCollection (constructed options (length (heap st))))).
    { cbn [heap with_heap]. rewrite lookup_app_r by lia.
      replace (length (heap st) + 3 - length (heap st)) with 3 by lia. reflexivity. }
    split; [exact Hl |]. split; [reflexivity |].
    rewrite (get_combineClippingRegions_run _ _ _ Hl). reflexivity.
  - intros st this c value Hthis Hcache.
    rewrite (set_combineClippingRegions_run _ _ _ value Hthis).
    destruct (strict_neq (_combineClippingRegions c) value) eqn:Hneq.
    + eexists _, _. split; [reflexivity |].
      assert (Hl : heap (with_heap (<[this := OCollection
                (with_testIntersection (Some (getTestIntersectionFunction value))
                   (with_combineClippingRegions value c))]> (heap st)) st) !! this
              = Some (OCollection
                (with_testIntersection (Some (getTestIntersectionFunction value))
                   (with_combineClippingRegions value c)))).
      { cbn [heap with_heap]. eapply lookup_store_eq, Hthis. }
      split; [exact Hl |]. split; [reflexivity |].
      split; [rewrite (get_combineClippingRegions_run _ _ _ Hl); reflexivity |].
      split.
      * intros v. unfold call_testIntersection.
        rewrite (run_bind_ok _ _ _ _ _ (get_field_run _ _ _ _ Hl)). reflexivity.
      * intros Heq. rewrite Heq in Hneq.
        destruct value as [[]|]; discriminate Hneq.
    + assert (Heq : _combineClippingRegions c = value).
      { destruct (_combineClippingRegions c) as [[]|], value as [[]|];
          first [reflexivity | discriminate Hneq]. }
      exists st, c. split; [reflexivity |]. split; [exact Hthis |].
      split; [exact Hcache |].
      split; [rewrite (get_combineClippingRegions_run _ _ _ Hthis), Heq; reflexivity |].
      split; [| reflexivity].
      intros v. unfold call_testIntersection.
      rewrite (run_bind_ok _ _ _ _ _ (get_field_run _ _ _ _ Hthis)).
      rewrite Hcache, Heq. reflexivity.
Qed.

(** ** Classification *)

Lemma Plane_transform_scratch_run st l p tr m :
  heap st !! l = Some (OPlane p) ->
  matrix_at (heap st) (scratchMatrix st) tr m ->
  Plane_transform_scratch (Some l) tr st =
  (Ok tt, {| heap := heap st; scratchPlane := Plane_transform p m;
             scratchMatrix := scratchMatrix st |}).
Proof.
  intros Hp Hm. unfold Plane_transform_scratch.
  rewrite (run_bind_ok _ _ _ _ _ (load_plane_run _ _ _ Hp)).
  destruct tr as [lm|]; cbn [matrix_at read_matrix] in *.
  - rewrite (run_bind_ok _ _ _ _ _ (load_matrix_run _ _ _ Hm)). reflexivity.
  - subst m. reflexivity.
Qed.

Lemma call_testIntersection_run st this c f v :
  heap st !! this = Some (OCollection c) ->
  _testIntersection c = Some f ->
  call_testIntersection this v st = (Ok (f v), st).
Proof.
  intros Hthis Hf. unfold call_testIntersection.
  rewrite (run_bind_ok _ _ _ _ _ (get_field_run _ _ _ _ Hthis)).
  rewrite Hf. reflexivity.
Qed.

Lemma classify_loop_run this planes bv tr m b (h : list obj) sm c elems :
  h !! this = Some (OCollection c) ->
  _testIntersection c = Some (getTestIntersectionFunction (Some b)) ->
  h !! planes = Some (OArray elems) ->
  matrix_at h sm tr m ->
  forall locs ps,
    Forall2 (fun l p => h !! l = Some (OPlane p)) locs ps ->
    forall i intersection st,
      heap st = h -> scratchMatrix st = sm ->
      (forall j l, locs !! j = Some l -> elems !! (i + j) = Some (Some l)) ->
      exists st',
        classify_loop this planes (Some bv) tr i (length locs) intersection st =
          (Ok (scan_spec b (map (fun p => bv (Plane_transform p m)) ps) intersection), st') /\
        heap st' = h /\ scratchMatrix st' = sm.
Proof.
  intros Hthis Htest Hplanes Hm locs ps Hall.
  induction Hall as [| l p locs ps Hl Hall IH]; intros i intersection st Hh Hsm Helems.
  - exists st. cbn. auto.
  - cbn [length classify_loop map scan_spec].
    subst h sm.
    rewrite (run_bind_ok _ _ _ _ _ (array_get_run _ _ _ i Hplanes)).
    pose proof (Helems 0 l eq_refl) as H0. rewrite Nat.add_0_r in H0.
    rewrite H0. cbn [mjoin option_join].
    rewrite (run_bind_ok _ _ _ _ _ (Plane_transform_scratch_run _ _ _ _ _ Hl Hm)).
    rewrite run_bind. cbn [intersectPlane]. rewrite run_bind.
    cbn [get_scratchPlane scratchPlane]. cbv [mret M_ret].
    set (st1 := {| heap := heap st; scratchPlane := Plane_transform p m;
                   scratchMatrix := scratchMatrix st |}).
    assert (Hnext : forall j l', locs !! j = Some l' -> elems !! (S i + j) = Some (Some l')).
    { intros j l' Hj. replace (S i + j) with (i + S j) by lia. apply Helems. exact Hj. }
    destruct (bv (Plane_transform p m)) eqn:Hv; cbn [Intersect_eqb].
    + rewrite (run_bind_ok _ _ _ _ _ (call_testIntersection_run st1 _ _ _ _ Hthis Htest)).
      destruct b; cbn [getTestIntersectionFunction truthy Intersect_eqb].
      * apply (IH (S i) intersection st1); auto.
      * exists st1. auto.
    + apply (IH (S i) INTERSECTING st1); auto.
    + rewrite (run_bind_ok _ _ _ _ _ (call_testIntersection_run st1 _ _ _ _ Hthis Htest)).
      destruct b; cbn [getTestIntersectionFunction truthy Intersect_eqb].
      * exists st1. auto.
      * apply (IH (S i) intersection st1); auto.
Qed.

Lemma classify_run st this c locs ps m b bv parentTransform :
  wf_collection st this c locs ps m ->
  _combineClippingRegions c = Some b ->
  cache_ok c ->
  exists st',
    computeIntersectionWithBoundingVolume this (Some bv) parentTransform st =
      (Ok (classify_spec b
             (map (fun p => bv (Plane_transform p (effectiveTransform m parentTransform))) ps)),
       st') /\
    heap st' = heap st.
Proof.
  intros [Hthis Hplanes Heach Hmatrix] Hflag Hcache.
  unfold cache_ok in Hcache. rewrite Hflag in Hcache.
  unfold computeIntersectionWithBoundingVolume.
  rewrite (run_bind_ok _ _ _ _ _ (get_field_run _ _ _ _ Hthis)).
  rewrite (run_bind_ok _ _ _ _ _ (load_array_run _ _ _ Hplanes)).
  rewrite (run_bind_ok _ _ _ _ _ (get_field_run _ _ _ _ Hthis)).
  rewrite length_fmap.
  assert (Hinit : (if truthy (Some b) && (0 <? length locs) then OUTSIDE else INSIDE) =
                  match ps with [] => INSIDE | _ => if b then OUTSIDE else INSIDE end).
  { destruct Heach; destruct b; reflexivity. }
  assert (Hspec : forall vs : list Intersect,
             length vs = length ps ->
             scan_spec b vs match ps with [] => INSIDE | _ => if b then OUTSIDE else INSIDE end
             = classify_spec b vs).
  { intros vs Hlen. destruct ps, vs; try discriminate Hlen; reflexivity. }
  assert (Hslots : forall j l, locs !! j = Some l ->
                     (Some <$> locs) !! (0 + j) = Some (Some l)).
  { intros j l Hj. cbn [Nat.add]. rewrite list_lookup_fmap, Hj. reflexivity. }
  destruct parentTransform as [pt|]; cbn [effectiveTransform].
  - rewrite run_bind.
    rewrite (run_bind_ok _ _ _ _ _ (load_matrix_run _ _ _ Hmatrix)).
    rewrite run_bind. cbn [set_scratchMatrix]. cbv [mret M_ret].
    set (st1 := {| heap := heap st; scratchPlane := scratchPlane st;
                   scratchMatrix := Matrix4_multiply m pt |}).
    rewrite (run_bind_ok _ _ _ _ _ (get_combineClippingRegions_run st1 _ _ Hthis)).
    rewrite Hflag, Hinit.
    destruct (classify_loop_run this (planes c) bv MScratch (Matrix4_multiply m pt) b
                (heap st) (Matrix4_multiply m pt) c _ Hthis Hcache Hplanes eq_refl
                locs ps Heach 0 match ps with [] => INSIDE | _ => if b then OUTSIDE else INSIDE end
                st1 eq_refl eq_refl Hslots)
      as (st' & Hrun & Hheap & _).
    exists st'. rewrite Hrun, Hspec by (rewrite length_map; reflexivity). auto.
  - rewrite run_bind. cbv [mret M_ret].
    rewrite (run_bind_ok _ _ _ _ _ (get_combineClippingRegions_run st _ _ Hthis)).
    rewrite Hflag, Hinit.
    destruct (classify_loop_run this (planes c) bv (MRef (modelMatrix c)) m b
                (heap st) (scratchMatrix st) c _ Hthis Hcache Hplanes Hmatrix
                locs ps Heach 0 match ps with [] => INSIDE | _ => if b then OUTSIDE else INSIDE end
                st eq_refl eq_refl Hslots)
      as (st' & Hrun & Hheap & _).
    exists st'. rewrite Hrun, Hspec by (rewrite length_map; reflexivity). auto.
Qed.

(** C1: on a collection of planes [ps] with model matrix [m], flag [b] and
    the predicate of that flag, the classification of a volume is the
    sequential algorithm of the specification run on the verdicts of the
    volume against each plane transformed by the effective transform; the
    heap is left as it was. *)
Theorem classify_follows_sequential_algorithm
    st this c locs ps m b bv parentTransform :
  wf_collection st this c locs ps m ->
  _combineClippingRegions c = Some b ->
  cache_ok c ->
  exists st',
    computeIntersectionWithBoundingVolume this (Some bv) parentTransform st =
      (Ok (classify_spec b
             (map (fun p => bv (Plane_transform p (effectiveTransform m parentTransform))) ps)),
       st') /\
    heap st' = heap st.
Proof. apply classify_run. Qed.

(** C3: a collection whose planes array is empty classifies every volume,
    even a missing one, as Inside, whatever the flag, the cached predicate,
    the model matrix and the parent transform. *)
Theorem classify_no_planes_is_inside st this c m boundingVolume parentTransform :
  heap st !! this = Some (OCollection c) ->
  heap st !! planes c = Some (OArray []) ->
  heap st !! modelMatrix c = Some (OMatrix4 m) ->
  exists st',
    computeIntersectionWithBoundingVolume this boundingVolume parentTransform st =
      (Ok INSIDE, st').
Proof.
  intros Hthis Hplanes Hmatrix.
  unfold computeIntersectionWithBoundingVolume.
  rewrite (run_bind_ok _ _ _ _ _ (get_field_run _ _ _ _ Hthis)).
  rewrite (run_bind_ok _ _ _ _ _ (load_array_run _ _ _ Hplanes)).
  rewrite (run_bind_ok _ _ _ _ _ (get_field_run _ _ _ _ Hthis)).
  change (length (@nil (option loc))) with 0.
  change (0 <? 0) with false.
  destruct parentTransform as [pt|].
  - rewrite run_bind.
    rewrite (run_bind_ok _ _ _ _ _ (load_matrix_run _ _ _ Hmatrix)).
    rewrite run_bind. cbn [set_scratchMatrix]. cbv [mret M_ret].
    set (st1 := {| heap := heap st; scratchPlane := scratchPlane st;
                   scratchMatrix := Matrix4_multiply m pt |}).
    rewrite (run_bind_ok _ _ _ _ _ (get_combineClippingRegions_run st1 _ _ Hthis)).
    rewrite andb_false_r. exists st1. reflexivity.
  - rewrite run_bind. cbv [mret M_ret].
    rewrite (run_bind_ok _ _ _ _ _ (get_combineClippingRegions_run st _ _ Hthis)).
    rewrite andb_false_r. exists st. reflexivity.
Qed.

(** ** The packing loop *)

Lemma shapes_lookup st l : shapes st !! l = shape <$> (heap st !! l).
Proof. unfold shapes. apply list_lookup_fmap. Qed.

Lemma pack_body_plan planes array i st :
  pack_body planes array MScratch i st =
  apply_plan (body_plan (shapes st) (scratchMatrix st) planes array i) st.
Proof.
  unfold body_plan. rewrite !shapes_lookup.
  unfold pack_body, array_get, load_array, load.
  cbv [mbind M_bind mret M_ret].
  destruct (heap st !! planes) as [[pe| | | | |]|] eqn:Hp; try reflexivity.
  destruct (heap st !! array) as [[ae| | | | |]|] eqn:Ha; try reflexivity.
  cbn [fmap option_fmap option_map shape].
  destruct (mjoin (pe !! i)) as [pl|]; [| reflexivity].
  rewrite shapes_lookup.
  unfold Plane_transform_scratch, load_plane, load, read_matrix, get_scratchMatrix,
    set_scratchPlane, get_scratchPlane.
  cbv [mbind M_bind mret M_ret].
  destruct (heap st !! pl) as [[| p | | | |]|] eqn:Hpl; try reflexivity.
  cbn [fmap option_fmap option_map shape scratchPlane heap scratchMatrix].
  destruct (mjoin (ae !! i)) as [l|]; [| reflexivity].
  rewrite shapes_lookup.
  unfold Cartesian3_clone, set_w, load_cartesian4, load, store, with_heap.
  cbv [mbind M_bind mret M_ret]. cbn [heap scratchPlane scratchMatrix].
  destruct (heap st !! l) as [[| | | k | |]|] eqn:Hl; try reflexivity.
  cbn [fmap option_fmap option_map shape heap scratchPlane scratchMatrix].
  rewrite (lookup_store_eq _ _ _ _ Hl).
  cbn [heap scratchPlane scratchMatrix x y z w apply_plan].
  rewrite list_insert_insert_eq. reflexivity.
Qed.

Lemma body_plan_write sh sm planes array i sp l :
  body_plan sh sm planes array i = PWrite sp l -> sh !! l = Some None.
Proof.
  unfold body_plan. intros H.
  repeat match type of H with
         | match ?t with _ => _ end = _ => destruct t eqn:?; try discriminate H
         end.
  congruence.
Qed.

Lemma shapes_write st l k sp :
  shapes st !! l = Some None ->
  shapes {| heap := <[l := OCartesian4 k]> (heap st); scratchPlane := sp;
            scratchMatrix := scratchMatrix st |} = shapes st.
Proof.
  intros Hl. apply list_eq. intros j. rewrite !shapes_lookup. cbn [heap].
  destruct (decide (l = j)) as [<-|Hne].
  - rewrite shapes_lookup in Hl.
    destruct (heap st !! l) as [o|] eqn:Ho; [| discriminate Hl].
    rewrite (lookup_store_eq _ _ _ _ Ho). exact (eq_sym Hl).
  - rewrite lookup_store_ne by exact Hne. reflexivity.
Qed.

Lemma shapes_cartesian4 st l :
  shapes st !! l = Some None -> exists k, heap st !! l = Some (OCartesian4 k).
Proof.
  rewrite shapes_lookup.
  destruct (heap st !! l) as [[| | | k | |]|]; try discriminate. eauto.
Qed.

Lemma coherent_untouched s s' : coherent s s' s s'.
Proof. split; auto. Qed.

Lemma coherent_trans s s' u u' t t' :
  coherent s s' u u' -> coherent u u' t t' -> coherent s s' t t'.
Proof.
  intros [A1 A2 A3 A4 A5 A6] [B1 B2 B3 B4 B5 B6]. split; try congruence.
  - intros l. destruct (B5 l) as [|[Ht Ht']]; [auto |].
    rewrite Ht, Ht'. apply A5.
  - destruct B6 as [|[Ht Ht']]; [auto |]. rewrite Ht, Ht'. exact A6.
Qed.

Lemma apply_plan_coherent sh sm planes array i s s' :
  shapes s = sh -> shapes s' = sh ->
  scratchMatrix s = sm -> scratchMatrix s' = sm ->
  coherent s s'
    (snd (apply_plan (body_plan sh sm planes array i) s))
    (snd (apply_plan (body_plan sh sm planes array i) s')).
Proof.
  intros Hs Hs' Hm Hm'.
  destruct (body_plan sh sm planes array i) as [e | sp e | sp l] eqn:Hplan;
    cbn [apply_plan snd].
  - apply coherent_untouched.
  - split; auto.
  - apply body_plan_write in Hplan.
    split; cbn [scratchMatrix scratchPlane heap]; auto.
    + apply shapes_write. congruence.
    + apply shapes_write. congruence.
    + intros j. destruct (decide (l = j)) as [<-|Hne].
      * left.
        destruct (shapes_cartesian4 s l) as [k Ho]; [congruence |].
        destruct (shapes_cartesian4 s' l) as [k' Ho']; [congruence |].
        rewrite (lookup_store_eq _ _ _ _ Ho), (lookup_store_eq _ _ _ _ Ho').
        reflexivity.
      * right. rewrite !lookup_store_ne by exact Hne. auto.
Qed.

Lemma pack_loop_two_runs planes array k :
  forall i s s',
    shapes s = shapes s' -> scratchMatrix s = scratchMatrix s' ->
    fst (pack_loop planes array MScratch i k s) =
    fst (pack_loop planes array MScratch i k s') /\
    coherent s s' (snd (pack_loop planes array MScratch i k s))
                  (snd (pack_loop planes array MScratch i k s')).
Proof.
  induction k as [|k IH]; intros i s s' Hsh Hsm.
  - cbn. split; [reflexivity | apply coherent_untouched].
  - cbn [pack_loop]. rewrite !run_bind, !pack_body_plan.
    rewrite <- Hsh, <- Hsm.
    pose proof (apply_plan_coherent (shapes s) (scratchMatrix s) planes array i s s'
                  eq_refl (eq_sym Hsh) eq_refl (eq_sym Hsm)) as Hcoh.
    destruct (body_plan (shapes s) (scratchMatrix s) planes array i)
      as [e | sp e | sp l]; cbn [apply_plan snd] in *.
    + split; [reflexivity | exact Hcoh].
    + split; [reflexivity | exact Hcoh].
    + destruct Hcoh as [C1 C2 C3 C4 C5 C6].
      match goal with
      | |- fst (pack_loop _ _ _ _ _ ?u) = fst (pack_loop _ _ _ _ _ ?u') /\ _ =>
          destruct (IH (S i) u u') as [Hr Hc];
          [congruence | cbn [scratchMatrix]; congruence |];
          split; [exact Hr |];
          apply (coherent_trans s s' u u'); [split; assumption | exact Hc]
      end.
Qed.

Lemma load_collection_two_runs l s s' :
  shapes s = shapes s' ->
  (exists c, load_collection l s = (Ok c, s) /\ load_collection l s' = (Ok c, s')) \/
  (load_collection l s = (Throw IllTyped, s) /\
   load_collection l s' = (Throw IllTyped, s')).
Proof.
  intros Hsh. pose proof (f_equal (fun sh => sh !! l) Hsh) as H.
  cbv beta in H. rewrite !shapes_lookup in H.
  unfold load_collection, load. cbv [mbind M_bind mret M_ret].
  destruct (heap s !! l) as [[| | | | |c]|], (heap s' !! l) as [[| | | | |c']|];
    try discriminate H; auto.
  injection H as <-. eauto.
Qed.

Lemma load_array_two_runs l s s' :
  shapes s = shapes s' ->
  (exists a, load_array l s = (Ok a, s) /\ load_array l s' = (Ok a, s')) \/
  (load_array l s = (Throw IllTyped, s) /\ load_array l s' = (Throw IllTyped, s')).
Proof.
  intros Hsh. pose proof (f_equal (fun sh => sh !! l) Hsh) as H.
  cbv beta in H. rewrite !shapes_lookup in H.
  unfold load_array, load. cbv [mbind M_bind mret M_ret].
  destruct (heap s !! l) as [[a| | | | |]|], (heap s' !! l) as [[a'| | | | |]|];
    try discriminate H; auto.
  injection H as <-. eauto.
Qed.

Lemma load_matrix_two_runs l s s' :
  shapes s = shapes s' ->
  (exists m, load_matrix l s = (Ok m, s) /\ load_matrix l s' = (Ok m, s')) \/
  (load_matrix l s = (Throw IllTyped, s) /\ load_matrix l s' = (Throw IllTyped, s')).
Proof.
  intros Hsh. pose proof (f_equal (fun sh => sh !! l) Hsh) as H.
  cbv beta in H. rewrite !shapes_lookup in H.
  unfold load_matrix, load. cbv [mbind M_bind mret M_ret].
  destruct (heap s !! l) as [[| |m| | |]|], (heap s' !! l) as [[| |m'| | |]|];
    try discriminate H; auto.
  injection H as <-. eauto.
Qed.

(** Two runs of [transformAndPackPlanes] into the same container, from states
    with the same shapes. *)
Lemma transformAndPackPlanes_two_runs this viewMatrix array s s' :
  shapes s = shapes s' ->
  let t := snd (transformAndPackPlanes this viewMatrix (Some array) s) in
  let t' := snd (transformAndPackPlanes this viewMatrix (Some array) s') in
  fst (transformAndPackPlanes this viewMatrix (Some array) s) =
  fst (transformAndPackPlanes this viewMatrix (Some array) s') /\
  shapes t = shapes s /\
  (forall l, heap t !! l = heap t' !! l \/
             (heap t !! l = heap s !! l /\ heap t' !! l = heap s' !! l)) /\
  (scratchPlane t = scratchPlane t' \/
   (scratchPlane t = scratchPlane s /\ scratchPlane t' = scratchPlane s')) /\
  (scratchMatrix t = scratchMatrix t' \/
   (scratchMatrix t = scratchMatrix s /\ scratchMatrix t' = scratchMatrix s')).
Proof.
  intros Hsh. cbv zeta. unfold transformAndPackPlanes.
  destruct (load_collection_two_runs this s s' Hsh) as [(c & Hc & Hc')|[Hc Hc']];
    [rewrite (run_bind_ok _ _ _ _ _ Hc), (run_bind_ok _ _ _ _ _ Hc')
    |rewrite (run_bind_throw _ _ _ _ _ Hc), (run_bind_throw _ _ _ _ _ Hc');
     cbn [fst snd]; auto 10].
  destruct (load_array_two_runs (planes c) s s' Hsh) as [(elems & He & He')|[He He']];
    [rewrite (run_bind_ok _ _ _ _ _ He), (run_bind_ok _ _ _ _ _ He')
    |rewrite (run_bind_throw _ _ _ _ _ He), (run_bind_throw _ _ _ _ _ He');
     cbn [fst snd]; auto 10].
  rewrite !(run_bind (mret array)). cbv [mret M_ret].
  rewrite (run_bind_ok _ _ _ _ _ Hc), (run_bind_ok _ _ _ _ _ Hc').
  destruct (load_matrix_two_runs (modelMatrix c) s s' Hsh) as [(m & Hm & Hm')|[Hm Hm']];
    [rewrite (run_bind_ok _ _ _ _ _ Hm), (run_bind_ok _ _ _ _ _ Hm')
    |rewrite (run_bind_throw _ _ _ _ _ Hm), (run_bind_throw _ _ _ _ _ Hm');
     cbn [fst snd]; auto 10].
  rewrite !(run_bind (set_scratchMatrix _)). cbn [set_scratchMatrix].
  set (s1 := {| heap := heap s; scratchPlane := scratchPlane s;
                scratchMatrix := Matrix4_multiply viewMatrix m |}).
  set (s1' := {| heap := heap s'; scratchPlane := scratchPlane s';
                 scratchMatrix := Matrix4_multiply viewMatrix m |}).
  destruct (pack_loop_two_runs (planes c) array (length elems) 0 s1 s1' Hsh eq_refl)
    as [Hr [C1 C2 C3 C4 C5 C6]].
  rewrite !run_bind.
  destruct (pack_loop (planes c) array MScratch 0 (length elems) s1) as [[[]|e] t],
           (pack_loop (planes c) array MScratch 0 (length elems) s1') as [[[]|e'] t'];
    cbn [fst snd] in *; try discriminate Hr;
    (split; [congruence |]); (split; [exact C1 |]); (split; [exact C5 |]);
    (split; [exact C6 |]); left; rewrite C3, C4; reflexivity.
Qed.

(** C7: a second call of [transformAndPackPlanes] with the same arguments and
    the same container, on the state the first call left, returns what the
    first call returned and leaves that state as it is: the container, the
    heap and both scratch objects after the second call are those after the
    first. *)
Theorem transformAndPackPlanes_idempotent_on_container this viewMatrix array st :
  transformAndPackPlanes this viewMatrix (Some array)
    (snd (transformAndPackPlanes this viewMatrix (Some array) st)) =
  transformAndPackPlanes this viewMatrix (Some array) st.
Proof.
  destruct (transformAndPackPlanes_two_runs this viewMatrix array st st eq_refl)
    as (_ & Hshape & _).
  cbv zeta in Hshape.
  destruct (transformAndPackPlanes_two_runs this viewMatrix array st
              (snd (transformAndPackPlanes this viewMatrix (Some array) st))
              (eq_sym Hshape))
    as (Hr & _ & Hcells & Hplane & Hmatrix).
  cbv zeta in *.
  destruct (transformAndPackPlanes this viewMatrix (Some array) st) as [r t] eqn:Hrun.
  cbn [fst snd] in *.
  destruct (transformAndPackPlanes this viewMatrix (Some array) t) as [r' t'].
  cbn [fst snd] in *. subst r'. f_equal.
  assert (Hheap : heap t' = heap t).
  { apply list_eq. intros l.
    destruct (Hcells l) as [H|[_ H]]; [exact (eq_sym H) | exact H]. }
  assert (Hsp : scratchPlane t' = scratchPlane t).
  { destruct Hplane as [H|[_ H]]; [exact (eq_sym H) | exact H]. }
  assert (Hsm : scratchMatrix t' = scratchMatrix t).
  { destruct Hmatrix as [H|[_ H]]; [exact (eq_sym H) | exact H]. }
  destruct t, t'. cbn in *. congruence.
Qed.

(** Without a container the loop meets a hole of [new Array(length)] at its
    first iteration: on every collection with at least one plane the call
    ends in a [TypeError]. *)
Lemma transformAndPackPlanes_without_array_throws
    st this c l locs p ps m viewMatrix :
  wf_collection st this c (l :: locs) (p :: ps) m ->
  fst (transformAndPackPlanes this viewMatrix None st) = Throw TypeError.
Proof.
  intros [Hthis Hplanes Heach Hmatrix].
  apply Forall2_cons_1 in Heach as [Hl _].
  unfold transformAndPackPlanes.
  rewrite (run_bind_ok _ _ _ _ _ (load_collection_run _ _ _ Hthis)).
  rewrite (run_bind_ok _ _ _ _ _ (load_array_run _ _ _ Hplanes)).
  rewrite run_bind. cbn [alloc].
  set (n := length (Some <$> l :: locs)).
  set (s1 := with_heap (heap st ++ [OArray (replicate n None)]) st).
  assert (Hold : forall j o, heap st !! j = Some o -> heap s1 !! j = Some o).
  { intros j o Hj. apply lookup_alloc_old, Hj. }
  rewrite (run_bind_ok _ _ _ _ _ (load_collection_run s1 _ _ (Hold _ _ Hthis))).
  rewrite (run_bind_ok _ _ _ _ _ (load_matrix_run s1 _ _ (Hold _ _ Hmatrix))).
  rewrite run_bind. cbn [set_scratchMatrix].
  set (s2 := {| heap := heap s1; scratchPlane := scratchPlane s1;
                scratchMatrix := Matrix4_multiply viewMatrix m |}).
  rewrite run_bind. subst n. cbn [fmap list_fmap length pack_loop].
  rewrite run_bind, pack_body_plan.
  unfold body_plan. rewrite !shapes_lookup.
  change (heap s2) with (heap s1).
  rewrite (Hold _ _ Hplanes).
  replace (heap s1 !! length (heap st))
    with (Some (OArray (replicate (S (length (Some <$> locs))) (@None loc))))
    by (symmetry; apply lookup_alloc_new).
  cbn [fmap option_fmap option_map shape list_fmap lookup list_lookup mjoin option_join].
  rewrite shapes_lookup. change (heap s2) with (heap s1).
  rewrite (Hold _ _ Hl).
  reflexivity.
Qed.

(** With a container whose first slots hold distinct [Cartesian4] records,
    one per plane, the loop packs plane [j] into the record of slot [j]. *)
Lemma pack_loop_fills planes array X (sh : list (option obj))
    (pe ae : list (option loc)) (ps : list (Plane num)) (cells : list loc) n :
  sh !! planes = Some (Some (OArray pe)) ->
  sh !! array = Some (Some (OArray ae)) ->
  (forall j, j < n -> exists lp p lc,
      pe !! j = Some (Some lp) /\ sh !! lp = Some (Some (OPlane p)) /\
      ps !! j = Some p /\ ae !! j = Some (Some lc) /\
      cells !! j = Some lc /\ sh !! lc = Some None) ->
  NoDup cells ->
  length cells = n ->
  forall k i s,
    i + k = n -> shapes s = sh -> scratchMatrix s = X ->
    exists t,
      pack_loop planes array MScratch i k s = (Ok tt, t) /\
      shapes t = sh /\ scratchMatrix t = X /\
      (forall j lc p, i <= j -> cells !! j = Some lc -> ps !! j = Some p ->
         heap t !! lc = Some (OCartesian4 (packed (Plane_transform p X)))) /\
      (forall l, (forall j, i <= j -> cells !! j ≠ Some l) -> heap t !! l = heap s !! l).
Proof.
  intros Hplanes Harray Hslots Hnodup Hlen.
  induction k as [|k IH]; intros i s Hik Hsh HX.
  - exists s. cbn [pack_loop]. repeat split; auto.
    intros j lc p Hj Hc _. apply lookup_lt_Some in Hc. lia.
  - destruct (Hslots i ltac:(lia)) as (lp & p & lc & Hpe & Hlp & Hps & Hae & Hc & Hlc).
    cbn [pack_loop]. rewrite run_bind, pack_body_plan. rewrite Hsh, HX.
    unfold body_plan. rewrite Hplanes, Harray, Hpe. cbn [mjoin option_join].
    rewrite Hlp, Hae. cbn [mjoin option_join]. rewrite Hlc. cbn [apply_plan].
    set (s1 := {| heap := <[lc := OCartesian4 (packed (Plane_transform p X))]> (heap s);
                  scratchPlane := Plane_transform p X;
                  scratchMatrix := scratchMatrix s |}).
    assert (Hsh1 : shapes s1 = sh).
    { subst s1. rewrite <- Hsh. apply shapes_write. rewrite Hsh. exact Hlc. }
    destruct (IH (S i) s1 ltac:(lia) Hsh1 HX) as (t & Hrun & Ht & HtX & Hfill & Hframe).
    exists t. split; [exact Hrun |]. split; [exact Ht |]. split; [exact HtX |].
    assert (Hlater : forall j, S i <= j -> cells !! j ≠ Some lc).
    { intros j Hj Hcj.
      pose proof (NoDup_lookup _ _ _ _ Hnodup Hc Hcj). lia. }
    split.
    + intros j lc' p' Hj Hc' Hp'.
      destruct (decide (j = i)) as [->|Hne].
      * rewrite Hc in Hc'. rewrite Hps in Hp'.
        injection Hc' as <-. injection Hp' as <-.
        rewrite (Hframe lc Hlater). subst s1. cbn [heap].
        destruct (shapes_cartesian4 s lc) as [old Hold]; [rewrite Hsh; exact Hlc |].
        eapply lookup_store_eq, Hold.
      * apply (Hfill j lc' p'); [lia | exact Hc' | exact Hp'].
    + intros l Hl. rewrite Hframe by (intros j Hj; apply Hl; lia).
      subst s1. cbn [heap]. apply list_lookup_insert_ne.
      intros ->. exact (Hl i (le_n _) Hc).
Qed.

(** [transformAndPackPlanes] into a container whose first slots hold
    distinct [Cartesian4] records, one per plane at least: the call returns
    the container itself, which keeps its slots, and the record of slot [j]
    now holds plane [j] transformed by [viewMatrix * modelMatrix]. *)
Lemma transformAndPackPlanes_fills_container
    st this c locs ps m viewMatrix array (ae : list (option loc)) (cells : list loc) :
  wf_collection st this c locs ps m ->
  heap st !! array = Some (OArray ae) ->
  length cells = length locs ->
  NoDup cells ->
  (forall j lc, cells !! j = Some lc ->
      ae !! j = Some (Some lc) /\ exists old, heap st !! lc = Some (OCartesian4 old)) ->
  exists st',
    transformAndPackPlanes this viewMatrix (Some array) st = (Ok array, st') /\
    heap st' !! array = Some (OArray ae) /\
    (forall j lc p, cells !! j = Some lc -> ps !! j = Some p ->
       heap st' !! lc =
       Some (OCartesian4 (packed (Plane_transform p (Matrix4_multiply viewMatrix m))))).
Proof.
  intros [Hthis Hplanes Heach Hmatrix] Harray Hlen Hnodup Hcells.
  unfold transformAndPackPlanes.
  rewrite (run_bind_ok _ _ _ _ _ (load_collection_run _ _ _ Hthis)).
  rewrite (run_bind_ok _ _ _ _ _ (load_array_run _ _ _ Hplanes)).
  rewrite run_bind. cbv [mret M_ret].
  rewrite (run_bind_ok _ _ _ _ _ (load_collection_run _ _ _ Hthis)).
  rewrite (run_bind_ok _ _ _ _ _ (load_matrix_run _ _ _ Hmatrix)).
  rewrite run_bind. cbn [set_scratchMatrix]. rewrite length_fmap.
  set (X := Matrix4_multiply viewMatrix m).
  set (s1 := {| heap := heap st; scratchPlane := scratchPlane st; scratchMatrix := X |}).
  assert (Hsh : forall l o, heap st !! l = Some o -> shape o = Some o ->
                            shapes s1 !! l = Some (Some o)).
  { intros l o Hl Ho. rewrite shapes_lookup. cbn [heap s1]. rewrite Hl. cbn. f_equal.
    exact Ho. }
  assert (Hslots : forall j, j < length locs -> exists lp p lc,
      (Some <$> locs) !! j = Some (Some lp) /\ shapes s1 !! lp = Some (Some (OPlane p)) /\
      ps !! j = Some p /\ ae !! j = Some (Some lc) /\
      cells !! j = Some lc /\ shapes s1 !! lc = Some None).
  { intros j Hj.
    destruct (lookup_lt_is_Some_2 locs j Hj) as [lp Hlp].
    destruct (lookup_lt_is_Some_2 cells j ltac:(lia)) as [lc Hlc].
    destruct (Forall2_lookup_l _ _ _ _ _ Heach Hlp) as (p & Hp & Hcell).
    destruct (Hcells j lc Hlc) as (Hae & old & Hold).
    exists lp, p, lc. rewrite list_lookup_fmap, Hlp.
    split; [reflexivity |].
    split; [apply Hsh; [exact Hcell | reflexivity] |].
    split; [exact Hp |]. split; [exact Hae |]. split; [exact Hlc |].
    rewrite shapes_lookup. cbn [heap s1]. rewrite Hold. reflexivity. }
  destruct (pack_loop_fills (planes c) array X (shapes s1) (Some <$> locs) ae ps cells
              (length locs) (Hsh _ _ Hplanes eq_refl) (Hsh _ _ Harray eq_refl)
              Hslots Hnodup Hlen (length locs) 0 s1 eq_refl eq_refl eq_refl)
    as (t & Hrun & Ht & _ & Hfill & Hframe).
  rewrite run_bind, Hrun. cbv [mret M_ret]. exists t.
  split; [reflexivity |]. split.
  - rewrite Hframe; [exact Harray |].
    intros j _ Hc. destruct (Hcells j array Hc) as (_ & old & Hold). congruence.
  - intros j lc p Hc Hp. apply (Hfill j lc p); [lia | exact Hc | exact Hp].
Qed.

(** ** Cloning *)

Lemma Array_from_run st a elems :
  heap st !! a = Some (OArray elems) ->
  Array_from a st = (Ok (length (heap st)), with_heap (heap st ++ [OArray elems]) st).
Proof.
  intros H. unfold Array_from.
  rewrite (run_bind_ok _ _ _ _ _ (load_array_run _ _ _ H)). reflexivity.
Qed.

Lemma Matrix4_clone_run st matrix result m old :
  heap st !! matrix = Some (OMatrix4 m) ->
  heap st !! result = Some (OMatrix4 old) ->
  Matrix4_clone matrix result st =
  (Ok tt, with_heap (<[result := OMatrix4 m]> (heap st)) st).
Proof.
  intros H H'. unfold Matrix4_clone.
  rewrite (run_bind_ok _ _ _ _ _ (load_matrix_run _ _ _ H)).
  rewrite (run_bind_ok _ _ _ _ _ (load_matrix_run _ _ _ H')). reflexivity.
Qed.

Lemma Color_clone_run st color result k old :
  heap st !! color = Some (OColor k) ->
  heap st !! result = Some (OColor old) ->
  Color_clone color result st =
  (Ok tt, with_heap (<[result := OColor k]> (heap st)) st).
Proof.
  intros H H'. unfold Color_clone.
  rewrite (run_bind_ok _ _ _ _ _ (load_color_run _ _ _ H)).
  rewrite (run_bind_ok _ _ _ _ _ (load_color_run _ _ _ H')). reflexivity.
Qed.

Lemma lookup_new (h l : list obj) k : (h ++ l) !! (length h + k) = l !! k.
Proof. rewrite lookup_app_r by lia. f_equal. lia. Qed.

Lemma lookup_old (h l : list obj) j o : h !! j = Some o -> (h ++ l) !! j = Some o.
Proof. apply lookup_app_l_Some. Qed.

Lemma store_new (h l : list obj) k o :
  <[length h + k := o]> (h ++ l) = h ++ <[k := o]> l.
Proof. apply insert_app_r. Qed.

Lemma with_heap_with_heap h h' st : with_heap h (with_heap h' st) = with_heap h st.
Proof. reflexivity. Qed.

Lemma clone_fresh_run st this c elems m k :
  heap st !! this = Some (OCollection c) ->
  heap st !! planes c = Some (OArray elems) ->
  heap st !! modelMatrix c = Some (OMatrix4 m) ->
  heap st !! edgeColor c = Some (OColor k) ->
  clone this None st =
  (Ok (length (heap st) + 3),
   with_heap (heap st ++ [OArray []; OMatrix4 m; OColor k;
                          OCollection (cloned c (length (heap st))); OArray elems]) st).
Proof.
  intros Hthis Hplanes Hmatrix Hcolor.
  unfold clone.
  rewrite (run_bind_ok _ _ _ _ _ (ClippingPlanesCollection_run None st)).
  set (n := length (heap st)).
  pose (read_old := fun l o (H : heap st !! l = Some o) L =>
                      lookup_old (heap st) L l o H).
  pose (read_new := fun L j => lookup_new (heap st) L j).
  pose (write_new := fun L j o => store_new (heap st) L j o).
  erewrite run_bind_ok by (eapply get_field_run; exact (read_old _ _ Hthis _)).
  erewrite run_bind_ok by (eapply Array_from_run; exact (read_old _ _ Hplanes _)).
  cbn [heap with_heap]. rewrite with_heap_with_heap, length_app, <- app_assoc.
  cbn [length app]. fold n.
  erewrite run_bind_ok by (eapply modify_collection_run; exact (read_new _ 3)).
  cbn [heap with_heap]. rewrite with_heap_with_heap, (write_new _ 3).
  cbn [insert list_insert].
  erewrite run_bind_ok by (eapply get_field_run; exact (read_old _ _ Hthis _)).
  erewrite run_bind_ok by (eapply modify_collection_run; exact (read_new _ 3)).
  cbn [heap with_heap]. rewrite with_heap_with_heap, (write_new _ 3).
  cbn [insert list_insert].
  erewrite run_bind_ok by (eapply get_field_run; exact (read_old _ _ Hthis _)).
  erewrite run_bind_ok by (eapply get_field_run; exact (read_new _ 3)).
  cbn [modelMatrix with_enabled with_planes constructed defaultValue EMPTY_OBJECT
       o_modelMatrix].
  erewrite run_bind_ok
    by (eapply Matrix4_clone_run;
        [exact (read_old _ _ Hmatrix _) | exact (read_new _ 1)]).
  cbn [heap with_heap]. rewrite with_heap_with_heap, (write_new _ 1).
  cbn [insert list_insert].
  erewrite run_bind_ok
    by (eapply get_combineClippingRegions_run; exact (read_old _ _ Hthis _)).
  erewrite run_bind_ok
    by (eapply set_combineClippingRegions_run; exact (read_new _ 3)).
  cbn [_combineClippingRegions with_enabled with_planes constructed defaultValue
       EMPTY_OBJECT o_combineClippingRegions].
  assert (Hflag :
    forall L1 L2 L3 c1 L4,
      (if strict_neq (Some true) (_combineClippingRegions c)
       then with_heap
              (<[n + 3 := OCollection
                   (with_testIntersection
                      (Some (getTestIntersectionFunction (_combineClippingRegions c)))
                      (with_combineClippingRegions (_combineClippingRegions c) c1))]>
                 (heap (with_heap (heap st ++ [L1; L2; L3; OCollection c1; L4]) st)))
              (with_heap (heap st ++ [L1; L2; L3; OCollection c1; L4]) st)
       else with_heap (heap st ++ [L1; L2; L3; OCollection c1; L4]) st) =
      with_heap (heap st ++ [L1; L2; L3;
        OCollection
          (if strict_neq (Some true) (_combineClippingRegions c)
           then with_testIntersection
                  (Some (getTestIntersectionFunction (_combineClippingRegions c)))
                  (with_combineClippingRegions (_combineClippingRegions c) c1)
           else c1); L4]) st).
  { intros. destruct (strict_neq _ _); [| reflexivity].
    cbn [heap with_heap]. rewrite with_heap_with_heap, (write_new _ 3). reflexivity. }
  rewrite Hflag. clear Hflag.
  erewrite run_bind_ok by (eapply get_field_run; exact (read_old _ _ Hthis _)).
  erewrite run_bind_ok by (eapply get_field_run; exact (read_new _ 3)).
  assert (Hec : forall c1,
    edgeColor (if strict_neq (Some true) (_combineClippingRegions c)
               then with_testIntersection
                      (Some (getTestIntersectionFunction (_combineClippingRegions c)))
                      (with_combineClippingRegions (_combineClippingRegions c) c1)
               else c1) = edgeColor c1).
  { intros. destruct (strict_neq _ _); reflexivity. }
  rewrite Hec. clear Hec.
  cbn [edgeColor with_enabled with_planes constructed defaultValue EMPTY_OBJECT
       o_edgeColor].
  erewrite run_bind_ok
    by (eapply Color_clone_run;
        [exact (read_old _ _ Hcolor _) | exact (read_new _ 2)]).
  cbn [heap with_heap]. rewrite with_heap_with_heap, (write_new _ 2).
  cbn [insert list_insert].
  erewrite run_bind_ok by (eapply get_field_run; exact (read_old _ _ Hthis _)).
  erewrite run_bind_ok by (eapply modify_collection_run; exact (read_new _ 3)).
  cbn [heap with_heap]. rewrite with_heap_with_heap, (write_new _ 3).
  cbn [insert list_insert]. cbv [mret M_ret].
  do 6 f_equal. unfold cloned.
  destruct (_combineClippingRegions c) as [[]|] eqn:Hf; cbn; rewrite ?Hf; reflexivity.
Qed.

Lemma strict_neq_false a b : strict_neq a b = false -> a = b.
Proof. destruct a as [[]|], b as [[]|]; cbn; congruence. Qed.

Lemma set_combineClippingRegions_store st this c value :
  heap st !! this = Some (OCollection c) ->
  set_combineClippingRegions this value st =
  (Ok tt,
   with_heap (<[this := OCollection
      (if strict_neq (_combineClippingRegions c) value
       then with_testIntersection (Some (getTestIntersectionFunction value))
              (with_combineClippingRegions value c)
       else c)]> (heap st)) st).
Proof.
  intros H. rewrite (set_combineClippingRegions_run _ _ _ _ H).
  destruct (strict_neq _ _); [reflexivity |].
  rewrite (list_insert_id _ _ _ H). destruct st; reflexivity.
Qed.

Lemma lookup_alloc_other (h : list obj) o l :
  l ≠ length h -> (h ++ [o]) !! l = h !! l.
Proof.
  intros Hne. destruct (decide (l < length h)) as [Hlt|Hge].
  - apply lookup_app_l, Hlt.
  - rewrite !lookup_ge_None_2; [reflexivity | lia |].
    rewrite length_app. cbn [length]. lia.
Qed.

Lemma clone_into_run st this c elems m k r cr rm rk :
  heap st !! this = Some (OCollection c) ->
  heap st !! planes c = Some (OArray elems) ->
  heap st !! modelMatrix c = Some (OMatrix4 m) ->
  heap st !! edgeColor c = Some (OColor k) ->
  r ≠ this ->
  heap st !! r = Some (OCollection cr) ->
  heap st !! modelMatrix cr = Some (OMatrix4 rm) ->
  heap st !! edgeColor cr = Some (OColor rk) ->
  exists st',
    clone this (Some r) st = (Ok r, st') /\
    heap st' !! r = Some (OCollection (cloned_into c cr (length (heap st)))) /\
    heap st' !! length (heap st) = Some (OArray elems) /\
    heap st' !! modelMatrix cr = Some (OMatrix4 m) /\
    heap st' !! edgeColor cr = Some (OColor k) /\
    (forall l, l ≠ r -> l ≠ modelMatrix cr -> l ≠ edgeColor cr ->
               l ≠ length (heap st) -> heap st' !! l = heap st !! l).
Proof.
  intros Hthis Hplanes Hmatrix Hcolor Hne Hr Hrm Hrk.
  set (n := length (heap st)).
  assert (this < n /\ planes c < n /\ modelMatrix c < n /\ edgeColor c < n /\
          r < n /\ modelMatrix cr < n /\ edgeColor cr < n) as (B1 & B2 & B3 & B4 & B5 & B6 & B7)
    by (repeat split; eapply lookup_lt_Some; eassumption).
  assert (D1 : this ≠ modelMatrix cr) by congruence.
  assert (D2 : this ≠ edgeColor cr) by congruence.
  assert (D3 : r ≠ modelMatrix cr) by congruence.
  assert (D4 : r ≠ edgeColor cr) by congruence.
  assert (D5 : modelMatrix cr ≠ edgeColor cr) by congruence.
  assert (D6 : modelMatrix c ≠ r) by congruence.
  assert (D7 : edgeColor c ≠ r) by congruence.
  assert (D8 : edgeColor c ≠ modelMatrix cr) by congruence.
  assert (D9 : planes c ≠ r) by congruence.
  pose proof (lookup_alloc_old (heap st) this (OArray elems) _ Hthis) as Hthis1.
  pose proof (lookup_alloc_old (heap st) r (OArray elems) _ Hr) as Hr1.
  pose proof (lookup_alloc_old (heap st) _ (OArray elems) _ Hmatrix) as Hmatrix1.
  pose proof (lookup_alloc_old (heap st) _ (OArray elems) _ Hcolor) as Hcolor1.
  pose proof (lookup_alloc_old (heap st) _ (OArray elems) _ Hrm) as Hrm1.
  pose proof (lookup_alloc_old (heap st) _ (OArray elems) _ Hrk) as Hrk1.
  pose proof (lookup_alloc_new (heap st) (OArray elems)) as Hnew1.
  fold n in Hnew1.
  assert (Hlen : length (heap st ++ [OArray elems]) = S n)
    by (rewrite length_app; cbn [length]; lia).
  set (h1 := heap st ++ [OArray elems]) in *.
  unfold clone. rewrite run_bind. cbv [mret M_ret].
  erewrite run_bind_ok by (eapply get_field_run; exact Hthis).
  erewrite run_bind_ok by (eapply Array_from_run; exact Hplanes).
  fold n h1.
  erewrite run_bind_ok by (eapply modify_collection_run; exact Hr1).
  cbn [heap with_heap]. rewrite with_heap_with_heap.
  assert (Hsolve : forall (h : list obj) l o x, h !! l = Some o -> l ≠ r ->
                     <[r := x]> h !! l = Some o)
    by (intros; rewrite list_lookup_insert_ne by congruence; assumption).
  assert (Hat : forall (h : list obj) x o, h !! r = Some o -> <[r := x]> h !! r = Some x)
    by (intros; eapply lookup_store_eq; eassumption).
  erewrite run_bind_ok
    by (eapply get_field_run; cbn [heap with_heap]; eapply Hsolve; [exact Hthis1 | congruence]).
  erewrite run_bind_ok
    by (eapply modify_collection_run; cbn [heap with_heap]; eapply Hat; exact Hr1).
  cbn [heap with_heap]. rewrite with_heap_with_heap, list_insert_insert_eq.
  erewrite run_bind_ok
    by (eapply get_field_run; cbn [heap with_heap]; eapply Hsolve; [exact Hthis1 | congruence]).
  erewrite run_bind_ok
    by (eapply get_field_run; cbn [heap with_heap]; eapply Hat; exact Hr1).
  cbn [modelMatrix with_enabled with_planes].
  erewrite run_bind_ok
    by (eapply Matrix4_clone_run; cbn [heap with_heap];
        [eapply Hsolve; [exact Hmatrix1 | congruence]
        |eapply Hsolve; [exact Hrm1 | congruence]]).
  cbn [heap with_heap]. rewrite with_heap_with_heap.
  set (c3 := with_enabled (enabled c) (with_planes n cr)).
  assert (Hr3 : <[modelMatrix cr := OMatrix4 m]> (<[r := OCollection c3]> h1) !! r
                = Some (OCollection c3)).
  { rewrite list_lookup_insert_ne by congruence. eapply Hat, Hr1. }
  assert (Hthis3 : <[modelMatrix cr := OMatrix4 m]> (<[r := OCollection c3]> h1) !! this
                   = Some (OCollection c)).
  { rewrite list_lookup_insert_ne by congruence. eapply Hsolve; [exact Hthis1 | congruence]. }
  erewrite run_bind_ok by (eapply get_combineClippingRegions_run; exact Hthis3).
  erewrite run_bind_ok by (eapply set_combineClippingRegions_store; exact Hr3).
  cbn [heap with_heap]. rewrite with_heap_with_heap.
  set (c4 := if strict_neq (_combineClippingRegions c3) (_combineClippingRegions c)
             then with_testIntersection
                    (Some (getTestIntersectionFunction (_combineClippingRegions c)))
                    (with_combineClippingRegions (_combineClippingRegions c) c3)
             else c3).
  assert (Hc4 : edgeColor c4 = edgeColor cr)
    by (subst c4; destruct (strict_neq _ _); reflexivity).
  set (h4 := <[r := OCollection c4]>
               (<[modelMatrix cr := OMatrix4 m]> (<[r := OCollection c3]> h1))).
  assert (Hr4 : h4 !! r = Some (OCollection c4)) by (eapply Hat, Hr3).
  assert (Hthis4 : h4 !! this = Some (OCollection c))
    by (eapply Hsolve; [exact Hthis3 | congruence]).
  assert (Hcolor4 : h4 !! edgeColor c = Some (OColor k)).
  { eapply Hsolve; [| congruence]. rewrite list_lookup_insert_ne by congruence.
    eapply Hsolve; [exact Hcolor1 | congruence]. }
  assert (Hrk4 : h4 !! edgeColor cr = Some (OColor rk)).
  { eapply Hsolve; [| congruence]. rewrite list_lookup_insert_ne by congruence.
    eapply Hsolve; [exact Hrk1 | congruence]. }
  erewrite run_bind_ok by (eapply get_field_run; exact Hthis4).
  erewrite run_bind_ok by (eapply get_field_run; exact Hr4).
  rewrite Hc4.
  erewrite run_bind_ok by (eapply Color_clone_run; [exact Hcolor4 | exact Hrk4]).
  cbn [heap with_heap]. rewrite with_heap_with_heap.
  set (h5 := <[edgeColor cr := OColor k]> h4).
  assert (Hr5 : h5 !! r = Some (OCollection c4))
    by (subst h5; rewrite list_lookup_insert_ne by congruence; exact Hr4).
  assert (Hthis5 : h5 !! this = Some (OCollection c))
    by (subst h5; rewrite list_lookup_insert_ne by congruence; exact Hthis4).
  erewrite run_bind_ok by (eapply get_field_run; exact Hthis5).
  erewrite run_bind_ok by (eapply modify_collection_run; exact Hr5).
  cbn [heap with_heap]. rewrite with_heap_with_heap. cbv [mret M_ret].
  eexists. split; [reflexivity |]. cbn [heap with_heap].
  split.
  { erewrite Hat by exact Hr5. do 2 f_equal. subst c4 c3.
    unfold cloned_into. cbn [_combineClippingRegions with_enabled with_planes].
    destruct (strict_neq _ _) eqn:E; [reflexivity |].
    apply strict_neq_false in E. rewrite <- E. reflexivity. }
  split.
  { rewrite list_lookup_insert_ne by lia. subst h5.
    rewrite list_lookup_insert_ne by lia. subst h4.
    rewrite !list_lookup_insert_ne by lia. exact Hnew1. }
  split.
  { rewrite list_lookup_insert_ne by congruence. subst h5.
    rewrite list_lookup_insert_ne by congruence. subst h4.
    rewrite list_lookup_insert_ne by congruence.
    eapply lookup_store_eq.
    rewrite list_lookup_insert_ne by congruence. exact Hrm1. }
  split.
  { rewrite list_lookup_insert_ne by congruence. subst h5.
    eapply lookup_store_eq, Hrk4. }
  intros l L1 L2 L3 L4.
  rewrite list_lookup_insert_ne by congruence. subst h5.
  rewrite list_lookup_insert_ne by congruence. subst h4.
  rewrite !list_lookup_insert_ne by congruence.
  subst h1. apply lookup_alloc_other, L4.
Qed.

Lemma strict_neq_refl a : strict_neq a a = false.
Proof. destruct a as [[]|]; reflexivity. Qed.

(** [clone] of an instance into itself: both [clone]s onto the same object
    and the write of the same flag change nothing. *)
Lemma clone_self_run st this c elems m k :
  heap st !! this = Some (OCollection c) ->
  heap st !! planes c = Some (OArray elems) ->
  heap st !! modelMatrix c = Some (OMatrix4 m) ->
  heap st !! edgeColor c = Some (OColor k) ->
  clone this (Some this) st =
  (Ok this,
   with_heap (<[this := OCollection (with_planes (length (heap st)) c)]>
                (heap st ++ [OArray elems])) st).
Proof.
  intros Hthis Hplanes Hmatrix Hcolor.
  set (n := length (heap st)).
  assert (D1 : modelMatrix c ≠ this) by congruence.
  assert (D2 : edgeColor c ≠ this) by congruence.
  pose proof (lookup_alloc_old (heap st) this (OArray elems) _ Hthis) as Hthis1.
  pose proof (lookup_alloc_old (heap st) _ (OArray elems) _ Hmatrix) as Hmatrix1.
  pose proof (lookup_alloc_old (heap st) _ (OArray elems) _ Hcolor) as Hcolor1.
  set (h1 := heap st ++ [OArray elems]) in *.
  assert (Hat : forall x, <[this := x]> h1 !! this = Some x)
    by (intros; eapply lookup_store_eq; exact Hthis1).
  assert (Hother : forall x l o, h1 !! l = Some o -> l ≠ this ->
                     <[this := x]> h1 !! l = Some o)
    by (intros; rewrite list_lookup_insert_ne by congruence; assumption).
  unfold clone. rewrite run_bind. cbv [mret M_ret].
  erewrite run_bind_ok by (eapply get_field_run; exact Hthis).
  erewrite run_bind_ok by (eapply Array_from_run; exact Hplanes).
  fold n h1.
  erewrite run_bind_ok by (eapply modify_collection_run; exact Hthis1).
  cbn [heap with_heap]. rewrite with_heap_with_heap.
  erewrite run_bind_ok by (eapply get_field_run; cbn [heap with_heap]; apply Hat).
  erewrite run_bind_ok by (eapply modify_collection_run; cbn [heap with_heap]; apply Hat).
  cbn [heap with_heap]. rewrite with_heap_with_heap, list_insert_insert_eq.
  cbn [enabled with_planes].
  set (c3 := with_enabled (enabled c) (with_planes n c)).
  erewrite run_bind_ok by (eapply get_field_run; cbn [heap with_heap]; apply Hat).
  erewrite run_bind_ok by (eapply get_field_run; cbn [heap with_heap]; apply Hat).
  change (modelMatrix c3) with (modelMatrix c).
  erewrite run_bind_ok
    by (eapply Matrix4_clone_run; cbn [heap with_heap];
        eapply Hother; first [exact Hmatrix1 | exact D1]).
  cbn [heap with_heap]. rewrite with_heap_with_heap.
  rewrite (list_insert_id _ (modelMatrix c) (OMatrix4 m))
    by (eapply Hother; [exact Hmatrix1 | exact D1]).
  erewrite run_bind_ok
    by (eapply get_combineClippingRegions_run; cbn [heap with_heap]; apply Hat).
  erewrite run_bind_ok
    by (eapply set_combineClippingRegions_store; cbn [heap with_heap]; apply Hat).
  change (_combineClippingRegions c3) with (_combineClippingRegions c).
  rewrite strict_neq_refl.
  cbn [heap with_heap]. rewrite with_heap_with_heap, list_insert_insert_eq.
  erewrite run_bind_ok by (eapply get_field_run; cbn [heap with_heap]; apply Hat).
  erewrite run_bind_ok by (eapply get_field_run; cbn [heap with_heap]; apply Hat).
  change (edgeColor c3) with (edgeColor c).
  erewrite run_bind_ok
    by (eapply Color_clone_run; cbn [heap with_heap];
        eapply Hother; first [exact Hcolor1 | exact D2]).
  cbn [heap with_heap]. rewrite with_heap_with_heap.
  rewrite (list_insert_id _ (edgeColor c) (OColor k))
    by (eapply Hother; [exact Hcolor1 | exact D2]).
  erewrite run_bind_ok by (eapply get_field_run; cbn [heap with_heap]; apply Hat).
  erewrite run_bind_ok by (eapply modify_collection_run; cbn [heap with_heap]; apply Hat).
  cbn [heap with_heap]. rewrite with_heap_with_heap, list_insert_insert_eq.
  reflexivity.
Qed.

(** [clone] into any instance, the original included. *)
Lemma clone_target_run st this c elems m k r cr rm rk :
  heap st !! this = Some (OCollection c) ->
  heap st !! planes c = Some (OArray elems) ->
  heap st !! modelMatrix c = Some (OMatrix4 m) ->
  heap st !! edgeColor c = Some (OColor k) ->
  heap st !! r = Some (OCollection cr) ->
  heap st !! modelMatrix cr = Some (OMatrix4 rm) ->
  heap st !! edgeColor cr = Some (OColor rk) ->
  exists st',
    clone this (Some r) st = (Ok r, st') /\
    heap st' !! r = Some (OCollection (cloned_into c cr (length (heap st)))) /\
    heap st' !! length (heap st) = Some (OArray elems) /\
    heap st' !! modelMatrix cr = Some (OMatrix4 m) /\
    heap st' !! edgeColor cr = Some (OColor k) /\
    (forall l, l ≠ r -> l ≠ modelMatrix cr -> l ≠ edgeColor cr ->
               l ≠ length (heap st) -> heap st' !! l = heap st !! l).
Proof.
  intros Hthis Hplanes Hmatrix Hcolor Hr Hrm Hrk.
  destruct (decide (r = this)) as [->|Hne];
    [| eapply clone_into_run; eassumption].
  assert (cr = c) by congruence. subst cr.
  pose proof (lookup_lt_Some _ _ _ Hthis).
  eexists. split; [exact (clone_self_run st this c elems m k Hthis Hplanes Hmatrix Hcolor) |].
  cbn [heap with_heap].
  split.
  { erewrite lookup_store_eq by (eapply lookup_alloc_old, Hthis).
    do 2 f_equal. unfold cloned_into, with_planes. rewrite strict_neq_refl. reflexivity. }
  split; [rewrite list_lookup_insert_ne by lia; apply lookup_alloc_new |].
  split; [rewrite list_lookup_insert_ne by congruence; eapply lookup_alloc_old, Hmatrix |].
  split; [rewrite list_lookup_insert_ne by congruence; eapply lookup_alloc_old, Hcolor |].
  intros l L1 _ _ L4. rewrite list_lookup_insert_ne by congruence.
  apply lookup_alloc_other, L4.
Qed.

(** ** Reads and writes of the owner *)

Lemma read_planes_run st a c elems :
  heap st !! a = Some (OCollection c) ->
  heap st !! planes c = Some (OArray elems) ->
  read_planes a st = (Ok elems, st).
Proof.
  intros Ha He. unfold read_planes.
  rewrite (run_bind_ok _ _ _ _ _ (get_field_run _ _ _ _ Ha)).
  apply load_array_run, He.
Qed.

Lemma read_modelMatrix_run st a c m :
  heap st !! a = Some (OCollection c) ->
  heap st !! modelMatrix c = Some (OMatrix4 m) ->
  read_modelMatrix a st = (Ok m, st).
Proof.
  intros Ha Hm. unfold read_modelMatrix.
  rewrite (run_bind_ok _ _ _ _ _ (get_field_run _ _ _ _ Ha)).
  apply load_matrix_run, Hm.
Qed.

Lemma read_edgeColor_run st a c k :
  heap st !! a = Some (OCollection c) ->
  heap st !! edgeColor c = Some (OColor k) ->
  read_edgeColor a st = (Ok k, st).
Proof.
  intros Ha Hk. unfold read_edgeColor.
  rewrite (run_bind_ok _ _ _ _ _ (get_field_run _ _ _ _ Ha)).
  apply load_color_run, Hk.
Qed.

Lemma read_plane_run st a c elems i l p :
  heap st !! a = Some (OCollection c) ->
  heap st !! planes c = Some (OArray elems) ->
  elems !! i = Some (Some l) ->
  heap st !! l = Some (OPlane p) ->
  read_plane a i st = (Ok p, st).
Proof.
  intros Ha He Hi Hl. unfold read_plane.
  rewrite (run_bind_ok _ _ _ _ _ (get_field_run _ _ _ _ Ha)).
  rewrite (run_bind_ok _ _ _ _ _ (array_get_run _ _ _ i He)).
  rewrite Hi. cbn [mjoin option_join]. apply load_plane_run, Hl.
Qed.

Lemma array_push_run st a elems v :
  heap st !! a = Some (OArray elems) ->
  array_push a v st = (Ok tt, with_heap (<[a := OArray (elems ++ [v])]> (heap st)) st).
Proof.
  intros He. unfold array_push.
  rewrite (run_bind_ok _ _ _ _ _ (load_array_run _ _ _ He)). reflexivity.
Qed.

Lemma array_set_run st a elems i v :
  heap st !! a = Some (OArray elems) ->
  array_set a i v st = (Ok tt, with_heap (<[a := OArray (<[i := v]> elems)]> (heap st)) st).
Proof.
  intros He. unfold array_set.
  rewrite (run_bind_ok _ _ _ _ _ (load_array_run _ _ _ He)). reflexivity.
Qed.

Lemma matrix_assign_run st l old m :
  heap st !! l = Some (OMatrix4 old) ->
  matrix_assign l m st = (Ok tt, with_heap (<[l := OMatrix4 m]> (heap st)) st).
Proof.
  intros Hl. unfold matrix_assign.
  rewrite (run_bind_ok _ _ _ _ _ (load_matrix_run _ _ _ Hl)). reflexivity.
Qed.

Lemma plane_set_distance_run st l p d :
  heap st !! l = Some (OPlane p) ->
  plane_set_distance l d st =
  (Ok tt, with_heap (<[l := OPlane {| normal := normal p; distance := d |}]> (heap st)) st).
Proof.
  intros Hl. unfold plane_set_distance.
  rewrite (run_bind_ok _ _ _ _ _ (load_plane_run _ _ _ Hl)). reflexivity.
Qed.

Lemma plane_set_normal_run st l p n :
  heap st !! l = Some (OPlane p) ->
  plane_set_normal l n st =
  (Ok tt, with_heap (<[l := OPlane {| normal := n; distance := distance p |}]> (heap st)) st).
Proof.
  intros Hl. unfold plane_set_normal.
  rewrite (run_bind_ok _ _ _ _ _ (load_plane_run _ _ _ Hl)). reflexivity.
Qed.

(** Two collections with distinct planes arrays: writes to the sequence of
    one do not show in the other. *)
Lemma distinct_arrays_independent st a b ca cb ea eb :
  heap st !! a = Some (OCollection ca) ->
  heap st !! planes ca = Some (OArray ea) ->
  heap st !! b = Some (OCollection cb) ->
  heap st !! planes cb = Some (OArray eb) ->
  planes ca ≠ planes cb ->
  planes_independent st a b.
Proof.
  intros Ha Hea Hb Heb Hne.
  assert (a ≠ planes cb) by congruence.
  split; [intros v | intros i v]; rewrite (read_planes_run _ _ _ _ Ha Hea).
  - unfold planes_push.
    rewrite (run_bind_ok _ _ _ _ _ (get_field_run _ _ _ _ Hb)).
    rewrite (array_push_run _ _ _ v Heb). cbn [fst snd].
    rewrite (read_planes_run _ a ca ea); [reflexivity | |];
      (cbn [heap with_heap]; rewrite list_lookup_insert_ne by congruence; assumption).
  - unfold planes_set.
    rewrite (run_bind_ok _ _ _ _ _ (get_field_run _ _ _ _ Hb)).
    rewrite (array_set_run _ _ _ i v Heb). cbn [fst snd].
    rewrite (read_planes_run _ a ca ea); [reflexivity | |];
      (cbn [heap with_heap]; rewrite list_lookup_insert_ne by congruence; assumption).
Qed.

(** Two collections with distinct matrix objects: a write to the matrix of
    one does not show in the other. *)
Lemma distinct_matrices_independent st a b ca cb ma mb :
  heap st !! a = Some (OCollection ca) ->
  heap st !! modelMatrix ca = Some (OMatrix4 ma) ->
  heap st !! b = Some (OCollection cb) ->
  heap st !! modelMatrix cb = Some (OMatrix4 mb) ->
  modelMatrix ca ≠ modelMatrix cb ->
  matrix_independent st a b.
Proof.
  intros Ha Hma Hb Hmb Hne m.
  assert (a ≠ modelMatrix cb) by congruence.
  rewrite (read_modelMatrix_run _ _ _ _ Ha Hma).
  unfold write_modelMatrix.
  rewrite (run_bind_ok _ _ _ _ _ (get_field_run _ _ _ _ Hb)).
  rewrite (matrix_assign_run _ _ _ m Hmb). cbn [fst snd].
  rewrite (read_modelMatrix_run _ a ca ma); [reflexivity | |];
    (cbn [heap with_heap]; rewrite list_lookup_insert_ne by congruence; assumption).
Qed.

(** Two collections whose arrays hold the same plane object at index [i]: a
    write to that plane through one is read through the other. *)
Lemma shared_plane_distance st a b ca cb ea eb i l p d :
  heap st !! a = Some (OCollection ca) ->
  heap st !! planes ca = Some (OArray ea) ->
  ea !! i = Some (Some l) ->
  heap st !! b = Some (OCollection cb) ->
  heap st !! planes cb = Some (OArray eb) ->
  eb !! i = Some (Some l) ->
  heap st !! l = Some (OPlane p) ->
  fst (read_plane a i (snd (write_plane_distance b i d st))) =
  Ok {| normal := normal p; distance := d |}.
Proof.
  intros Ha Hea Hia Hb Heb Hib Hl.
  assert (a ≠ l) by congruence. assert (planes ca ≠ l) by congruence.
  unfold write_plane_distance.
  rewrite (run_bind_ok _ _ _ _ _ (get_field_run _ _ _ _ Hb)).
  rewrite (run_bind_ok _ _ _ _ _ (array_get_run _ _ _ i Heb)).
  rewrite Hib. cbn [mjoin option_join].
  rewrite (plane_set_distance_run _ _ _ d Hl). cbn [fst snd].
  rewrite (read_plane_run _ a ca ea i l {| normal := normal p; distance := d |}); [reflexivity | | | exact Hia |];
    cbn [heap with_heap].
  - rewrite list_lookup_insert_ne by congruence. exact Ha.
  - rewrite list_lookup_insert_ne by congruence. exact Hea.
  - eapply lookup_store_eq, Hl.
Qed.

Lemma shared_plane_normal st a b ca cb ea eb i l p n :
  heap st !! a = Some (OCollection ca) ->
  heap st !! planes ca = Some (OArray ea) ->
  ea !! i = Some (Some l) ->
  heap st !! b = Some (OCollection cb) ->
  heap st !! planes cb = Some (OArray eb) ->
  eb !! i = Some (Some l) ->
  heap st !! l = Some (OPlane p) ->
  fst (read_plane a i (snd (write_plane_normal b i n st))) =
  Ok {| normal := n; distance := distance p |}.
Proof.
  intros Ha Hea Hia Hb Heb Hib Hl.
  assert (a ≠ l) by congruence. assert (planes ca ≠ l) by congruence.
  unfold write_plane_normal.
  rewrite (run_bind_ok _ _ _ _ _ (get_field_run _ _ _ _ Hb)).
  rewrite (run_bind_ok _ _ _ _ _ (array_get_run _ _ _ i Heb)).
  rewrite Hib. cbn [mjoin option_join].
  rewrite (plane_set_normal_run _ _ _ n Hl). cbn [fst snd].
  rewrite (read_plane_run _ a ca ea i l {| normal := n; distance := distance p |}); [reflexivity | | | exact Hia |];
    cbn [heap with_heap].
  - rewrite list_lookup_insert_ne by congruence. exact Ha.
  - rewrite list_lookup_insert_ne by congruence. exact Hea.
  - eapply lookup_store_eq, Hl.
Qed.

(** The state [clone] leaves without a [result], cell by cell. *)
Lemma clone_fresh_cells st this c elems m k :
  heap st !! this = Some (OCollection c) ->
  heap st !! planes c = Some (OArray elems) ->
  heap st !! modelMatrix c = Some (OMatrix4 m) ->
  heap st !! edgeColor c = Some (OColor k) ->
  exists st',
    clone this None st = (Ok (length (heap st) + 3), st') /\
    heap st' !! (length (heap st) + 3) =
      Some (OCollection (cloned c (length (heap st)))) /\
    heap st' !! (length (heap st) + 4) = Some (OArray elems) /\
    heap st' !! (length (heap st) + 1) = Some (OMatrix4 m) /\
    heap st' !! (length (heap st) + 2) = Some (OColor k) /\
    (forall l o, heap st !! l = Some o -> heap st' !! l = Some o).
Proof.
  intros Hthis Hplanes Hmatrix Hcolor.
  eexists. split; [apply (clone_fresh_run _ _ _ _ _ _ Hthis Hplanes Hmatrix Hcolor) |].
  cbn [heap with_heap].
  repeat split; try (rewrite lookup_new; reflexivity).
  intros l o Hl. apply lookup_old, Hl.
Qed.

(** C10: without a [result], [clone] gives the new instance a planes array
    of its own whose slots hold the very plane objects of the original: the
    arrays are two objects, they read the same references at every index,
    and a write to the distance or the normal of the plane at an index
    through either collection is read through the other. *)
Theorem clone_copies_array_shares_planes st this c locs ps m k :
  wf_collection st this c locs ps m ->
  heap st !! edgeColor c = Some (OColor k) ->
  exists r st' c',
    clone this None st = (Ok r, st') /\
    heap st' !! r = Some (OCollection c') /\
    heap st' !! this = Some (OCollection c) /\
    planes c' ≠ planes c /\
    read_planes r st' = (Ok (Some <$> locs), st') /\
    read_planes this st' = (Ok (Some <$> locs), st') /\
    forall i l p, locs !! i = Some l -> ps !! i = Some p ->
      array_get (planes c') i st' = (Ok (Some l), st') /\
      array_get (planes c) i st' = (Ok (Some l), st') /\
      (forall d,
         fst (read_plane this i (snd (write_plane_distance r i d st'))) =
           Ok {| normal := normal p; distance := d |} /\
         fst (read_plane r i (snd (write_plane_distance this i d st'))) =
           Ok {| normal := normal p; distance := d |}) /\
      (forall n,
         fst (read_plane this i (snd (write_plane_normal r i n st'))) =
           Ok {| normal := n; distance := distance p |} /\
         fst (read_plane r i (snd (write_plane_normal this i n st'))) =
           Ok {| normal := n; distance := distance p |}).
Proof.
  intros [Hthis Hplanes Heach Hmatrix] Hcolor.
  destruct (clone_fresh_cells _ _ _ _ _ _ Hthis Hplanes Hmatrix Hcolor)
    as (st' & Hrun & Hr & Ha & _ & _ & Hold).
  exists (length (heap st) + 3), st', (cloned c (length (heap st))).
  pose proof (lookup_lt_Some _ _ _ Hplanes) as Hlt.
  assert (Hne : planes (cloned c (length (heap st))) ≠ planes c)
    by (cbn [planes cloned]; lia).
  pose proof (Hold _ _ Hthis) as Hthis'. pose proof (Hold _ _ Hplanes) as Hplanes'.
  repeat (split; [first [assumption | eapply read_planes_run; eassumption] |]).
  intros i l p Hi Hp.
  assert (Hl : heap st !! l = Some (OPlane p))
    by (eapply (Forall2_lookup_lr _ _ _ _ _ _ Heach); eassumption).
  pose proof (Hold _ _ Hl) as Hl'.
  assert (Hslot : (Some <$> locs) !! i = Some (Some l))
    by (rewrite list_lookup_fmap, Hi; reflexivity).
  split.
  { cbn [planes cloned]. rewrite (array_get_run _ _ _ i Ha), Hslot. reflexivity. }
  split.
  { rewrite (array_get_run _ _ _ i Hplanes'), Hslot. reflexivity. }
  split; intros v; split.
  - exact (shared_plane_distance _ _ _ _ _ _ _ _ _ _ v Hthis' Hplanes' Hslot Hr Ha Hslot Hl').
  - exact (shared_plane_distance _ _ _ _ _ _ _ _ _ _ v Hr Ha Hslot Hthis' Hplanes' Hslot Hl').
  - exact (shared_plane_normal _ _ _ _ _ _ _ _ _ _ v Hthis' Hplanes' Hslot Hr Ha Hslot Hl').
  - exact (shared_plane_normal _ _ _ _ _ _ _ _ _ _ v Hr Ha Hslot Hthis' Hplanes' Hslot Hl').
Qed.

(** C8, amended: [clone], without a [result] or into any constructed
    instance, the original itself and an instance that shares the original's
    matrix object included, returns a new instance, or that [result], whose
    planes, enabled, model matrix, flag, edge color and edge width equal the
    original's and whose predicate is the one of the flag; its planes array
    is allocated by the call, and the original still reads the same planes
    and the same model matrix.  Unless the [result] is
    the original itself, the original is unchanged and the planes sequences
    of the two are independent of writes to each other.  The model matrices
    are independent without a [result], and with a [result] that is another
    instance whose matrix object is not the original's: [clone] fills the
    matrix object the [result] already has. *)
Theorem clone_equal_fields_separate_storage st this c locs ps m k target :
  wf_collection st this c locs ps m ->
  heap st !! edgeColor c = Some (OColor k) ->
  match target with
  | None => True
  | Some t =>
      exists cr rm rk,
        heap st !! t = Some (OCollection cr) /\
        heap st !! modelMatrix cr = Some (OMatrix4 rm) /\
        heap st !! edgeColor cr = Some (OColor rk) /\
        cache_ok cr
  end ->
  exists r st' c',
    clone this target st = (Ok r, st') /\
    match target with Some t => r = t | None => length (heap st) <= r end /\
    heap st' !! r = Some (OCollection c') /\
    length (heap st) <= planes c' /\
    read_planes r st' = (Ok (Some <$> locs), st') /\
    enabled c' = enabled c /\
    read_modelMatrix r st' = (Ok m, st') /\
    _combineClippingRegions c' = _combineClippingRegions c /\
    cache_ok c' /\
    read_edgeColor r st' = (Ok k, st') /\
    edgeWidth c' = edgeWidth c /\
    read_planes this st' = (Ok (Some <$> locs), st') /\
    read_modelMatrix this st' = (Ok m, st') /\
    (target ≠ Some this ->
     heap st' !! this = Some (OCollection c) /\
     planes_independent st' this r /\ planes_independent st' r this) /\
    (separate_target st this c target ->
     matrix_independent st' this r /\ matrix_independent st' r this).
Proof.
  intros [Hthis Hplanes Heach Hmatrix] Hcolor Htarget.
  pose proof (lookup_lt_Some _ _ _ Hthis) as Bthis.
  pose proof (lookup_lt_Some _ _ _ Hplanes) as Bplanes.
  pose proof (lookup_lt_Some _ _ _ Hmatrix) as Bmatrix.
  destruct target as [t|].
  - destruct Htarget as (cr & rm & rk & Hr & Hrm & Hrk & Hcache).
    destruct (clone_target_run _ _ _ _ _ _ _ _ _ _ Hthis Hplanes Hmatrix Hcolor Hr Hrm Hrk)
      as (st' & Hrun & Hr' & Ha' & Hm' & Hk' & Hframe).
    set (n := length (heap st)) in *.
    exists t, st', (cloned_into c cr n).
    pose proof (read_planes_run _ _ _ _ Hr' Ha') as Rplanes.
    pose proof (read_modelMatrix_run _ _ _ _ Hr' Hm') as Rmatrix.
    assert (Hkeep : t ≠ this ->
              heap st' !! this = Some (OCollection c) /\
              heap st' !! planes c = Some (OArray (Some <$> locs)) /\
              heap st' !! modelMatrix c = Some (OMatrix4 m)).
    { intros Hne. split; [| split].
      - rewrite Hframe by (first [congruence | lia]). exact Hthis.
      - rewrite Hframe by (first [congruence | lia]). exact Hplanes.
      - destruct (decide (modelMatrix c = modelMatrix cr)) as [->|Hd]; [exact Hm' |].
        rewrite Hframe by (first [congruence | lia]). exact Hmatrix. }
    assert (Hpne : planes (cloned_into c cr n) ≠ planes c) by (cbn [planes cloned_into]; lia).
    split; [exact Hrun |]. split; [reflexivity |]. split; [exact Hr' |].
    split; [cbn [planes cloned_into]; lia |].
    split; [exact Rplanes |]. split; [reflexivity |].
    split; [exact Rmatrix |]. split; [reflexivity |].
    split.
    { unfold cache_ok, cloned_into. cbn [_testIntersection _combineClippingRegions].
      destruct (strict_neq _ _) eqn:E; [reflexivity |].
      apply strict_neq_false in E. rewrite <- E. exact Hcache. }
    split; [exact (read_edgeColor_run _ _ _ _ Hr' Hk') |]. split; [reflexivity |].
    split.
    { destruct (decide (t = this)) as [->|Hne]; [exact Rplanes |].
      destruct (Hkeep Hne) as (Hthis' & Hplanes' & _).
      exact (read_planes_run _ _ _ _ Hthis' Hplanes'). }
    split.
    { destruct (decide (t = this)) as [->|Hne]; [exact Rmatrix |].
      destruct (Hkeep Hne) as (Hthis' & _ & Hmatrix').
      exact (read_modelMatrix_run _ _ _ _ Hthis' Hmatrix'). }
    split.
    + intros Hts. assert (Hne : t ≠ this) by congruence.
      destruct (Hkeep Hne) as (Hthis' & Hplanes' & _).
      split; [exact Hthis' |].
      split; [exact (distinct_arrays_independent _ _ _ _ _ _ _ Hthis' Hplanes' Hr' Ha'
                       (not_eq_sym Hpne)) |].
      exact (distinct_arrays_independent _ _ _ _ _ _ _ Hr' Ha' Hthis' Hplanes' Hpne).
    + cbn [separate_target].
      intros (Hne & cr2 & rm2 & rk2 & Hr2 & _ & _ & Hsep & _).
      assert (cr2 = cr) by congruence. subst cr2.
      destruct (Hkeep Hne) as (Hthis' & _ & Hmatrix').
      assert (Hmne : modelMatrix (cloned_into c cr n) ≠ modelMatrix c) by exact Hsep.
      split; [exact (distinct_matrices_independent _ _ _ _ _ _ _ Hthis' Hmatrix' Hr' Hm'
                       (not_eq_sym Hmne)) |].
      exact (distinct_matrices_independent _ _ _ _ _ _ _ Hr' Hm' Hthis' Hmatrix' Hmne).
  - destruct (clone_fresh_cells _ _ _ _ _ _ Hthis Hplanes Hmatrix Hcolor)
      as (st' & Hrun & Hr' & Ha' & Hm' & Hk' & Hold).
    set (n := length (heap st)) in *.
    exists (n + 3), st', (cloned c n).
    pose proof (Hold _ _ Hthis) as Hthis'. pose proof (Hold _ _ Hplanes) as Hplanes'.
    pose proof (Hold _ _ Hmatrix) as Hmatrix'.
    assert (Hpne : planes (cloned c n) ≠ planes c) by (cbn [planes cloned]; lia).
    assert (Hmne : modelMatrix (cloned c n) ≠ modelMatrix c)
      by (cbn [modelMatrix cloned]; lia).
    split; [exact Hrun |]. split; [lia |]. split; [exact Hr' |].
    split; [cbn [planes cloned]; lia |].
    split; [exact (read_planes_run _ _ _ _ Hr' Ha') |]. split; [reflexivity |].
    split; [exact (read_modelMatrix_run _ _ _ _ Hr' Hm') |]. split; [reflexivity |].
    split; [reflexivity |].
    split; [exact (read_edgeColor_run _ _ _ _ Hr' Hk') |]. split; [reflexivity |].
    split; [exact (read_planes_run _ _ _ _ Hthis' Hplanes') |].
    split; [exact (read_modelMatrix_run _ _ _ _ Hthis' Hmatrix') |].
    split.
    + intros _. split; [exact Hthis' |].
      split; [exact (distinct_arrays_independent _ _ _ _ _ _ _ Hthis' Hplanes' Hr' Ha'
                       (not_eq_sym Hpne)) |].
      exact (distinct_arrays_independent _ _ _ _ _ _ _ Hr' Ha' Hthis' Hplanes' Hpne).
    + intros _.
      split; [exact (distinct_matrices_independent _ _ _ _ _ _ _ Hthis' Hmatrix' Hr' Hm'
                       (not_eq_sym Hmne)) |].
      exact (distinct_matrices_independent _ _ _ _ _ _ _ Hr' Hm' Hthis' Hmatrix' Hmne).
Qed.

(** ** The constructor and its arguments *)

Lemma constructed_cells options st :
  exists st',
    ClippingPlanesCollection options st = (Ok (length (heap st) + 3), st') /\
    heap st' !! (length (heap st) + 3) =
      Some (OCollection (constructed options (length (heap st)))) /\
    (forall l o, heap st !! l = Some o -> heap st' !! l = Some o).
Proof.
  eexists. split; [apply ClippingPlanesCollection_run |].
  cbn [heap with_heap]. split; [rewrite lookup_new; reflexivity |].
  intros l o Hl. apply lookup_old, Hl.
Qed.

Lemma constructed_all_cells options st :
  exists st',
    ClippingPlanesCollection options st = (Ok (length (heap st) + 3), st') /\
    heap st' !! length (heap st) = Some (OArray []) /\
    heap st' !! (length (heap st) + 1) = Some (OMatrix4 Matrix4_IDENTITY) /\
    heap st' !! (length (heap st) + 2) = Some (OColor Color_WHITE) /\
    heap st' !! (length (heap st) + 3) =
      Some (OCollection (constructed options (length (heap st)))) /\
    length (heap st') = length (heap st) + 4 /\
    (forall l o, heap st !! l = Some o -> heap st' !! l = Some o).
Proof.
  eexists. split; [apply ClippingPlanesCollection_run |].
  cbn [heap with_heap].
  split; [rewrite lookup_app_r by lia; rewrite Nat.sub_diag; reflexivity |].
  do 3 (split; [rewrite lookup_new; reflexivity |]).
  split; [rewrite length_app; reflexivity |].
  intros l o Hl. apply lookup_old, Hl.
Qed.

(** C5, amended: the constructor copies none of its inputs.  Whichever of
    the planes array, the model matrix and the edge color are passed in
    [options] are kept by reference: the field of the new instance is that
    very object, so what the instance reads as its planes and its model
    matrix follows every later write to the array, to a plane of the array or
    to the matrix.  An unset option takes its default: [true] for [enabled]
    and [combineClippingRegions], zero for [edgeWidth], and for the planes,
    the model matrix and the edge color an empty array, an identity matrix
    and a white color allocated by this call.  No object that existed before
    the call is written. *)
Theorem constructor_keeps_references st options :
  exists this st' c,
    ClippingPlanesCollection options st = (Ok this, st') /\
    heap st' !! this = Some (OCollection c) /\
    (forall l ob, heap st !! l = Some ob -> heap st' !! l = Some ob) /\
    (forall a,
        o_planes (defaultValue options EMPTY_OBJECT) = Some a ->
        planes c = a /\
        forall elems,
          heap st !! a = Some (OArray elems) ->
          read_planes this st' = (Ok elems, st') /\
          (forall v, fst (read_planes this (snd (array_push a v st'))) =
                     Ok (elems ++ [v])) /\
          (forall i v, fst (read_planes this (snd (array_set a i v st'))) =
                       Ok (<[i := v]> elems)) /\
          (forall i l p,
              elems !! i = Some (Some l) ->
              heap st !! l = Some (OPlane p) ->
              (forall d, fst (read_plane this i (snd (plane_set_distance l d st'))) =
                         Ok {| normal := normal p; distance := d |}) /\
              (forall n, fst (read_plane this i (snd (plane_set_normal l n st'))) =
                         Ok {| normal := n; distance := distance p |}))) /\
    (forall m,
        o_modelMatrix (defaultValue options EMPTY_OBJECT) = Some m ->
        modelMatrix c = m /\
        forall mv,
          heap st !! m = Some (OMatrix4 mv) ->
          read_modelMatrix this st' = (Ok mv, st') /\
          (forall m2, fst (read_modelMatrix this (snd (matrix_assign m m2 st'))) =
                      Ok m2)) /\
    (forall k,
        o_edgeColor (defaultValue options EMPTY_OBJECT) = Some k ->
        edgeColor c = k) /\
    (o_planes (defaultValue options EMPTY_OBJECT) = None ->
     length (heap st) <= planes c /\ read_planes this st' = (Ok [], st')) /\
    (o_modelMatrix (defaultValue options EMPTY_OBJECT) = None ->
     length (heap st) <= modelMatrix c /\
     read_modelMatrix this st' = (Ok Matrix4_IDENTITY, st')) /\
    (o_edgeColor (defaultValue options EMPTY_OBJECT) = None ->
     length (heap st) <= edgeColor c /\
     read_edgeColor this st' = (Ok Color_WHITE, st')) /\
    enabled c = defaultValue (o_enabled (defaultValue options EMPTY_OBJECT)) true /\
    edgeWidth c = defaultValue (o_edgeWidth (defaultValue options EMPTY_OBJECT)) num_zero /\
    _combineClippingRegions c =
      Some (defaultValue (o_combineClippingRegions (defaultValue options EMPTY_OBJECT))
              true).
Proof.
  destruct (constructed_all_cells options st)
    as (st' & Hrun & Cplanes & Cmatrix & Ccolor & Hthis & _ & Hold).
  set (n := length (heap st)) in *.
  exists (n + 3), st', (constructed options n).
  split; [exact Hrun |]. split; [exact Hthis |]. split; [exact Hold |].
  split; [| split; [| split; [| split; [| split; [| split; [| repeat split]]]]]].
  - intros a Hop.
    assert (Hp : planes (constructed options n) = a)
      by (unfold constructed; cbn [planes]; rewrite Hop; reflexivity).
    split; [exact Hp |]. intros elems Ha.
    pose proof (Hold _ _ Ha) as Ha'.
    pose proof Ha' as Ha''. rewrite <- Hp in Ha''.
    assert (Hna : n + 3 ≠ a) by (pose proof (lookup_lt_Some _ _ _ Ha); lia).
    split; [exact (read_planes_run _ _ _ _ Hthis Ha'') |].
    split; [| split].
    + intros v. rewrite (array_push_run _ _ _ v Ha'). cbn [snd].
      rewrite (read_planes_run _ (n + 3) (constructed options n) (elems ++ [v]));
        [reflexivity | |]; cbn [heap with_heap].
      * rewrite list_lookup_insert_ne by congruence. exact Hthis.
      * rewrite Hp. eapply lookup_store_eq, Ha'.
    + intros i v. rewrite (array_set_run _ _ _ i v Ha'). cbn [snd].
      rewrite (read_planes_run _ (n + 3) (constructed options n) (<[i := v]> elems));
        [reflexivity | |]; cbn [heap with_heap].
      * rewrite list_lookup_insert_ne by congruence. exact Hthis.
      * rewrite Hp. eapply lookup_store_eq, Ha'.
    + intros i l p Hi Hl. pose proof (Hold _ _ Hl) as Hl'.
      assert (l ≠ n + 3) by (pose proof (lookup_lt_Some _ _ _ Hl); lia).
      assert (l ≠ a) by congruence.
      split; [intros d; rewrite (plane_set_distance_run _ _ _ d Hl')
             |intros v; rewrite (plane_set_normal_run _ _ _ v Hl')];
        cbn [snd];
        (erewrite (read_plane_run _ (n + 3) (constructed options n) elems i l);
         [reflexivity | | | exact Hi |]; cbn [heap with_heap];
         [rewrite list_lookup_insert_ne by congruence; exact Hthis
         |rewrite Hp; rewrite list_lookup_insert_ne by congruence; exact Ha'
         |eapply lookup_store_eq, Hl']).
  - intros m Hom.
    assert (Hq : modelMatrix (constructed options n) = m)
      by (unfold constructed; cbn [modelMatrix]; rewrite Hom; reflexivity).
    split; [exact Hq |]. intros mv Hm.
    pose proof (Hold _ _ Hm) as Hm'.
    pose proof Hm' as Hm''. rewrite <- Hq in Hm''.
    assert (Hnm : n + 3 ≠ m) by (pose proof (lookup_lt_Some _ _ _ Hm); lia).
    split; [exact (read_modelMatrix_run _ _ _ _ Hthis Hm'') |].
    intros m2. rewrite (matrix_assign_run _ _ _ m2 Hm'). cbn [snd].
    rewrite (read_modelMatrix_run _ (n + 3) (constructed options n) m2);
      [reflexivity | |]; cbn [heap with_heap].
    + rewrite list_lookup_insert_ne by congruence. exact Hthis.
    + rewrite Hq. eapply lookup_store_eq, Hm'.
  - intros k Hok. unfold constructed. cbn [edgeColor]. rewrite Hok. reflexivity.
  - intros Hop.
    assert (Hp : planes (constructed options n) = n)
      by (unfold constructed; cbn [planes]; rewrite Hop; reflexivity).
    split; [rewrite Hp; reflexivity |].
    apply (read_planes_run _ _ _ _ Hthis). rewrite Hp. exact Cplanes.
  - intros Hom.
    assert (Hq : modelMatrix (constructed options n) = n + 1)
      by (unfold constructed; cbn [modelMatrix]; rewrite Hom; reflexivity).
    split; [rewrite Hq; lia |].
    apply (read_modelMatrix_run _ _ _ _ Hthis). rewrite Hq. exact Cmatrix.
  - intros Hok.
    assert (Hk : edgeColor (constructed options n) = n + 2)
      by (unfold constructed; cbn [edgeColor]; rewrite Hok; reflexivity).
    split; [rewrite Hk; lia |].
    apply (read_edgeColor_run _ _ _ _ Hthis). rewrite Hk. exact Ccolor.
Qed.



End Properties.

(** * The integer scenes *)

(** The slab collection, once constructed. *)
Lemma slab_state_wf :
  wf_collection slab_state 6
    {| planes := 2; enabled := true; modelMatrix := 4; edgeColor := 5;
       edgeWidth := 0%Z; _combineClippingRegions := Some true;
       _testIntersection := Some (getTestIntersectionFunction (Some true)) |}
    [0; 1]
    [ {| normal := {| x3 := 1; y3 := 0; z3 := 0 |}; distance := 0 |};
      {| normal := {| x3 := -1; y3 := 0; z3 := 0 |}; distance := 5 |} ]%Z
    ZMatrix4_IDENTITY.
Proof.
  split; [reflexivity | reflexivity | | reflexivity].
  repeat constructor.
Qed.

(** On the slab collection every volume is classified by the scan of its
    two verdicts, against the planes as they are: the identity leaves them
    unchanged. *)
Lemma slab_classification (bv : Plane Z -> Intersect) :
  fst (computeIntersectionWithBoundingVolume 6 (Some bv) None slab_state) =
  Ok (classify_spec true
        [bv (plane_value (1, 0, 0, 0)%Z); bv (plane_value (-1, 0, 0, 5)%Z)]).
Proof.
  destruct (classify_run slab_state 6 _ _ _ _ true bv None
              slab_state_wf eq_refl eq_refl) as (st' & Hrun & _).
  exact (f_equal fst Hrun).
Qed.

(** C2, amended: with the two slab planes in intersection mode, a volume is
    classified Inside as soon as one of the two planes reports Inside.  So a
    sphere fully inside the slab, a sphere fully outside it and a sphere
    straddling exactly one boundary are all classified Inside: in each case
    one of the two planes reports Inside, which ends the scan. *)
Theorem slab_intersection_mode_classifies_inside :
  (forall bv : Plane Z -> Intersect,
      bv (plane_value (1, 0, 0, 0)%Z) = INSIDE \/
      bv (plane_value (-1, 0, 0, 5)%Z) = INSIDE ->
      fst (computeIntersectionWithBoundingVolume 6 (Some bv) None slab_state) =
      Ok INSIDE) /\
  (forall s : Sphere,
      (0 <= radius s)%Z ->
      inside_slab s \/ outside_slab s \/ straddles_one_boundary s ->
      classify_scene slab_planes true s = Ok INSIDE).
Proof.
  assert (Hverdicts : forall bv : Plane Z -> Intersect,
      bv (plane_value (1, 0, 0, 0)%Z) = INSIDE \/
      bv (plane_value (-1, 0, 0, 5)%Z) = INSIDE ->
      fst (computeIntersectionWithBoundingVolume 6 (Some bv) None slab_state) =
      Ok INSIDE).
  { intros bv Hbv. rewrite slab_classification. f_equal.
    unfold classify_spec, scan_spec.
    destruct Hbv as [-> | ->]; [reflexivity |].
    destruct (bv (plane_value (1, 0, 0, 0)%Z)); reflexivity. }
  split; [exact Hverdicts |].
  intros s Hr Hpos.
  unfold classify_scene. rewrite run_bind.
  change (new_collection_of slab_planes (Some true) module_state)
    with (Ok 6 : result loc, slab_state).
  apply Hverdicts.
  destruct s as [[cx cy cz] r].
  unfold inside_slab, outside_slab, straddles_one_boundary, sphere_lo, sphere_hi in Hpos.
  unfold Sphere_intersectPlane, plane_value, Zdot.
  cbn [radius center x3 y3 z3 normal distance] in *.
  repeat match goal with
         | |- context [(?a <? ?b)%Z] => destruct (Z.ltb_spec a b)
         end; auto; exfalso; lia.
Qed.

(** ** Runs on concrete scenes *)

Lemma classify_follows_sequential_algorithm_witness :
  fst (computeIntersectionWithBoundingVolume 6
         (Some (Sphere_intersectPlane (sphere_at 2 1))) None slab_state) = Ok INSIDE.
Proof.
  destruct (classify_follows_sequential_algorithm slab_state 6 slab_collection
              [0; 1] (map plane_value slab_planes) ZMatrix4_IDENTITY true
              (Sphere_intersectPlane (sphere_at 2 1)) None) as (st' & Hrun & _).
  - split; [reflexivity | reflexivity | repeat constructor | reflexivity].
  - reflexivity.
  - reflexivity.
  - exact (f_equal fst Hrun).
Defined.

Lemma slab_intersection_mode_classifies_inside_witness :
  classify_scene slab_planes true (sphere_at 2 1) = Ok INSIDE.
Proof.
  apply (proj2 slab_intersection_mode_classifies_inside).
  - cbn. lia.
  - left. unfold inside_slab, sphere_lo, sphere_hi. cbn. lia.
Defined.

(** A sphere fully outside the slab, on the side of negative x, is classified
    Inside, not Outside. *)
Lemma slab_outside_sphere_classified_inside :
  outside_slab (sphere_at (-3) 1) /\
  classify_scene slab_planes true (sphere_at (-3) 1) = Ok INSIDE /\
  classify_scene slab_planes true (sphere_at (-3) 1) <> Ok OUTSIDE.
Proof.
  split; [left; unfold sphere_hi; cbn; lia |].
  split; [reflexivity | discriminate].
Qed.

Lemma classify_no_planes_is_inside_witness :
  exists st',
    computeIntersectionWithBoundingVolume 4 None (Some ZMatrix4_ZERO) empty_state =
    (Ok INSIDE, st').
Proof.
  apply (classify_no_planes_is_inside empty_state 4 empty_collection ZMatrix4_IDENTITY
           None (Some ZMatrix4_ZERO)); reflexivity.
Defined.

Lemma combineClippingRegions_predicate_never_stale_witness :
  exists st' c',
    set_combineClippingRegions 4 (Some false) empty_state = (Ok tt, st') /\
    heap st' !! 4 = Some (OCollection c') /\
    cache_ok c' /\
    get_combineClippingRegions 4 st' = (Ok (Some false), st') /\
    (forall v, call_testIntersection 4 v st' =
               (Ok (getTestIntersectionFunction (Some false) v), st')) /\
    (_combineClippingRegions empty_collection = Some false -> st' = empty_state).
Proof.
  apply (proj2 combineClippingRegions_predicate_never_stale
           empty_state 4 empty_collection (Some false)); reflexivity.
Defined.

(** C6: on a new collection of one plane, [transformAndPackPlanes] without a
    container does not return the packed planes: it throws a [TypeError] at
    the first hole of the array it allocated. *)
Theorem transformAndPackPlanes_one_plane_no_container :
  pack_without_container [(1, 0, 0, 0)%Z] = Throw TypeError.
Proof. reflexivity. Qed.

(** Without a plane the call returns the new, empty array. *)
Example transformAndPackPlanes_no_plane_no_container :
  pack_without_container [] = Ok 5.
Proof. reflexivity. Qed.

(** With a container of two records the slab planes are packed in place,
    unchanged by the identity, and the container is returned. *)
Example transformAndPackPlanes_slab_into_container :
  fst (slab_pack_scene module_state) = Ok (9, 9) /\
  heap (snd (slab_pack_scene module_state)) !! 7 =
    Some (OCartesian4 {| x := 1; y := 0; z := 0; w := 0 |}%Z) /\
  heap (snd (slab_pack_scene module_state)) !! 8 =
    Some (OCartesian4 {| x := -1; y := 0; z := 0; w := 5 |}%Z).
Proof. repeat split; vm_compute; reflexivity. Qed.

(** After construction over a caller's array and matrix, a push onto that
    array and a write to that matrix change what the instance reads as its
    planes and its model matrix. *)
Lemma constructor_aliases_its_inputs :
  let st' := snd (passed_in_scene module_state) in
  fst (passed_in_scene module_state) = Ok (6, 1, 2) /\
  fst (read_planes 6 (snd (array_push 1 None st'))) <> fst (read_planes 6 st') /\
  fst (read_modelMatrix 6 (snd (matrix_assign 2 ZMatrix4_ZERO st'))) <>
    fst (read_modelMatrix 6 st').
Proof.
  cbv zeta. split; [vm_compute; reflexivity |].
  split; vm_compute; discriminate.
Qed.

Lemma constructor_keeps_references_witness :
  exists this st' c,
    ClippingPlanesCollection (Some (options_of (Some 1) None)) inputs_state =
      (Ok this, st') /\
    heap st' !! this = Some (OCollection c) /\
    planes c = 1 /\
    (forall v, fst (read_planes this (snd (array_push 1 v st'))) = Ok ([Some 0] ++ [v])) /\
    3 <= modelMatrix c /\
    read_modelMatrix this st' = (Ok ZMatrix4_IDENTITY, st').
Proof.
  destruct (constructor_keeps_references inputs_state (Some (options_of (Some 1) None)))
    as (this & st' & c & Hrun & Hthis & _ & Hplanes & _ & _ & _ & Hmatrix & _).
  destruct (Hplanes 1 eq_refl) as (Hp & Helems).
  destruct (Helems [Some 0] eq_refl) as (_ & Hpush & _).
  destruct (Hmatrix eq_refl) as (Hfresh & Hread).
  exists this, st', c.
  exact (conj Hrun (conj Hthis (conj Hp (conj Hpush (conj Hfresh Hread))))).
Defined.

(** Cloning into an instance that was constructed over the same matrix
    object: a write to the model matrix of the clone is read through the
    original. *)
Lemma clone_into_instance_sharing_the_matrix :
  fst (shared_matrix_scene module_state) = Ok (4, 8) /\
  ~ matrix_independent (snd (shared_matrix_scene module_state)) 4 8.
Proof.
  split; [vm_compute; reflexivity |].
  intros H. specialize (H ZMatrix4_ZERO). vm_compute in H. discriminate H.
Qed.

Lemma clone_equal_fields_separate_storage_witness :
  (exists st',
      clone 6 (Some 10) two_collections_state = (Ok 10, st') /\
      read_planes 10 st' = (Ok [Some 0; Some 1], st') /\
      matrix_independent st' 6 10 /\ matrix_independent st' 10 6 /\
      planes_independent st' 6 10 /\ planes_independent st' 10 6) /\
  (exists st',
      clone 4 (Some 8) shared_matrix_state = (Ok 8, st') /\
      read_modelMatrix 8 st' = (Ok ZMatrix4_IDENTITY, st') /\
      read_modelMatrix 4 st' = (Ok ZMatrix4_IDENTITY, st') /\
      planes_independent st' 4 8 /\ planes_independent st' 8 4).
Proof.
  split.
  - destruct (clone_equal_fields_separate_storage two_collections_state 6 slab_collection
                [0; 1] (map plane_value slab_planes) ZMatrix4_IDENTITY (1, 1, 1, 1)%Z
                (Some 10))
      as (r & st' & c' & Hrun & Hr & _ & _ & Hplanes & _ & _ & _ & _ & _ & _ & _ & _
          & Hp & Hm).
    + split; [reflexivity | reflexivity | repeat constructor | reflexivity].
    + reflexivity.
    + exists second_collection, ZMatrix4_IDENTITY, (1, 1, 1, 1)%Z.
      split; [reflexivity |]. split; [reflexivity |]. split; reflexivity.
    + cbn in Hr. subst r. exists st'.
      destruct Hp as (_ & P1 & P2); [discriminate |].
      destruct Hm as (M1 & M2).
      { split; [lia |].
        exists second_collection, ZMatrix4_IDENTITY, (1, 1, 1, 1)%Z.
        repeat split; first [reflexivity | cbn; lia]. }
      exact (conj Hrun (conj Hplanes (conj M1 (conj M2 (conj P1 P2))))).
  - destruct (clone_equal_fields_separate_storage shared_matrix_state 4 shared_original
                [] [] ZMatrix4_IDENTITY (1, 1, 1, 1)%Z (Some 8))
      as (r & st' & c' & Hrun & Hr & _ & _ & _ & _ & Hmatrix & _ & _ & _ & _ & _ & Hthis
          & Hp & _).
    + split; [reflexivity | reflexivity | constructor | reflexivity].
    + reflexivity.
    + exists shared_target, ZMatrix4_IDENTITY, (1, 1, 1, 1)%Z.
      split; [reflexivity |]. split; [reflexivity |]. split; reflexivity.
    + cbn in Hr. subst r. exists st'.
      destruct Hp as (_ & P1 & P2); [discriminate |].
      exact (conj Hrun (conj Hmatrix (conj Hthis (conj P1 P2)))).
Defined.



Lemma clone_copies_array_shares_planes_witness :
  exists r st',
    clone 6 None slab_state = (Ok r, st') /\
    read_planes r st' = (Ok [Some 0; Some 1], st') /\
    read_planes 6 st' = (Ok [Some 0; Some 1], st') /\
    fst (read_plane 6 1 (snd (write_plane_distance r 1 9%Z st'))) =
      Ok {| normal := {| x3 := -1; y3 := 0; z3 := 0 |}; distance := 9 |}%Z.
Proof.
  destruct (clone_copies_array_shares_planes slab_state 6 slab_collection
              [0; 1] (map plane_value slab_planes) ZMatrix4_IDENTITY (1, 1, 1, 1)%Z)
    as (r & st' & c' & Hrun & _ & _ & _ & Hr & Hthis & Hshared).
  - split; [reflexivity | reflexivity | repeat constructor | reflexivity].
  - reflexivity.
  - exists r, st'.
    destruct (Hshared 1 1 (plane_value (-1, 0, 0, 5)%Z) eq_refl eq_refl)
      as (_ & _ & Hd & _).
    repeat split; try assumption. exact (proj1 (Hd 9%Z)).
Defined.

(** * Further properties of the collection *)

Section Further.
Context {core : Core}.

Implicit Types (st : state) (this l : loc) (c : Collection) (o : obj).

(** ** Reads leave the state as it is *)

Lemma load_snd l st : snd (load l st) = st.
Proof. unfold load. destruct (heap st !! l); reflexivity. Qed.

Lemma load_array_snd l st : snd (load_array l st) = st.
Proof.
  unfold load_array, load. cbv [mbind M_bind mret M_ret].
  destruct (heap st !! l) as [[]|]; reflexivity.
Qed.

Lemma load_plane_snd l st : snd (load_plane l st) = st.
Proof.
  unfold load_plane, load. cbv [mbind M_bind mret M_ret].
  destruct (heap st !! l) as [[]|]; reflexivity.
Qed.

Lemma load_matrix_snd l st : snd (load_matrix l st) = st.
Proof.
  unfold load_matrix, load. cbv [mbind M_bind mret M_ret].
  destruct (heap st !! l) as [[]|]; reflexivity.
Qed.

Lemma load_collection_snd l st : snd (load_collection l st) = st.
Proof.
  unfold load_collection, load. cbv [mbind M_bind mret M_ret].
  destruct (heap st !! l) as [[]|]; reflexivity.
Qed.

Lemma get_field_snd {A} l (f : Collection -> A) st : snd (get_field l f st) = st.
Proof.
  unfold get_field. rewrite run_bind.
  pose proof (load_collection_snd l st) as H.
  destruct (load_collection l st) as [[a|e] s]; cbn [snd] in *; subst; reflexivity.
Qed.

Lemma array_get_snd a i st : snd (array_get a i st) = st.
Proof.
  unfold array_get. rewrite run_bind.
  pose proof (load_array_snd a st) as H.
  destruct (load_array a st) as [[x|e] s]; cbn [snd] in *; subst; reflexivity.
Qed.

Lemma call_testIntersection_snd this v st : snd (call_testIntersection this v st) = st.
Proof.
  unfold call_testIntersection. rewrite run_bind.
  pose proof (get_field_snd this _testIntersection st) as H.
  destruct (get_field this _testIntersection st) as [[[f|]|e] s];
    cbn [snd] in *; subst; reflexivity.
Qed.

Lemma read_matrix_snd tr st : snd (read_matrix tr st) = st.
Proof. destruct tr; [apply load_matrix_snd | reflexivity]. Qed.

(** A typed read sees the heap only. *)
Lemma load_array_heap l s s' :
  heap s = heap s' -> fst (load_array l s) = fst (load_array l s').
Proof.
  intros H. unfold load_array, load. cbv [mbind M_bind mret M_ret]. rewrite H.
  destruct (heap s' !! l) as [[]|]; reflexivity.
Qed.

Lemma load_plane_heap l s s' :
  heap s = heap s' -> fst (load_plane l s) = fst (load_plane l s').
Proof.
  intros H. unfold load_plane, load. cbv [mbind M_bind mret M_ret]. rewrite H.
  destruct (heap s' !! l) as [[]|]; reflexivity.
Qed.

Lemma load_matrix_heap l s s' :
  heap s = heap s' -> fst (load_matrix l s) = fst (load_matrix l s').
Proof.
  intros H. unfold load_matrix, load. cbv [mbind M_bind mret M_ret]. rewrite H.
  destruct (heap s' !! l) as [[]|]; reflexivity.
Qed.

Lemma load_collection_heap l s s' :
  heap s = heap s' -> fst (load_collection l s) = fst (load_collection l s').
Proof.
  intros H. unfold load_collection, load. cbv [mbind M_bind mret M_ret]. rewrite H.
  destruct (heap s' !! l) as [[]|]; reflexivity.
Qed.

(** A computation that leaves the state and sees the heap only, run from two
    states with one heap. *)
Lemma read_two_states {A} (m : M A) s s' :
  snd (m s) = s -> snd (m s') = s' -> fst (m s) = fst (m s') ->
  exists r, m s = (r, s) /\ m s' = (r, s').
Proof.
  intros H H' Hr. exists (fst (m s)).
  destruct (m s) as [r t], (m s') as [r' t']. cbn [fst snd] in *. subst. auto.
Qed.

Lemma get_field_two_states {A} l (f : Collection -> A) s s' :
  heap s = heap s' ->
  exists r, get_field l f s = (r, s) /\ get_field l f s' = (r, s').
Proof.
  intros H. apply read_two_states; [apply get_field_snd | apply get_field_snd |].
  unfold get_field. rewrite !run_bind.
  pose proof (load_collection_heap l s s' H) as Hc.
  destruct (load_collection l s) as [[a|e] t], (load_collection l s') as [[a'|e'] t'];
    cbn [fst] in Hc; try discriminate Hc; injection Hc as <-; reflexivity.
Qed.

Lemma array_get_two_states a i s s' :
  heap s = heap s' ->
  exists r, array_get a i s = (r, s) /\ array_get a i s' = (r, s').
Proof.
  intros H. apply read_two_states; [apply array_get_snd | apply array_get_snd |].
  unfold array_get. rewrite !run_bind.
  pose proof (load_array_heap a s s' H) as Hc.
  destruct (load_array a s) as [[x|e] t], (load_array a s') as [[x'|e'] t'];
    cbn [fst] in Hc; try discriminate Hc; injection Hc as <-; reflexivity.
Qed.

Lemma call_testIntersection_two_states this v s s' :
  heap s = heap s' ->
  exists r, call_testIntersection this v s = (r, s) /\
            call_testIntersection this v s' = (r, s').
Proof.
  intros H.
  apply read_two_states;
    [apply call_testIntersection_snd | apply call_testIntersection_snd |].
  unfold call_testIntersection. rewrite !run_bind.
  destruct (get_field_two_states this _testIntersection s s' H) as (r & -> & ->).
  destruct r as [[f|]|e]; reflexivity.
Qed.

(** [Plane.transform] into the scratch plane, from two states with one heap
    that agree on the matrix [transform] denotes: both runs throw the same
    error before any write, or both write the same plane. *)
Lemma Plane_transform_scratch_two_states plane tr s s' :
  heap s = heap s' ->
  (tr = MScratch -> scratchMatrix s = scratchMatrix s') ->
  (exists e, Plane_transform_scratch plane tr s = (Throw e, s) /\
             Plane_transform_scratch plane tr s' = (Throw e, s')) \/
  (exists p, Plane_transform_scratch plane tr s =
               (Ok tt, {| heap := heap s; scratchPlane := p;
                          scratchMatrix := scratchMatrix s |}) /\
             Plane_transform_scratch plane tr s' =
               (Ok tt, {| heap := heap s'; scratchPlane := p;
                          scratchMatrix := scratchMatrix s' |})).
Proof.
  intros H Hm. destruct plane as [l|]; [| left; exists TypeError; split; reflexivity].
  destruct s as [h sp sm], s' as [h' sp' sm']. cbn [heap scratchMatrix] in *. subst h'.
  unfold Plane_transform_scratch, load_plane, load. cbv [mbind M_bind mret M_ret].
  cbn [heap].
  destruct (h !! l) as [[| p | | | |]|];
    try (left; exists IllTyped; split; reflexivity).
  destruct tr as [lm|]; cbn [read_matrix].
  - unfold load_matrix, load. cbv [mbind M_bind mret M_ret]. cbn [heap].
    destruct (h !! lm) as [[| | m | | |]|];
      try (left; exists IllTyped; split; reflexivity).
    right. exists (Plane_transform p m). split; reflexivity.
  - right. exists (Plane_transform p sm). rewrite <- (Hm eq_refl). split; reflexivity.
Qed.

(** ** Classification reads the heap and nothing else *)

Lemma classify_loop_two_states this planes bv tr k :
  forall i intersection s s',
    heap s = heap s' ->
    (tr = MScratch -> scratchMatrix s = scratchMatrix s') ->
    fst (classify_loop this planes bv tr i k intersection s) =
    fst (classify_loop this planes bv tr i k intersection s') /\
    heap (snd (classify_loop this planes bv tr i k intersection s)) = heap s.
Proof.
  induction k as [|k IH]; intros i intersection s s' Hh Hm; [split; reflexivity |].
  cbn [classify_loop]. rewrite !run_bind.
  destruct (array_get_two_states planes i s s' Hh) as ([plane|e] & -> & ->);
    [| split; reflexivity].
  rewrite !run_bind.
  destruct (Plane_transform_scratch_two_states plane tr s s' Hh Hm)
    as [(e & -> & ->) | (p & -> & ->)]; [split; reflexivity |].
  set (s1 := {| heap := heap s; scratchPlane := p; scratchMatrix := scratchMatrix s |}).
  set (s1' := {| heap := heap s'; scratchPlane := p; scratchMatrix := scratchMatrix s' |}).
  assert (Hh1 : heap s1 = heap s1') by exact Hh.
  assert (Hm1 : tr = MScratch -> scratchMatrix s1 = scratchMatrix s1') by exact Hm.
  rewrite !run_bind.
  destruct bv as [f|]; [| split; reflexivity].
  cbn [intersectPlane]. rewrite !run_bind. cbn [get_scratchPlane]. cbv [mret M_ret].
  change (scratchPlane s1) with p. change (scratchPlane s1') with p.
  destruct (Intersect_eqb (f p) INTERSECTING).
  - apply (IH (S i) (f p) s1 s1' Hh1 Hm1).
  - rewrite !run_bind.
    destruct (call_testIntersection_two_states this (f p) s1 s1' Hh1)
      as ([[|]|e] & -> & ->); [split; reflexivity | | split; reflexivity].
    apply (IH (S i) intersection s1 s1' Hh1 Hm1).
Qed.

Lemma classify_two_states this bv parentTransform s s' :
  heap s = heap s' ->
  fst (computeIntersectionWithBoundingVolume this bv parentTransform s) =
  fst (computeIntersectionWithBoundingVolume this bv parentTransform s') /\
  heap (snd (computeIntersectionWithBoundingVolume this bv parentTransform s)) = heap s.
Proof.
  intros Hh. unfold computeIntersectionWithBoundingVolume. rewrite !run_bind.
  destruct (get_field_two_states this planes s s' Hh) as ([ps|e] & -> & ->);
    [| split; reflexivity].
  rewrite !run_bind.
  pose proof (load_array_heap ps s s' Hh) as Ha.
  pose proof (load_array_snd ps s) as Hs. pose proof (load_array_snd ps s') as Hs'.
  destruct (load_array ps s) as [[elems|e] t], (load_array ps s') as [[elems'|e'] t'];
    cbn [fst snd] in *; subst t t'; try discriminate Ha; injection Ha as <-;
    [| split; reflexivity].
  rewrite !run_bind.
  destruct (get_field_two_states this modelMatrix s s' Hh) as ([mm|e] & -> & ->);
    [| split; reflexivity].
  rewrite !run_bind.
  destruct parentTransform as [pt|].
  - rewrite !run_bind.
    pose proof (load_matrix_heap mm s s' Hh) as Hl.
    pose proof (load_matrix_snd mm s) as Hs. pose proof (load_matrix_snd mm s') as Hs'.
    destruct (load_matrix mm s) as [[m|e] t], (load_matrix mm s') as [[m'|e'] t'];
      cbn [fst snd] in *; subst t t'; try discriminate Hl; injection Hl as <-;
      [| split; reflexivity].
    rewrite !run_bind. cbn [set_scratchMatrix]. cbv [mret M_ret].
    set (s1 := {| heap := heap s; scratchPlane := scratchPlane s;
                  scratchMatrix := Matrix4_multiply m pt |}).
    set (s1' := {| heap := heap s'; scratchPlane := scratchPlane s';
                   scratchMatrix := Matrix4_multiply m pt |}).
    assert (Hh1 : heap s1 = heap s1') by exact Hh.
    rewrite !run_bind. unfold get_combineClippingRegions.
    destruct (get_field_two_states this _combineClippingRegions s1 s1' Hh1)
      as ([flag|e] & H1 & H1'); unfold get_field in H1, H1'; rewrite H1, H1';
      [| split; reflexivity].
    apply (classify_loop_two_states this ps bv MScratch (length elems) 0 _ s1 s1' Hh1).
    reflexivity.
  - cbv [mret M_ret]. rewrite !run_bind. unfold get_combineClippingRegions.
    destruct (get_field_two_states this _combineClippingRegions s s' Hh)
      as ([flag|e] & H1 & H1'); unfold get_field in H1, H1'; rewrite H1, H1';
      [| split; reflexivity].
    apply (classify_loop_two_states this ps bv (MRef mm) (length elems) 0 _ s s' Hh).
    discriminate.
Qed.

(** X1: [computeIntersectionWithBoundingVolume] never writes to the heap:
    whatever the collection, the volume and the parent transform, and whether
    it returns or throws, every object is afterwards as it was before; only
    the module's scratch objects are written. *)
Theorem classify_never_writes_heap this bv parentTransform st :
  heap (snd (computeIntersectionWithBoundingVolume this bv parentTransform st)) =
  heap st.
Proof. exact (proj2 (classify_two_states this bv parentTransform st st eq_refl)). Qed.

(** X2: the outcome of [computeIntersectionWithBoundingVolume] does not
    depend on what [scratchPlane] and [scratchMatrix] hold at the call: from
    any two contents of the scratch objects over one heap, the call returns
    the same verdict or throws the same error. *)
Theorem classify_ignores_scratch this bv parentTransform st sp sm :
  fst (computeIntersectionWithBoundingVolume this bv parentTransform
         {| heap := heap st; scratchPlane := sp; scratchMatrix := sm |}) =
  fst (computeIntersectionWithBoundingVolume this bv parentTransform st).
Proof.
  exact (proj1 (classify_two_states this bv parentTransform
                  {| heap := heap st; scratchPlane := sp; scratchMatrix := sm |} st
                  eq_refl)).
Qed.

(** ** The verdict in closed form *)

Lemma scan_spec_closed b vs init :
  scan_spec b vs init =
  if b then
    if some_verdict INSIDE vs then INSIDE
    else if some_verdict INTERSECTING vs then INTERSECTING
    else init
  else
    if some_verdict OUTSIDE vs then OUTSIDE
    else if some_verdict INTERSECTING vs then INTERSECTING
    else init.
Proof.
  unfold some_verdict.
  destruct b; revert init; induction vs as [|v vs IH]; intros init; try reflexivity;
    cbn [scan_spec existsb]; destruct v; cbn [Intersect_eqb orb]; rewrite ?IH;
    repeat match goal with |- context [existsb ?f vs] => destruct (existsb f vs) end;
    reflexivity.
Qed.

Lemma classify_spec_closed b vs : classify_spec b vs = combined_verdict b vs.
Proof.
  destruct vs as [|v vs]; [reflexivity |].
  unfold classify_spec, combined_verdict. rewrite scan_spec_closed.
  destruct b; reflexivity.
Qed.

Lemma classify_run_closed st this c locs ps m b bv parentTransform :
  wf_collection st this c locs ps m ->
  _combineClippingRegions c = Some b ->
  cache_ok c ->
  fst (computeIntersectionWithBoundingVolume this (Some bv) parentTransform st) =
  Ok (combined_verdict b
        (map (fun p => bv (Plane_transform p (effectiveTransform m parentTransform))) ps)).
Proof.
  intros Hwf Hflag Hcache.
  destruct (classify_run st this c locs ps m b bv parentTransform Hwf Hflag Hcache)
    as (st' & Hrun & _).
  rewrite Hrun. cbn [fst]. f_equal. apply classify_spec_closed.
Qed.

Lemma some_verdict_Permutation v (vs vs' : list Intersect) :
  Permutation vs vs' -> some_verdict v vs = some_verdict v vs'.
Proof.
  intros Hp. unfold some_verdict.
  apply Bool.eq_iff_eq_true. rewrite !existsb_exists.
  split; intros (u & Hin & Hu); exists u; split; auto.
  - eapply Permutation_in; eassumption.
  - eapply Permutation_in; [symmetry |]; eassumption.
Qed.

Lemma combined_verdict_Permutation b (vs vs' : list Intersect) :
  Permutation vs vs' -> combined_verdict b vs = combined_verdict b vs'.
Proof.
  intros Hp. unfold combined_verdict.
  rewrite !(some_verdict_Permutation _ vs vs' Hp).
  destruct vs as [|v vs], vs' as [|v' vs']; try reflexivity.
  - apply Permutation_nil_cons in Hp. contradiction.
  - symmetry in Hp. apply Permutation_nil_cons in Hp. contradiction.
Qed.

(** X3: the verdict of a classification in closed form.  Without a plane it
    is Inside.  In intersection mode it is Inside as soon as some plane
    reports Inside, else Intersecting when some plane reports it, else
    Outside; in union mode it is Outside as soon as some plane reports
    Outside, else Intersecting when some plane reports it, else Inside. *)
Theorem classify_verdict_closed_form st this c locs ps m b bv parentTransform :
  wf_collection st this c locs ps m ->
  _combineClippingRegions c = Some b ->
  cache_ok c ->
  fst (computeIntersectionWithBoundingVolume this (Some bv) parentTransform st) =
  Ok (combined_verdict b
        (map (fun p => bv (Plane_transform p (effectiveTransform m parentTransform))) ps)).
Proof. apply classify_run_closed. Qed.

(** X4: the verdict does not depend on the order of the planes: two
    collections in the same mode, with the same model matrix, whose planes
    are the same up to their order classify every volume alike. *)
Theorem classify_order_independent
    st this c locs ps st' this' c' locs' ps' m b bv parentTransform :
  wf_collection st this c locs ps m ->
  _combineClippingRegions c = Some b ->
  cache_ok c ->
  wf_collection st' this' c' locs' ps' m ->
  _combineClippingRegions c' = Some b ->
  cache_ok c' ->
  Permutation ps ps' ->
  fst (computeIntersectionWithBoundingVolume this (Some bv) parentTransform st) =
  fst (computeIntersectionWithBoundingVolume this' (Some bv) parentTransform st').
Proof.
  intros Hwf Hflag Hcache Hwf' Hflag' Hcache' Hperm.
  rewrite (classify_run_closed _ _ _ _ _ _ _ bv parentTransform Hwf Hflag Hcache).
  rewrite (classify_run_closed _ _ _ _ _ _ _ bv parentTransform Hwf' Hflag' Hcache').
  f_equal. apply combined_verdict_Permutation, Permutation_map, Hperm.
Qed.

(** X5: with a single plane, in either mode, the verdict of the collection
    is the verdict of the volume against that plane transformed by the
    effective transform. *)
Theorem classify_single_plane st this c l p m b bv parentTransform :
  wf_collection st this c [l] [p] m ->
  _combineClippingRegions c = Some b ->
  cache_ok c ->
  fst (computeIntersectionWithBoundingVolume this (Some bv) parentTransform st) =
  Ok (bv (Plane_transform p (effectiveTransform m parentTransform))).
Proof.
  intros Hwf Hflag Hcache.
  rewrite (classify_run_closed _ _ _ _ _ _ _ bv parentTransform Hwf Hflag Hcache).
  f_equal. unfold combined_verdict, some_verdict. cbn [map existsb].
  destruct (bv _), b; reflexivity.
Qed.

(** X6: a write to [combineClippingRegions] takes effect at the next
    classification: after the setter has stored [b'] on a constructed
    collection, whatever its mode was, the collection classifies in mode
    [b']. *)
Theorem setter_then_classify st this c locs ps m b' bv parentTransform :
  wf_collection st this c locs ps m ->
  cache_ok c ->
  fst (computeIntersectionWithBoundingVolume this (Some bv) parentTransform
         (snd (set_combineClippingRegions this (Some b') st))) =
  Ok (combined_verdict b'
        (map (fun p => bv (Plane_transform p (effectiveTransform m parentTransform))) ps)).
Proof.
  intros [Hthis Hplanes Heach Hmatrix] Hcache.
  rewrite (set_combineClippingRegions_store _ _ _ (Some b') Hthis). cbn [snd].
  set (c' := if strict_neq (_combineClippingRegions c) (Some b')
             then with_testIntersection (Some (getTestIntersectionFunction (Some b')))
                    (with_combineClippingRegions (Some b') c)
             else c).
  assert (Hfields : planes c' = planes c /\ modelMatrix c' = modelMatrix c /\
                    _combineClippingRegions c' = Some b' /\ cache_ok c').
  { subst c'. destruct (strict_neq _ _) eqn:E; [repeat split |].
    apply strict_neq_false in E. repeat split; auto. }
  destruct Hfields as (Hp & Hm & Hf & Hc).
  apply (classify_run_closed _ this c' locs ps m b' bv parentTransform); auto.
  assert (Hother : forall l o, heap st !! l = Some o -> l ≠ this ->
                     <[this := OCollection c']> (heap st) !! l = Some o)
    by (intros; rewrite list_lookup_insert_ne by congruence; assumption).
  split; cbn [heap with_heap].
  - eapply lookup_store_eq, Hthis.
  - rewrite Hp. apply Hother; [exact Hplanes | congruence].
  - eapply Forall2_impl; [exact Heach |]. cbn beta. intros l p Hl.
    apply Hother; [exact Hl | congruence].
  - rewrite Hm. apply Hother; [exact Hmatrix | congruence].
Qed.

(** ** Packing, slot by slot *)

(** The loop over a container whose first [n] slots hold the records [cells]
    and whose slot [n], when the loop reaches it, is missing: the loop packs
    plane [j] into the record of slot [j] for [j < n], and throws at slot [n]
    when it has to go that far.  A record that sits in several slots keeps
    the plane of the last of them. *)
Lemma pack_loop_writes planes array X (sh : list (option obj))
    (pe ae : list (option loc)) (ps : list (Plane num)) (cells : list loc) n total :
  sh !! planes = Some (Some (OArray pe)) ->
  sh !! array = Some (Some (OArray ae)) ->
  (forall j, j < n -> exists lp p lc,
      pe !! j = Some (Some lp) /\ sh !! lp = Some (Some (OPlane p)) /\
      ps !! j = Some p /\ ae !! j = Some (Some lc) /\
      cells !! j = Some lc /\ sh !! lc = Some None) ->
  length cells = n ->
  n <= total ->
  (n < total -> mjoin (ae !! n) = None /\
                exists lp p, pe !! n = Some (Some lp) /\ sh !! lp = Some (Some (OPlane p))) ->
  forall k i s,
    i <= n -> i + k = total -> shapes s = sh -> scratchMatrix s = X ->
    exists t,
      pack_loop planes array MScratch i k s =
        (if decide (total <= n) then Ok tt else Throw TypeError, t) /\
      (forall j lc p, i <= j -> cells !! j = Some lc -> ps !! j = Some p ->
         (forall j', j < j' -> cells !! j' ≠ Some lc) ->
         heap t !! lc = Some (OCartesian4 (packed (Plane_transform p X)))) /\
      (forall l, (forall j, i <= j -> cells !! j ≠ Some l) -> heap t !! l = heap s !! l).
Proof.
  intros Hplanes Harray Hslots Hlen Hle Hbad.
  induction k as [|k IH]; intros i s Hi Hik Hsh HX.
  - exists s. cbn [pack_loop]. rewrite decide_True by lia.
    repeat split; auto.
    intros j lc p Hj Hc _ _. apply lookup_lt_Some in Hc. lia.
  - cbn [pack_loop]. rewrite run_bind, pack_body_plan. rewrite Hsh, HX.
    destruct (decide (i < n)) as [Hlt|Hge].
    + destruct (Hslots i Hlt) as (lp & p & lc & Hpe & Hlp & Hps & Hae & Hc & Hlc).
      unfold body_plan. rewrite Hplanes, Harray, Hpe. cbn [mjoin option_join].
      rewrite Hlp, Hae. cbn [mjoin option_join]. rewrite Hlc. cbn [apply_plan].
      set (s1 := {| heap := <[lc := OCartesian4 (packed (Plane_transform p X))]> (heap s);
                    scratchPlane := Plane_transform p X;
                    scratchMatrix := scratchMatrix s |}).
      assert (Hsh1 : shapes s1 = sh).
      { subst s1. rewrite <- Hsh. apply shapes_write. rewrite Hsh. exact Hlc. }
      destruct (IH (S i) s1 ltac:(lia) ltac:(lia) Hsh1 HX) as (t & Hrun & Hfill & Hframe).
      exists t. split; [exact Hrun |]. split.
      * intros j lc' p' Hj Hc' Hp' Hlast.
        destruct (decide (j = i)) as [->|Hne].
        -- rewrite Hc in Hc'. rewrite Hps in Hp'.
           injection Hc' as <-. injection Hp' as <-.
           rewrite Hframe by (intros j' Hj'; apply Hlast; lia).
           subst s1. cbn [heap].
           destruct (shapes_cartesian4 s lc) as [old Hold]; [rewrite Hsh; exact Hlc |].
           eapply lookup_store_eq, Hold.
        -- apply (Hfill j lc' p'); [lia | exact Hc' | exact Hp' | exact Hlast].
      * intros l Hl. rewrite Hframe by (intros j Hj; apply Hl; lia).
        subst s1. cbn [heap]. apply list_lookup_insert_ne.
        intros ->. exact (Hl i (le_n _) Hc).
    + assert (i = n) by lia. subst i.
      destruct (Hbad ltac:(lia)) as (Hmiss & lp & p & Hpe & Hlp).
      unfold body_plan. rewrite Hplanes, Harray, Hpe. cbn [mjoin option_join].
      rewrite Hlp, Hmiss. cbn [apply_plan]. rewrite decide_False by lia.
      eexists. split; [reflexivity |]. cbn [heap]. split; [| reflexivity].
      intros j lc p' Hj Hc _ _. apply lookup_lt_Some in Hc. lia.
Qed.

(** The shapes of a well-formed collection and of a container. *)
Lemma container_slots st this c locs ps m (ae : list (option loc)) (cells : list loc) sp sm :
  wf_collection st this c locs ps m ->
  length cells <= length locs ->
  (forall j lc, cells !! j = Some lc ->
      ae !! j = Some (Some lc) /\ exists old, heap st !! lc = Some (OCartesian4 old)) ->
  forall j, j < length cells -> exists lp p lc,
    (Some <$> locs) !! j = Some (Some lp) /\
    shapes {| heap := heap st; scratchPlane := sp; scratchMatrix := sm |} !! lp =
      Some (Some (OPlane p)) /\
    ps !! j = Some p /\ ae !! j = Some (Some lc) /\ cells !! j = Some lc /\
    shapes {| heap := heap st; scratchPlane := sp; scratchMatrix := sm |} !! lc = Some None.
Proof.
  intros [Hthis Hplanes Heach Hmatrix] Hlen Hcells j Hj.
  destruct (lookup_lt_is_Some_2 locs j ltac:(lia)) as [lp Hlp].
  destruct (lookup_lt_is_Some_2 cells j Hj) as [lc Hlc].
  destruct (Forall2_lookup_l _ _ _ _ _ Heach Hlp) as (p & Hp & Hcell).
  destruct (Hcells j lc Hlc) as (Hae & old & Hold).
  exists lp, p, lc. rewrite list_lookup_fmap, Hlp, !shapes_lookup. cbn [heap].
  rewrite Hcell, Hold. repeat split; auto.
Qed.

(** X7: [transformAndPackPlanes] into a container whose first slots hold
    [Cartesian4] records, one per plane at least, returns that container;
    the record of slot [j] then holds the normal and the distance of plane
    [j] transformed by [viewMatrix * modelMatrix], a record that sits in
    several slots keeps the plane of the last of them, and no other object of
    the heap is changed. *)
Theorem transformAndPackPlanes_packs_each_record
    st this c locs ps m viewMatrix array (ae : list (option loc)) (cells : list loc) :
  wf_collection st this c locs ps m ->
  heap st !! array = Some (OArray ae) ->
  length cells = length locs ->
  (forall j lc, cells !! j = Some lc ->
      ae !! j = Some (Some lc) /\ exists old, heap st !! lc = Some (OCartesian4 old)) ->
  exists st',
    transformAndPackPlanes this viewMatrix (Some array) st = (Ok array, st') /\
    (forall j lc p, cells !! j = Some lc -> ps !! j = Some p ->
       (forall j', j < j' -> cells !! j' ≠ Some lc) ->
       heap st' !! lc =
       Some (OCartesian4 (packed (Plane_transform p (Matrix4_multiply viewMatrix m))))) /\
    (forall l, (forall j, cells !! j ≠ Some l) -> heap st' !! l = heap st !! l).
Proof.
  intros Hwf Harray Hlen Hcells.
  pose proof Hwf as [Hthis Hplanes Heach Hmatrix].
  unfold transformAndPackPlanes.
  rewrite (run_bind_ok _ _ _ _ _ (load_collection_run _ _ _ Hthis)).
  rewrite (run_bind_ok _ _ _ _ _ (load_array_run _ _ _ Hplanes)).
  rewrite run_bind. cbv [mret M_ret].
  rewrite (run_bind_ok _ _ _ _ _ (load_collection_run _ _ _ Hthis)).
  rewrite (run_bind_ok _ _ _ _ _ (load_matrix_run _ _ _ Hmatrix)).
  rewrite run_bind. cbn [set_scratchMatrix]. rewrite length_fmap.
  set (X := Matrix4_multiply viewMatrix m).
  set (s1 := {| heap := heap st; scratchPlane := scratchPlane st; scratchMatrix := X |}).
  assert (Hsh : forall l o, heap st !! l = Some o -> shape o = Some o ->
                            shapes s1 !! l = Some (Some o)).
  { intros l o Hl Ho. rewrite shapes_lookup. cbn [heap s1]. rewrite Hl. cbn. f_equal.
    exact Ho. }
  assert (Hbad : length cells < length locs ->
            mjoin (ae !! length cells) = None /\
            exists lp p, (Some <$> locs) !! length cells = Some (Some lp) /\
                         shapes s1 !! lp = Some (Some (OPlane p)))
    by (intros H; exfalso; lia).
  assert (Hle : length cells <= length locs) by lia.
  destruct (pack_loop_writes (planes c) array X (shapes s1) (Some <$> locs) ae ps cells
              (length cells) (length locs)
              (Hsh _ _ Hplanes eq_refl) (Hsh _ _ Harray eq_refl)
              (container_slots _ _ _ _ _ _ _ _ _ _ Hwf Hle Hcells)
              eq_refl Hle Hbad (length locs) 0 s1 (Nat.le_0_l _)
              eq_refl eq_refl eq_refl)
    as (t & Hrun & Hfill & Hframe).
  rewrite decide_True in Hrun by lia.
  rewrite run_bind, Hrun. cbv [mret M_ret]. exists t.
  split; [reflexivity |]. split.
  - intros j lc p Hc Hp Hlast. apply (Hfill j lc p); [lia | exact Hc | exact Hp | exact Hlast].
  - intros l Hl. apply (Hframe l). intros j _. apply Hl.
Qed.

(** X8: a container with fewer records than the collection has planes makes
    [transformAndPackPlanes] throw a [TypeError] at the first slot without a
    record (past the end, or a hole), after the records of the slots before
    it have been overwritten with their planes; nothing else is changed. *)
Theorem transformAndPackPlanes_short_container
    st this c locs ps m viewMatrix array (ae : list (option loc)) (cells : list loc) :
  wf_collection st this c locs ps m ->
  heap st !! array = Some (OArray ae) ->
  length cells < length locs ->
  (forall j lc, cells !! j = Some lc ->
      ae !! j = Some (Some lc) /\ exists old, heap st !! lc = Some (OCartesian4 old)) ->
  mjoin (ae !! length cells) = None ->
  exists st',
    transformAndPackPlanes this viewMatrix (Some array) st = (Throw TypeError, st') /\
    (forall j lc p, cells !! j = Some lc -> ps !! j = Some p ->
       (forall j', j < j' -> cells !! j' ≠ Some lc) ->
       heap st' !! lc =
       Some (OCartesian4 (packed (Plane_transform p (Matrix4_multiply viewMatrix m))))) /\
    (forall l, (forall j, cells !! j ≠ Some l) -> heap st' !! l = heap st !! l).
Proof.
  intros Hwf Harray Hlen Hcells Hmiss.
  pose proof Hwf as [Hthis Hplanes Heach Hmatrix].
  unfold transformAndPackPlanes.
  rewrite (run_bind_ok _ _ _ _ _ (load_collection_run _ _ _ Hthis)).
  rewrite (run_bind_ok _ _ _ _ _ (load_array_run _ _ _ Hplanes)).
  rewrite run_bind. cbv [mret M_ret].
  rewrite (run_bind_ok _ _ _ _ _ (load_collection_run _ _ _ Hthis)).
  rewrite (run_bind_ok _ _ _ _ _ (load_matrix_run _ _ _ Hmatrix)).
  rewrite run_bind. cbn [set_scratchMatrix]. rewrite length_fmap.
  set (X := Matrix4_multiply viewMatrix m).
  set (s1 := {| heap := heap st; scratchPlane := scratchPlane st; scratchMatrix := X |}).
  assert (Hsh : forall l o, heap st !! l = Some o -> shape o = Some o ->
                            shapes s1 !! l = Some (Some o)).
  { intros l o Hl Ho. rewrite shapes_lookup. cbn [heap s1]. rewrite Hl. cbn. f_equal.
    exact Ho. }
  assert (Hbad : length cells < length locs ->
            mjoin (ae !! length cells) = None /\
            exists lp p, (Some <$> locs) !! length cells = Some (Some lp) /\
                         shapes s1 !! lp = Some (Some (OPlane p))).
  { intros _. split; [exact Hmiss |].
    destruct (lookup_lt_is_Some_2 locs (length cells) Hlen) as [lp Hlp].
    destruct (Forall2_lookup_l _ _ _ _ _ Heach Hlp) as (p & _ & Hcell).
    exists lp, p. rewrite list_lookup_fmap, Hlp. split; [reflexivity |].
    apply Hsh; [exact Hcell | reflexivity]. }
  assert (Hle : length cells <= length locs) by lia.
  destruct (pack_loop_writes (planes c) array X (shapes s1) (Some <$> locs) ae ps cells
              (length cells) (length locs)
              (Hsh _ _ Hplanes eq_refl) (Hsh _ _ Harray eq_refl)
              (container_slots _ _ _ _ _ _ _ _ _ _ Hwf Hle Hcells)
              eq_refl Hle Hbad (length locs) 0 s1 (Nat.le_0_l _)
              eq_refl eq_refl eq_refl)
    as (t & Hrun & Hfill & Hframe).
  rewrite decide_False in Hrun by lia.
  rewrite run_bind, Hrun. exists t.
  split; [reflexivity |]. split.
  - intros j lc p Hc Hp Hlast. apply (Hfill j lc p); [lia | exact Hc | exact Hp | exact Hlast].
  - intros l Hl. apply (Hframe l). intros j _. apply Hl.
Qed.

(** X9: on a collection without planes [transformAndPackPlanes] packs
    nothing: it returns the container it is given without reading it, or a new
    empty array when it is given none, and writes [viewMatrix * modelMatrix]
    to the scratch matrix; no object of the heap is changed. *)
Theorem transformAndPackPlanes_no_planes st this c m viewMatrix :
  heap st !! this = Some (OCollection c) ->
  heap st !! planes c = Some (OArray []) ->
  heap st !! modelMatrix c = Some (OMatrix4 m) ->
  (forall array,
      transformAndPackPlanes this viewMatrix (Some array) st =
      (Ok array, {| heap := heap st; scratchPlane := scratchPlane st;
                    scratchMatrix := Matrix4_multiply viewMatrix m |})) /\
  transformAndPackPlanes this viewMatrix None st =
  (Ok (length (heap st)),
   {| heap := heap st ++ [OArray []]; scratchPlane := scratchPlane st;
      scratchMatrix := Matrix4_multiply viewMatrix m |}).
Proof.
  intros Hthis Hplanes Hmatrix. split; [intros array |]; unfold transformAndPackPlanes;
    rewrite (run_bind_ok _ _ _ _ _ (load_collection_run _ _ _ Hthis));
    rewrite (run_bind_ok _ _ _ _ _ (load_array_run _ _ _ Hplanes));
    rewrite run_bind.
  - cbv [mret M_ret].
    rewrite (run_bind_ok _ _ _ _ _ (load_collection_run _ _ _ Hthis)).
    rewrite (run_bind_ok _ _ _ _ _ (load_matrix_run _ _ _ Hmatrix)).
    reflexivity.
  - cbn [alloc length replicate].
    set (s1 := with_heap (heap st ++ [OArray []]) st).
    rewrite (run_bind_ok _ _ _ _ _
               (load_collection_run s1 _ _ (lookup_alloc_old _ _ _ _ Hthis))).
    rewrite (run_bind_ok _ _ _ _ _
               (load_matrix_run s1 _ _ (lookup_alloc_old _ _ _ _ Hmatrix))).
    reflexivity.
Qed.

Lemma replicate_holes n j : mjoin (replicate n (@None nat) !! j) = None.
Proof.
  destruct (replicate n None !! j) as [[x|]|] eqn:E; try reflexivity.
  apply lookup_replicate in E as [E _]. discriminate E.
Qed.

(** A loop over a container without any record writes nothing in the heap. *)
Lemma pack_loop_holes planes array (ae : list (option loc)) k :
  (forall j, mjoin (ae !! j) = None) ->
  forall i s,
    heap s !! array = Some (OArray ae) ->
    heap (snd (pack_loop planes array MScratch i k s)) = heap s.
Proof.
  intros Hholes. destruct k as [|k]; intros i s Harray; [reflexivity |].
  cbn [pack_loop]. rewrite run_bind, pack_body_plan.
  unfold body_plan. rewrite !shapes_lookup, Harray.
  cbn [fmap option_fmap option_map shape]. rewrite Hholes.
  destruct (shape <$> heap s !! planes) as [[[pe| | | | |]|]|]; try reflexivity.
  destruct (mjoin (pe !! i)) as [pl|]; [| reflexivity].
  rewrite shapes_lookup.
  destruct (shape <$> heap s !! pl) as [[[| p | | | |]|]|]; reflexivity.
Qed.

(** X10: [transformAndPackPlanes] changes no object of the heap but
    [Cartesian4] records: with a container, every object that is not such a
    record (the collection, its planes array and planes, its matrix, the
    container array) is afterwards as it was; without a container no existing
    object at all is changed.  This holds whether the call returns or
    throws. *)
Theorem transformAndPackPlanes_writes_only_records this viewMatrix st l o :
  heap st !! l = Some o ->
  (forall array,
      (forall k, o ≠ OCartesian4 k) ->
      heap (snd (transformAndPackPlanes this viewMatrix (Some array) st)) !! l = Some o) /\
  heap (snd (transformAndPackPlanes this viewMatrix None st)) !! l = Some o.
Proof.
  intros Hl. split.
  - intros array Hrec.
    destruct (transformAndPackPlanes_two_runs this viewMatrix array st st eq_refl)
      as (_ & Hshape & _). cbv zeta in Hshape.
    pose proof (f_equal (fun sh => sh !! l) Hshape) as H. cbv beta in H.
    rewrite !shapes_lookup, Hl in H.
    destruct (heap (snd (transformAndPackPlanes this viewMatrix (Some array) st)) !! l)
      as [o'|]; [| discriminate H].
    destruct o, o'; cbn in H; try discriminate H; try congruence;
      exfalso; eapply Hrec; reflexivity.
  - unfold transformAndPackPlanes. rewrite run_bind.
    pose proof (load_collection_snd this st) as Hs.
    destruct (load_collection this st) as [[c|e] t]; cbn [snd] in Hs; subst t;
      [| exact Hl].
    rewrite run_bind.
    pose proof (load_array_snd (planes c) st) as Hs.
    destruct (load_array (planes c) st) as [[elems|e] t]; cbn [snd] in Hs; subst t;
      [| exact Hl].
    rewrite run_bind. cbn [alloc].
    set (s1 := with_heap (heap st ++ [OArray (replicate (length elems) None)]) st).
    assert (Hl1 : heap s1 !! l = Some o) by (apply lookup_alloc_old, Hl).
    rewrite run_bind.
    pose proof (load_collection_snd this s1) as Hs.
    destruct (load_collection this s1) as [[c1|e] t]; cbn [snd] in Hs; subst t;
      [| exact Hl1].
    rewrite run_bind.
    pose proof (load_matrix_snd (modelMatrix c1) s1) as Hs.
    destruct (load_matrix (modelMatrix c1) s1) as [[m|e] t]; cbn [snd] in Hs; subst t;
      [| exact Hl1].
    rewrite run_bind. cbn [set_scratchMatrix].
    set (s2 := {| heap := heap s1; scratchPlane := scratchPlane s1;
                  scratchMatrix := Matrix4_multiply viewMatrix m |}).
    pose proof (pack_loop_holes (planes c) (length (heap st))
                  (replicate (length elems) None) (length elems)) as Hloop.
    specialize (Hloop (replicate_holes _) 0 s2 (lookup_alloc_new _ _)).
    rewrite run_bind.
    destruct (pack_loop (planes c) (length (heap st)) MScratch 0 (length elems) s2)
      as [[[]|e] t]; cbv [mret M_ret]; cbn [snd] in *; rewrite Hloop; exact Hl1.
Qed.

(** Two runs of [transformAndPackPlanes] without a container, from states
    with the same heap: both allocate the array at the same location. *)
Lemma transformAndPackPlanes_new_array_two_runs this viewMatrix s s' :
  heap s = heap s' ->
  fst (transformAndPackPlanes this viewMatrix None s) =
  fst (transformAndPackPlanes this viewMatrix None s') /\
  heap (snd (transformAndPackPlanes this viewMatrix None s)) =
  heap (snd (transformAndPackPlanes this viewMatrix None s')).
Proof.
  intros Hh.
  assert (Hsh : shapes s = shapes s') by (unfold shapes; rewrite Hh; reflexivity).
  unfold transformAndPackPlanes.
  destruct (load_collection_two_runs this s s' Hsh) as [(c & Hc & Hc')|[Hc Hc']];
    [rewrite (run_bind_ok _ _ _ _ _ Hc), (run_bind_ok _ _ _ _ _ Hc')
    |rewrite (run_bind_throw _ _ _ _ _ Hc), (run_bind_throw _ _ _ _ _ Hc');
     cbn [fst snd]; auto].
  destruct (load_array_two_runs (planes c) s s' Hsh) as [(elems & He & He')|[He He']];
    [rewrite (run_bind_ok _ _ _ _ _ He), (run_bind_ok _ _ _ _ _ He')
    |rewrite (run_bind_throw _ _ _ _ _ He), (run_bind_throw _ _ _ _ _ He');
     cbn [fst snd]; auto].
  rewrite !(run_bind (alloc _)). unfold alloc. rewrite <- Hh.
  set (o := OArray (replicate (length elems) None)).
  set (s1 := with_heap (heap s ++ [o]) s).
  set (s1' := with_heap (heap s ++ [o]) s').
  assert (Hh1 : heap s1 = heap s1') by reflexivity.
  assert (Hsh1 : shapes s1 = shapes s1') by reflexivity.
  destruct (load_collection_two_runs this s1 s1' Hsh1) as [(c1 & Hc1 & Hc1')|[Hc1 Hc1']];
    [rewrite (run_bind_ok _ _ _ _ _ Hc1), (run_bind_ok _ _ _ _ _ Hc1')
    |rewrite (run_bind_throw _ _ _ _ _ Hc1), (run_bind_throw _ _ _ _ _ Hc1');
     cbn [fst snd]; auto].
  destruct (load_matrix_two_runs (modelMatrix c1) s1 s1' Hsh1)
    as [(m & Hm & Hm')|[Hm Hm']];
    [rewrite (run_bind_ok _ _ _ _ _ Hm), (run_bind_ok _ _ _ _ _ Hm')
    |rewrite (run_bind_throw _ _ _ _ _ Hm), (run_bind_throw _ _ _ _ _ Hm');
     cbn [fst snd]; auto].
  rewrite !(run_bind (set_scratchMatrix _)). cbn [set_scratchMatrix].
  set (s2 := {| heap := heap s1; scratchPlane := scratchPlane s1;
                scratchMatrix := Matrix4_multiply viewMatrix m |}).
  set (s2' := {| heap := heap s1'; scratchPlane := scratchPlane s1';
                 scratchMatrix := Matrix4_multiply viewMatrix m |}).
  destruct (pack_loop_two_runs (planes c) (length (heap s)) (length elems) 0 s2 s2'
              Hsh1 eq_refl) as [Hr [_ _ _ _ Hcells _]].
  assert (Heq : heap (snd (pack_loop (planes c) (length (heap s)) MScratch 0
                             (length elems) s2)) =
                heap (snd (pack_loop (planes c) (length (heap s)) MScratch 0
                             (length elems) s2'))).
  { apply list_eq. intros l.
    destruct (Hcells l) as [H|[H H']]; [exact H |]. rewrite H, H'. reflexivity. }
  rewrite !run_bind.
  destruct (pack_loop (planes c) (length (heap s)) MScratch 0 (length elems) s2)
    as [[[]|e] t],
    (pack_loop (planes c) (length (heap s)) MScratch 0 (length elems) s2')
    as [[[]|e'] t'];
    cbv [mret M_ret]; cbn [fst snd] in *; try discriminate Hr;
    (split; [congruence | exact Heq]).
Qed.

(** X11: what [transformAndPackPlanes] returns and leaves in the heap does
    not depend on what [scratchPlane] and [scratchMatrix] hold at the call,
    with a container and without one. *)
Theorem transformAndPackPlanes_ignores_scratch this viewMatrix array st sp sm :
  fst (transformAndPackPlanes this viewMatrix array
         {| heap := heap st; scratchPlane := sp; scratchMatrix := sm |}) =
  fst (transformAndPackPlanes this viewMatrix array st) /\
  heap (snd (transformAndPackPlanes this viewMatrix array
               {| heap := heap st; scratchPlane := sp; scratchMatrix := sm |})) =
  heap (snd (transformAndPackPlanes this viewMatrix array st)).
Proof.
  destruct array as [array|].
  - destruct (transformAndPackPlanes_two_runs this viewMatrix array
                {| heap := heap st; scratchPlane := sp; scratchMatrix := sm |} st eq_refl)
      as (Hr & _ & Hcells & _). cbv zeta in Hcells.
    split; [exact Hr |]. apply list_eq. intros l.
    destruct (Hcells l) as [H|[H H']]; [exact H |]. rewrite H, H'. reflexivity.
  - exact (transformAndPackPlanes_new_array_two_runs this viewMatrix
             {| heap := heap st; scratchPlane := sp; scratchMatrix := sm |} st eq_refl).
Qed.

(** ** The setter *)

(** X12: a write to [combineClippingRegions] touches the two private fields
    of the instance and nothing else: the planes, enabled, model matrix, edge
    color and edge width fields keep their values, every other object of the
    heap and both scratch objects are as before. *)
Theorem setter_writes_private_fields_only st this c value :
  heap st !! this = Some (OCollection c) ->
  exists c',
    heap (snd (set_combineClippingRegions this value st)) !! this =
      Some (OCollection c') /\
    planes c' = planes c /\ enabled c' = enabled c /\
    modelMatrix c' = modelMatrix c /\ edgeColor c' = edgeColor c /\
    edgeWidth c' = edgeWidth c /\
    (forall l, l ≠ this ->
       heap (snd (set_combineClippingRegions this value st)) !! l = heap st !! l) /\
    scratchPlane (snd (set_combineClippingRegions this value st)) = scratchPlane st /\
    scratchMatrix (snd (set_combineClippingRegions this value st)) = scratchMatrix st.
Proof.
  intros Hthis. rewrite (set_combineClippingRegions_store _ _ _ value Hthis).
  cbn [snd heap with_heap scratchPlane scratchMatrix].
  eexists. split; [eapply lookup_store_eq, Hthis |].
  repeat split; try (destruct (strict_neq _ _); reflexivity).
  intros l Hl. apply list_lookup_insert_ne. congruence.
Qed.

(** X13: on a collection whose predicate is the one of its flag, only the
    last of two consecutive writes to [combineClippingRegions] counts: the
    state after writing [a] and then [b] is the state after writing [b]
    alone.  In particular a write followed by a write of the former value
    restores the state. *)
Theorem setter_last_write_wins st this c a b :
  heap st !! this = Some (OCollection c) ->
  cache_ok c ->
  snd ((set_combineClippingRegions this a;; set_combineClippingRegions this b) st) =
  snd (set_combineClippingRegions this b st).
Proof.
  intros Hthis Hcache.
  rewrite (run_bind_ok _ _ _ _ _ (set_combineClippingRegions_store _ _ _ a Hthis)).
  erewrite set_combineClippingRegions_store
    by (cbn [heap with_heap]; eapply lookup_store_eq, Hthis).
  rewrite (set_combineClippingRegions_store _ _ _ b Hthis).
  cbn [snd heap with_heap]. rewrite with_heap_with_heap, list_insert_insert_eq.
  do 3 f_equal.
  destruct c as [p e mm ec ew flag test]. unfold cache_ok in Hcache.
  cbn [_testIntersection _combineClippingRegions] in *. subst test.
  destruct flag as [[]|], a as [[]|], b as [[]|]; reflexivity.
Qed.

(** ** The constructor *)

(** X14: a construction without options gives the new instance objects of
    its own: the instance reads an empty planes array, enabled, the identity
    matrix, intersection mode, the white color and a zero edge width, every
    object that existed before is unchanged, and two instances constructed
    this way one after the other have independent planes arrays and model
    matrices. *)
Theorem constructor_defaults_are_per_instance st :
  exists a sa b sb,
    ClippingPlanesCollection None st = (Ok a, sa) /\
    ClippingPlanesCollection None sa = (Ok b, sb) /\
    read_planes a sa = (Ok [], sa) /\
    get_field a enabled sa = (Ok true, sa) /\
    read_modelMatrix a sa = (Ok Matrix4_IDENTITY, sa) /\
    get_combineClippingRegions a sa = (Ok (Some true), sa) /\
    read_edgeColor a sa = (Ok Color_WHITE, sa) /\
    get_field a edgeWidth sa = (Ok num_zero, sa) /\
    (forall l o, heap st !! l = Some o -> heap sa !! l = Some o) /\
    planes_independent sb a b /\ planes_independent sb b a /\
    matrix_independent sb a b /\ matrix_independent sb b a.
Proof.
  destruct (constructed_all_cells None st)
    as (sa & Hruna & Hpa & Hma & Hka & Ha & Hn' & Holda).
  destruct (constructed_all_cells None sa)
    as (sb & Hrunb & Hpb & Hmb & _ & Hb & _ & Holdb).
  set (n := length (heap st)) in *. set (n' := length (heap sa)) in *.
  exists (n + 3), sa, (n' + 3), sb.
  split; [exact Hruna |]. split; [exact Hrunb |].
  split; [exact (read_planes_run _ _ _ _ Ha Hpa) |].
  split; [exact (get_field_run _ _ _ _ Ha) |].
  split; [exact (read_modelMatrix_run _ _ _ _ Ha Hma) |].
  split; [exact (get_combineClippingRegions_run _ _ _ Ha) |].
  split; [exact (read_edgeColor_run _ _ _ _ Ha Hka) |].
  split; [exact (get_field_run _ _ _ _ Ha) |].
  split; [exact Holda |].
  pose proof (Holdb _ _ Ha) as Ha'. pose proof (Holdb _ _ Hpa) as Hpa'.
  pose proof (Holdb _ _ Hma) as Hma'.
  assert (Hpne : planes (constructed None n) ≠ planes (constructed None n'))
    by (cbn; lia).
  assert (Hmne : modelMatrix (constructed None n) ≠ modelMatrix (constructed None n'))
    by (cbn; lia).
  split; [exact (distinct_arrays_independent _ _ _ _ _ _ _ Ha' Hpa' Hb Hpb Hpne) |].
  split; [exact (distinct_arrays_independent _ _ _ _ _ _ _ Hb Hpb Ha' Hpa'
                   (not_eq_sym Hpne)) |].
  split; [exact (distinct_matrices_independent _ _ _ _ _ _ _ Ha' Hma' Hb Hmb Hmne) |].
  exact (distinct_matrices_independent _ _ _ _ _ _ _ Hb Hmb Ha' Hma' (not_eq_sym Hmne)).
Qed.

(** X15: two instances constructed over the same planes array and the same
    matrix share them: a push onto the planes of the second is read in the
    planes of the first, and a write to the model matrix of the second is read
    in the model matrix of the first. *)
Theorem constructors_share_passed_objects st options a m elems mv :
  o_planes options = Some a ->
  o_modelMatrix options = Some m ->
  heap st !! a = Some (OArray elems) ->
  heap st !! m = Some (OMatrix4 mv) ->
  exists first s1 second s2,
    ClippingPlanesCollection (Some options) st = (Ok first, s1) /\
    ClippingPlanesCollection (Some options) s1 = (Ok second, s2) /\
    first ≠ second /\
    (forall v, fst (read_planes first (snd (planes_push second v s2))) =
               Ok (elems ++ [v])) /\
    (forall m2, fst (read_modelMatrix first (snd (write_modelMatrix second m2 s2))) =
                Ok m2).
Proof.
  intros Hop Hom Ha Hm.
  destruct (constructed_cells (Some options) st) as (s1 & Hrun1 & H1 & Hold1).
  destruct (constructed_cells (Some options) s1) as (s2 & Hrun2 & H2 & Hold2).
  set (n := length (heap st)) in *. set (n' := length (heap s1)) in *.
  exists (n + 3), s1, (n' + 3), s2.
  assert (Hlt : n + 3 < n') by (eapply lookup_lt_Some; exact H1).
  assert (Hp : forall k, planes (constructed (Some options) k) = a)
    by (intros; cbn [planes constructed defaultValue]; rewrite Hop; reflexivity).
  assert (Hq : forall k, modelMatrix (constructed (Some options) k) = m)
    by (intros; cbn [modelMatrix constructed defaultValue]; rewrite Hom; reflexivity).
  pose proof (Hold2 _ _ H1) as H1'.
  pose proof (Hold2 _ _ (Hold1 _ _ Ha)) as Ha'.
  pose proof (Hold2 _ _ (Hold1 _ _ Hm)) as Hm'.
  assert (Hna : n + 3 ≠ a) by (pose proof (lookup_lt_Some _ _ _ Ha); lia).
  assert (Hnm : n + 3 ≠ m) by (pose proof (lookup_lt_Some _ _ _ Hm); lia).
  split; [exact Hrun1 |]. split; [exact Hrun2 |]. split; [lia |]. split.
  - intros v. unfold planes_push.
    rewrite (run_bind_ok _ _ _ _ _ (get_field_run _ _ _ _ H2)). rewrite Hp.
    rewrite (array_push_run _ _ _ v Ha'). cbn [snd].
    rewrite (read_planes_run _ (n + 3) (constructed (Some options) n) (elems ++ [v]));
      [reflexivity | |]; cbn [heap with_heap].
    + rewrite list_lookup_insert_ne by congruence. exact H1'.
    + rewrite Hp. eapply lookup_store_eq, Ha'.
  - intros m2. unfold write_modelMatrix.
    rewrite (run_bind_ok _ _ _ _ _ (get_field_run _ _ _ _ H2)). rewrite Hq.
    rewrite (matrix_assign_run _ _ _ m2 Hm'). cbn [snd].
    rewrite (read_modelMatrix_run _ (n + 3) (constructed (Some options) n) m2);
      [reflexivity | |]; cbn [heap with_heap].
    + rewrite list_lookup_insert_ne by congruence. exact H1'.
    + rewrite Hq. eapply lookup_store_eq, Hm'.
Qed.

(** ** Cloning *)

(** X16: a clone classifies every volume as the original does.  After
    [clone], without a [result] or into another constructed instance, the
    clone and the original both return, for every volume and parent
    transform, the verdict the original returned before the call. *)
Theorem clone_classifies_like_original
    st this c locs ps m k b target bv parentTransform :
  wf_collection st this c locs ps m ->
  heap st !! edgeColor c = Some (OColor k) ->
  _combineClippingRegions c = Some b ->
  cache_ok c ->
  match target with
  | None => True
  | Some r =>
      r ≠ this /\
      exists cr rm rk,
        heap st !! r = Some (OCollection cr) /\
        heap st !! modelMatrix cr = Some (OMatrix4 rm) /\
        heap st !! edgeColor cr = Some (OColor rk) /\
        cache_ok cr
  end ->
  exists r st',
    clone this target st = (Ok r, st') /\
    fst (computeIntersectionWithBoundingVolume r (Some bv) parentTransform st') =
    fst (computeIntersectionWithBoundingVolume this (Some bv) parentTransform st) /\
    fst (computeIntersectionWithBoundingVolume this (Some bv) parentTransform st') =
    fst (computeIntersectionWithBoundingVolume this (Some bv) parentTransform st).
Proof.
  intros Hwf Hcolor Hflag Hcache Htarget.
  pose proof Hwf as [Hthis Hplanes Heach Hmatrix].
  rewrite (classify_run_closed _ _ _ _ _ _ _ bv parentTransform Hwf Hflag Hcache).
  destruct target as [r|].
  - destruct Htarget as (Hne & cr & rm & rk & Hr & Hrm & Hrk & Hcr).
    destruct (clone_into_run _ _ _ _ _ _ _ _ _ _ Hthis Hplanes Hmatrix Hcolor Hne Hr Hrm Hrk)
      as (st' & Hrun & Hr' & Ha' & Hm' & Hk' & Hframe).
    set (n := length (heap st)) in *.
    assert (Hkeep : forall l o, heap st !! l = Some o ->
              match o with OCollection _ => l ≠ r | OMatrix4 _ | OColor _ => False
                         | _ => True end ->
              heap st' !! l = Some o).
    { intros l o Hl Ho. pose proof (lookup_lt_Some _ _ _ Hl).
      rewrite Hframe; [exact Hl | | | | lia];
        intros ->; rewrite Hl in *; destruct o; try congruence; contradiction. }
    assert (Heach' : Forall2 (fun l p => heap st' !! l = Some (OPlane p)) locs ps).
    { eapply Forall2_impl; [exact Heach |]. cbn beta. intros l p Hl.
      apply (Hkeep l _ Hl). exact I. }
    assert (Hmatrix' : heap st' !! modelMatrix c = Some (OMatrix4 m)).
    { destruct (decide (modelMatrix c = modelMatrix cr)) as [->|Hd]; [exact Hm' |].
      pose proof (lookup_lt_Some _ _ _ Hmatrix).
      rewrite Hframe; [exact Hmatrix | congruence | exact Hd | congruence | lia]. }
    exists r, st'. split; [exact Hrun |]. split.
    + apply (classify_run_closed st' r (cloned_into c cr n) locs ps m b bv parentTransform).
      * split; [exact Hr' | exact Ha' | exact Heach' | exact Hm'].
      * exact Hflag.
      * unfold cache_ok, cloned_into. cbn [_testIntersection _combineClippingRegions].
        destruct (strict_neq _ _) eqn:E; [reflexivity |].
        apply strict_neq_false in E. rewrite <- E. exact Hcr.
    + apply (classify_run_closed st' this c locs ps m b bv parentTransform);
        [| exact Hflag | exact Hcache].
      split; [| | exact Heach' | exact Hmatrix'].
      * apply (Hkeep this _ Hthis). congruence.
      * apply (Hkeep _ _ Hplanes). exact I.
  - destruct (clone_fresh_cells _ _ _ _ _ _ Hthis Hplanes Hmatrix Hcolor)
      as (st' & Hrun & Hr' & Ha' & Hm' & Hk' & Hold).
    set (n := length (heap st)) in *.
    assert (Heach' : Forall2 (fun l p => heap st' !! l = Some (OPlane p)) locs ps).
    { eapply Forall2_impl; [exact Heach |]. cbn beta. intros l p Hl. apply Hold, Hl. }
    exists (n + 3), st'. split; [exact Hrun |]. split.
    + apply (classify_run_closed st' (n + 3) (cloned c n) locs ps m b bv parentTransform).
      * split; [exact Hr' | exact Ha' | exact Heach' | exact Hm'].
      * exact Hflag.
      * reflexivity.
    + apply (classify_run_closed st' this c locs ps m b bv parentTransform);
        [| exact Hflag | exact Hcache].
      split; [apply Hold, Hthis | apply Hold, Hplanes | exact Heach' | apply Hold, Hmatrix].
Qed.


(** X18: [clone] of an instance into itself returns the instance with every
    field value as it was, except that its planes are now a new array with the
    same slots; the former planes array and every other object are
    unchanged. *)
Theorem clone_into_itself st this c elems m k :
  heap st !! this = Some (OCollection c) ->
  heap st !! planes c = Some (OArray elems) ->
  heap st !! modelMatrix c = Some (OMatrix4 m) ->
  heap st !! edgeColor c = Some (OColor k) ->
  clone this (Some this) st =
  (Ok this,
   with_heap (<[this := OCollection (with_planes (length (heap st)) c)]>
                (heap st ++ [OArray elems])) st).
Proof.
  intros Hthis Hplanes Hmatrix Hcolor.
  exact (clone_self_run st this c elems m k Hthis Hplanes Hmatrix Hcolor).
Qed.

End Further.

(** ** Further runs on concrete scenes *)

Lemma classify_verdict_closed_form_witness :
  fst (computeIntersectionWithBoundingVolume 6
         (Some (Sphere_intersectPlane (sphere_at 8 1))) None slab_state) = Ok INSIDE.
Proof.
  apply (classify_verdict_closed_form slab_state 6 slab_collection [0; 1]
           (map plane_value slab_planes) ZMatrix4_IDENTITY true
           (Sphere_intersectPlane (sphere_at 8 1)) None).
  - split; [reflexivity | reflexivity | repeat constructor | reflexivity].
  - reflexivity.
  - reflexivity.
Defined.

Lemma classify_order_independent_witness :
  fst (computeIntersectionWithBoundingVolume 6
         (Some (Sphere_intersectPlane (sphere_at 0 1))) None slab_state) =
  fst (computeIntersectionWithBoundingVolume 6
         (Some (Sphere_intersectPlane (sphere_at 0 1))) None slab_reversed_state).
Proof.
  apply (classify_order_independent slab_state 6 slab_collection [0; 1]
           (map plane_value slab_planes)
           slab_reversed_state 6 slab_collection [0; 1]
           (map plane_value (rev slab_planes)) ZMatrix4_IDENTITY true
           (Sphere_intersectPlane (sphere_at 0 1)) None).
  - split; [reflexivity | reflexivity | repeat constructor | reflexivity].
  - reflexivity.
  - reflexivity.
  - split; [reflexivity | reflexivity | repeat constructor | reflexivity].
  - reflexivity.
  - reflexivity.
  - apply perm_swap.
Defined.

Lemma classify_single_plane_witness :
  fst (computeIntersectionWithBoundingVolume 5
         (Some (Sphere_intersectPlane (sphere_at (-3) 1))) None single_state) =
  Ok OUTSIDE.
Proof.
  apply (classify_single_plane single_state 5 single_collection 0
           (plane_value (1, 0, 0, 0)%Z) ZMatrix4_IDENTITY true
           (Sphere_intersectPlane (sphere_at (-3) 1)) None).
  - split; [reflexivity | reflexivity | repeat constructor | reflexivity].
  - reflexivity.
  - reflexivity.
Defined.

Lemma setter_then_classify_witness :
  fst (computeIntersectionWithBoundingVolume 6
         (Some (Sphere_intersectPlane (sphere_at (-3) 1))) None
         (snd (set_combineClippingRegions 6 (Some false) slab_state))) = Ok OUTSIDE.
Proof.
  apply (setter_then_classify slab_state 6 slab_collection [0; 1]
           (map plane_value slab_planes) ZMatrix4_IDENTITY false
           (Sphere_intersectPlane (sphere_at (-3) 1)) None).
  - split; [reflexivity | reflexivity | repeat constructor | reflexivity].
  - reflexivity.
Defined.

Lemma transformAndPackPlanes_packs_each_record_witness :
  exists st',
    transformAndPackPlanes 6 ZMatrix4_IDENTITY (Some 9) container_state = (Ok 9, st') /\
    heap st' !! 8 = Some (OCartesian4 {| x := -1; y := 0; z := 0; w := 5 |}%Z).
Proof.
  destruct (transformAndPackPlanes_packs_each_record container_state 6 slab_collection
              [0; 1] (map plane_value slab_planes) ZMatrix4_IDENTITY ZMatrix4_IDENTITY
              9 [Some 7; Some 8] [7; 8]) as (st' & Hrun & Hfill & _).
  - split; [reflexivity | reflexivity | repeat constructor | reflexivity].
  - reflexivity.
  - reflexivity.
  - intros [|[|j]] lc Hj; try discriminate Hj; injection Hj as <-;
      (split; [reflexivity | eexists; reflexivity]).
  - exists st'. split; [exact Hrun |].
    apply (Hfill 1 8 (plane_value (-1, 0, 0, 5)%Z) eq_refl eq_refl).
    intros [|[|j']] Hlt; [lia | lia | discriminate].
Defined.

Lemma transformAndPackPlanes_short_container_witness :
  exists st',
    transformAndPackPlanes 6 ZMatrix4_IDENTITY (Some 8) short_container_state =
      (Throw TypeError, st') /\
    heap st' !! 7 = Some (OCartesian4 {| x := 1; y := 0; z := 0; w := 0 |}%Z).
Proof.
  destruct (transformAndPackPlanes_short_container short_container_state 6
              slab_collection [0; 1] (map plane_value slab_planes) ZMatrix4_IDENTITY
              ZMatrix4_IDENTITY 8 [Some 7] [7]) as (st' & Hrun & Hfill & _).
  - split; [reflexivity | reflexivity | repeat constructor | reflexivity].
  - reflexivity.
  - cbn. lia.
  - intros [|j] lc Hj; try discriminate Hj; injection Hj as <-;
      (split; [reflexivity | eexists; reflexivity]).
  - reflexivity.
  - exists st'. split; [exact Hrun |].
    apply (Hfill 0 7 (plane_value (1, 0, 0, 0)%Z) eq_refl eq_refl).
    intros [|j'] Hlt; [lia | discriminate].
Defined.

Lemma transformAndPackPlanes_no_planes_witness :
  transformAndPackPlanes 4 ZMatrix4_IDENTITY None empty_state =
  (Ok 5, {| heap := heap empty_state ++ [OArray []];
            scratchPlane := scratchPlane empty_state;
            scratchMatrix := ZMatrix4_multiply ZMatrix4_IDENTITY ZMatrix4_IDENTITY |}).
Proof.
  exact (proj2 (transformAndPackPlanes_no_planes (core := ZCore) empty_state 4 empty_collection
                  ZMatrix4_IDENTITY ZMatrix4_IDENTITY eq_refl eq_refl eq_refl)).
Defined.

Lemma transformAndPackPlanes_writes_only_records_witness :
  heap (snd (transformAndPackPlanes 6 ZMatrix4_IDENTITY (Some 9) container_state)) !! 1 =
  Some (OPlane (core := ZCore) (plane_value (-1, 0, 0, 5)%Z)).
Proof.
  apply (proj1 (transformAndPackPlanes_writes_only_records (core := ZCore) 6 ZMatrix4_IDENTITY
                  container_state 1 (OPlane (core := ZCore) (plane_value (-1, 0, 0, 5)%Z))
                  eq_refl)).
  intros k. discriminate.
Defined.

Lemma setter_writes_private_fields_only_witness :
  exists c',
    heap (snd (set_combineClippingRegions 6 (Some false) slab_state)) !! 6 =
      Some (OCollection c') /\
    planes c' = 2 /\ modelMatrix c' = 4.
Proof.
  destruct (setter_writes_private_fields_only slab_state 6 slab_collection (Some false)
              eq_refl) as (c' & Hc & Hp & _ & Hm & _).
  exists c'. auto.
Defined.

Lemma setter_last_write_wins_witness :
  snd ((set_combineClippingRegions 6 (Some false);;
        set_combineClippingRegions 6 (Some true)) slab_state) =
  snd (set_combineClippingRegions 6 (Some true) slab_state).
Proof.
  exact (setter_last_write_wins (core := ZCore) slab_state 6 slab_collection (Some false) (Some true)
           eq_refl eq_refl).
Defined.

Lemma constructors_share_passed_objects_witness :
  exists first s1 second s2,
    ClippingPlanesCollection (Some (options_of (Some 1) (Some 2))) inputs_state =
      (Ok first, s1) /\
    ClippingPlanesCollection (Some (options_of (Some 1) (Some 2))) s1 = (Ok second, s2) /\
    first ≠ second /\
    (forall v, fst (read_planes first (snd (planes_push second v s2))) =
               Ok ([Some 0] ++ [v])).
Proof.
  destruct (constructors_share_passed_objects inputs_state
              (options_of (Some 1) (Some 2)) 1 2 [Some 0] ZMatrix4_IDENTITY
              eq_refl eq_refl eq_refl eq_refl)
    as (first & s1 & second & s2 & H1 & H2 & Hne & Hpush & _).
  exists first, s1, second, s2. auto.
Defined.

Lemma clone_classifies_like_original_witness :
  exists r st',
    clone 6 (Some 10) two_collections_state = (Ok r, st') /\
    fst (computeIntersectionWithBoundingVolume r
           (Some (Sphere_intersectPlane (sphere_at 2 4))) None st') =
    fst (computeIntersectionWithBoundingVolume 6
           (Some (Sphere_intersectPlane (sphere_at 2 4))) None two_collections_state).
Proof.
  destruct (clone_classifies_like_original two_collections_state 6 slab_collection
              [0; 1] (map plane_value slab_planes) ZMatrix4_IDENTITY (1, 1, 1, 1)%Z
              true (Some 10) (Sphere_intersectPlane (sphere_at 2 4)) None)
    as (r & st' & Hrun & Hclone & _).
  - split; [reflexivity | reflexivity | repeat constructor | reflexivity].
  - reflexivity.
  - reflexivity.
  - reflexivity.
  - split; [lia |].
    exists second_collection, ZMatrix4_IDENTITY, (1, 1, 1, 1)%Z.
    repeat split; reflexivity.
  - exists r, st'. auto.
Defined.


Lemma clone_into_itself_witness :
  clone 6 (Some 6) slab_state =
  (Ok 6, with_heap (<[6 := OCollection (with_planes 7 slab_collection)]>
                      (heap slab_state ++ [OArray [Some 0; Some 1]])) slab_state).
Proof.
  exact (clone_into_itself (core := ZCore) slab_state 6 slab_collection [Some 0; Some 1]
           ZMatrix4_IDENTITY (1, 1, 1, 1)%Z eq_refl eq_refl eq_refl eq_refl).
Defined.
